(** * Matchstick Empire: the simulation core, embedded and verified

    A shallow embedding of the TypeScript core of the game: clamped
    big-integer arithmetic ([SafeBigInt]), the shared state store
    ([gameActions]), the production, market, automation and achievement
    services, and the persistence layer.

    Conventions of the embedding:
    - a JavaScript [bigint] is a [Z];
    - a JavaScript [number] is a rational [Q] and its arithmetic is exact,
      [Math.floor] is [Qfloor]; [NaN] and the infinities of IEEE doubles
      are outside the model.  The rounding of doubles is written out, with
      [JS.double], in two places: where [Number(amount)] turns a bigint
      into the number a sale is paid by, and where the cost of an
      auto-clicker is the floor of a product with [Math.pow].  Elsewhere
      (the amount a click produces, the cost of a facility, prices) the
      code's doubles are read as the rationals they approximate;
    - [Date.now()] is an explicit argument [now];
    - a [Partial<T>] argument is a record of options: [None] is an absent
      property;
    - the Svelte store and the private fields of the singleton services are
      passed explicitly as one [World]. *)

From Stdlib Require Import ZArith QArith Qround Qpower Lia Lqa Bool List String Ascii.
From Stdlib Require Import DecimalString DecimalPos DecimalZ.
Import ListNotations.
Open Scope string_scope.
Open Scope list_scope.
Open Scope Z_scope.

(** ** JavaScript truthiness of the values the code tests *)

Module JS.

(** [0n] is the only falsy bigint. *)
Definition truthyZ (z : Z) : bool := negb (z =? 0).

(** [0] is the only falsy (non-NaN) number. *)
Definition truthyQ (q : Q) : bool := negb (Qeq_bool q 0).

(** [x || 0] on an optional number. *)
Definition orZero (o : option Q) : Q :=
  match o with Some q => if truthyQ q then q else 0%Q | None => 0%Q end.

(** [x || 0n] on an optional bigint. *)
Definition orZeroZ (o : option Z) : Z :=
  match o with Some z => if truthyZ z then z else 0 | None => 0 end.

(** [a < b] on numbers. *)
Definition ltQ (a b : Q) : bool :=
  match Qlt_le_dec a b with left _ => true | right _ => false end.

(** [a >= b] on numbers. *)
Definition geQ (a b : Q) : bool := negb (ltQ a b).

(** [a <= b] on numbers. *)
Definition leQ (a b : Q) : bool := negb (ltQ b a).

(** [Math.max(a, b)] and [Math.min(a, b)]. *)
Definition max (a b : Q) : Q := if ltQ a b then b else a.
Definition min (a b : Q) : Q := if ltQ b a then b else a.

(** Property spread [{...cur, ...upd}] on one property. *)
Definition merge {A} (cur : A) (upd : option A) : A :=
  match upd with Some x => x | None => cur end.

(** *** Doubles

    [n / d] for [0 < d], rounded to the nearest integer, ties to even. *)
Definition roundHalfEven (n d : Z) : Z :=
  let fl := n / d in
  let r := n mod d in
  if 2 * r <? d then fl
  else if d <? 2 * r then fl + 1
  else if Z.even fl then fl else fl + 1.

(** The fraction [n / d] times [2 ^ s]. *)
Definition scale (n d s : Z) : Z * Z :=
  if 0 <=? s then (n * 2 ^ s, d) else (n, d * 2 ^ (- s)).

(** The exponent [e] with [2 ^ e <= n / d < 2 ^ (e + 1)], for [0 < n]
    and [0 < d]. *)
Definition exponent (n d : Z) : Z :=
  let e0 := Z.log2 n - Z.log2 d in
  let '(n', d') := scale n d (- e0) in
  if n' <? d' then e0 - 1 else e0.

(** The double nearest to a rational: IEEE 754 binary64, a significand of
    53 bits, round to nearest, ties to even.  The result is in lowest
    terms.  Magnitudes of [2 ^ 1024] and more (which round to an infinity)
    and below [2 ^ -1022] (subnormal) are outside the model. *)
Definition double (q : Q) : Q :=
  let n := Z.abs (Qnum q) in
  let d := Zpos (Qden q) in
  if n =? 0 then 0%Q
  else
    let s := 52 - exponent n d in
    let '(n2, d2) := scale n d s in
    let m := roundHalfEven n2 d2 in
    let '(n3, d3) := scale m 1 (- s) in
    Qred (Qmake (Z.sgn (Qnum q) * n3) (Z.to_pos d3)).

(** [Number(z)] on a bigint. *)
Definition Number (z : Z) : Q := double (inject_Z z).

(** [a * b] on doubles. *)
Definition fmul (a b : Q) : Q := double (a * b).

(** [Math.pow(x, n)] for an integral [n].  The language leaves the
    precision of [Math.pow] to the engine; it is taken to return the double
    nearest to the exact power. *)
Definition pow (x : Q) (n : Z) : Q := double (x ^ n).

End JS.

Arguments JS.double : simpl never.
Arguments JS.Number : simpl never.
Arguments JS.fmul : simpl never.
Arguments JS.pow : simpl never.

(** ** utils/numbers.ts: [SafeBigInt] *)

Module SafeBigInt.

Definition MAX_SAFE : Z := 2 ^ 1000 - 1.

Definition add (a b : Z) : Z :=
  let result := a + b in
  if result >? MAX_SAFE then MAX_SAFE else result.

Definition subtract (a b : Z) : Z :=
  let result := a - b in
  if result <? 0 then 0 else result.

(** [a * b] on bigints cannot throw below the engine's size limit, so the
    [catch] branch is dead for the values of the model. *)
Definition multiply (a b : Z) : Z :=
  let result := a * b in
  if result >? MAX_SAFE then MAX_SAFE else result.

(** bigint division truncates towards zero. *)
Definition divide (a b : Z) : Z :=
  if b =? 0 then 0 else Z.quot a b.

Definition compare (a b : Z) : Z :=
  if a <? b then -1 else if a >? b then 1 else 0.

Definition isSafe (value : Z) : bool :=
  (value <=? MAX_SAFE) && (value >=? 0).

End SafeBigInt.

(** ** types: the shared game state *)

Record ResourceState := mkResources {
  matchsticks : Z;
  money : Q;
  wood : Q;
  reputation : Q
}.

(** [Partial<ResourceState>] *)
Record ResourceDelta := mkDelta {
  d_matchsticks : option Z;
  d_money : option Q;
  d_wood : option Q;
  d_reputation : option Q
}.

Record ProductionState := mkProduction {
  manualRate : Q;
  automatedRate : Q;
  multipliers : list (string * Q);
  lastUpdate : Z;
  totalProduced : Z
}.

Record MarketCondition := mkCondition {
  priceMultiplier : Q;
  demandLevel : string;
  trend : string;
  duration : Z;
  description : string
}.

Record PriceHistoryEntry := mkPricePoint {
  ph_timestamp : Z;
  ph_price : Q;
  ph_volume : Z;
  ph_condition : string
}.

Record MarketState := mkMarket {
  currentPrice : Q;
  basePrice : Q;
  priceHistory : list PriceHistoryEntry;
  condition : option MarketCondition;
  totalSold : Z;
  totalRevenue : Q
}.

Record AutoClicker := mkClicker {
  ac_id : string;
  ac_level : Z;
  ac_isActive : bool;
  ac_totalClicks : Z;
  ac_efficiency : Q
}.

Record AutomationState := mkAutomation {
  autoClickers : list AutoClicker;
  totalMoneySpent : Q
}.

Record AchievementState := mkAchState {
  unlocked : list string;
  totalUnlocked : Z
}.

Record GameState := mkGame {
  resources : ResourceState;
  production : ProductionState;
  market : MarketState;
  automation : AutomationState;
  achievements : AchievementState;
  currentPhase : string
}.

Record GameEvent := mkEvent {
  ev_type : string;
  ev_timestamp : Z;
  ev_source : string
}.

(** [createInitialGameState()] at time [now]. *)
Definition createInitialGameState (now : Z) : GameState :=
  mkGame
    (mkResources 0 0 0 0)
    (mkProduction 1 0 [] now 0)
    (mkMarket 1 1 []
       (Some (mkCondition 1 "normal" "stable" 0 "Normal market conditions"))
       0 0)
    (mkAutomation [] 0)
    (mkAchState [] 0)
    "manual".

(** ** Private state of the singleton services *)

Record Requirements := mkReq {
  req_type : string;
  req_resource : option string;
  req_amount : option Z;
  req_stat : option string;
  req_value : option Q;
  req_phase : option string
}.

Record Reward := mkReward {
  rw_type : string;
  rw_amount : option Q
}.

Record SimpleAchievement := mkAch {
  a_id : string;
  a_category : string;
  a_points : Z;
  a_requirements : Requirements;
  a_reward : Reward;
  a_unlocked : bool
}.

Record ClickCombo := mkCombo {
  cc_count : Z;
  cc_startTime : Z;
  cc_multiplier : Q;
  cc_maxCombo : Z
}.

Record ProductionStats := mkStats {
  st_totalClicks : Z;
  st_totalProduced : Z;
  st_maxCombo : Z;
  st_sessionProduction : Z;
  st_sessionClicks : Z
}.

Record TradeTransaction := mkTrade {
  tr_timestamp : Z;
  tr_matchsticksSold : Z;
  tr_pricePerUnit : Q;
  tr_totalRevenue : Q;
  tr_marketCondition : string;
  tr_playerCash : Q;
  tr_marketShare : Q
}.

(** The store [gameState], the event bus [gameEvents] and the private fields
    of [AchievementService], [ProductionService] and [MarketService]. *)
Record World := mkWorld {
  gameState : GameState;
  gameEvents : list GameEvent;
  svcAchievements : list SimpleAchievement;
  clickCombo : ClickCombo;
  productionStats : ProductionStats;
  lastClickTime : Z;
  recentClicks : list Z;
  recentTrades : list TradeTransaction
}.

Definition setGameState (g : GameState) (w : World) : World :=
  mkWorld g (gameEvents w) (svcAchievements w) (clickCombo w)
    (productionStats w) (lastClickTime w) (recentClicks w) (recentTrades w).

Definition setGameEvents (e : list GameEvent) (w : World) : World :=
  mkWorld (gameState w) e (svcAchievements w) (clickCombo w)
    (productionStats w) (lastClickTime w) (recentClicks w) (recentTrades w).

Definition setSvcAchievements (l : list SimpleAchievement) (w : World) : World :=
  mkWorld (gameState w) (gameEvents w) l (clickCombo w)
    (productionStats w) (lastClickTime w) (recentClicks w) (recentTrades w).

Definition setClickCombo (c : ClickCombo) (w : World) : World :=
  mkWorld (gameState w) (gameEvents w) (svcAchievements w) c
    (productionStats w) (lastClickTime w) (recentClicks w) (recentTrades w).

Definition setProductionStats (s : ProductionStats) (w : World) : World :=
  mkWorld (gameState w) (gameEvents w) (svcAchievements w) (clickCombo w)
    s (lastClickTime w) (recentClicks w) (recentTrades w).

Definition setLastClickTime (t : Z) (w : World) : World :=
  mkWorld (gameState w) (gameEvents w) (svcAchievements w) (clickCombo w)
    (productionStats w) t (recentClicks w) (recentTrades w).

Definition setRecentClicks (l : list Z) (w : World) : World :=
  mkWorld (gameState w) (gameEvents w) (svcAchievements w) (clickCombo w)
    (productionStats w) (lastClickTime w) l (recentTrades w).

Definition setRecentTrades (l : list TradeTransaction) (w : World) : World :=
  mkWorld (gameState w) (gameEvents w) (svcAchievements w) (clickCombo w)
    (productionStats w) (lastClickTime w) (recentClicks w) l.

Definition setResources (r : ResourceState) (g : GameState) : GameState :=
  mkGame r (production g) (market g) (automation g) (achievements g)
    (currentPhase g).

Definition setProduction (p : ProductionState) (g : GameState) : GameState :=
  mkGame (resources g) p (market g) (automation g) (achievements g)
    (currentPhase g).

Definition setMarket (m : MarketState) (g : GameState) : GameState :=
  mkGame (resources g) (production g) m (automation g) (achievements g)
    (currentPhase g).

Definition setAutomation (a : AutomationState) (g : GameState) : GameState :=
  mkGame (resources g) (production g) (market g) a (achievements g)
    (currentPhase g).

Definition setAchievements (a : AchievementState) (g : GameState) : GameState :=
  mkGame (resources g) (production g) (market g) (automation g) a
    (currentPhase g).

(** [Partial<ProductionState>], [Partial<MarketState>], ... as the callers
    build them. *)
Record ProductionUpdate := mkProdUpd {
  u_manualRate : option Q;
  u_multipliers : option (list (string * Q));
  u_totalProduced : option Z
}.

Record MarketUpdate := mkMarketUpd {
  u_currentPrice : option Q;
  u_priceHistory : option (list PriceHistoryEntry);
  u_condition : option (option MarketCondition);
  u_totalSold : option Z;
  u_totalRevenue : option Q
}.

Record AutomationUpdate := mkAutoUpd {
  u_autoClickers : option (list AutoClicker);
  u_totalMoneySpent : option Q
}.

Record AchievementUpdate := mkAchUpd {
  u_unlocked : option (list string);
  u_totalUnlocked : option Z
}.

(** ** stores/gameState.ts: [gameActions] *)

Module gameActions.

Definition update (f : GameState -> GameState) (w : World) : World :=
  setGameState (f (gameState w)) w.

Definition addResources (additions : ResourceDelta) (w : World) : World :=
  update (fun current =>
    let r := resources current in
    setResources
      (mkResources
         (match d_matchsticks additions with
          | Some m => if JS.truthyZ m then SafeBigInt.add (matchsticks r) m
                      else matchsticks r
          | None => matchsticks r
          end)
         (money r + JS.orZero (d_money additions))
         (wood r + JS.orZero (d_wood additions))
         (reputation r + JS.orZero (d_reputation additions)))
      current) w.

(** The four guards of [subtractResources], in source order. *)
Definition lacksZ (have : Z) (want : option Z) : bool :=
  match want with
  | Some m => JS.truthyZ m && (SafeBigInt.compare have m <? 0)
  | None => false
  end.

Definition lacksQ (have : Q) (want : option Q) : bool :=
  match want with
  | Some q => JS.truthyQ q && JS.ltQ have q
  | None => false
  end.

Definition subtractResources (subtractions : ResourceDelta) (w : World)
  : bool * World :=
  let current := gameState w in
  let r := resources current in
  if lacksZ (matchsticks r) (d_matchsticks subtractions) then (false, w)
  else if lacksQ (money r) (d_money subtractions) then (false, w)
  else if lacksQ (wood r) (d_wood subtractions) then (false, w)
  else if lacksQ (reputation r) (d_reputation subtractions) then (false, w)
  else
    (true,
     update (fun state =>
       let r := resources state in
       setResources
         (mkResources
            (match d_matchsticks subtractions with
             | Some m => if JS.truthyZ m
                         then SafeBigInt.subtract (matchsticks r) m
                         else matchsticks r
             | None => matchsticks r
             end)
            (money r - JS.orZero (d_money subtractions))
            (wood r - JS.orZero (d_wood subtractions))
            (reputation r - JS.orZero (d_reputation subtractions)))
         state) w).

Definition updateProduction (updates : ProductionUpdate) (now : Z)
    (w : World) : World :=
  update (fun current =>
    let p := production current in
    setProduction
      (mkProduction
         (JS.merge (manualRate p) (u_manualRate updates))
         (automatedRate p)
         (JS.merge (multipliers p) (u_multipliers updates))
         now
         (JS.merge (totalProduced p) (u_totalProduced updates)))
      current) w.

Definition updateMarket (updates : MarketUpdate) (w : World) : World :=
  update (fun current =>
    let m := market current in
    setMarket
      (mkMarket
         (JS.merge (currentPrice m) (u_currentPrice updates))
         (basePrice m)
         (JS.merge (priceHistory m) (u_priceHistory updates))
         (JS.merge (condition m) (u_condition updates))
         (JS.merge (totalSold m) (u_totalSold updates))
         (JS.merge (totalRevenue m) (u_totalRevenue updates)))
      current) w.

Definition updateAutomation (updates : AutomationUpdate) (w : World)
  : World :=
  update (fun current =>
    let a := automation current in
    setAutomation
      (mkAutomation
         (JS.merge (autoClickers a) (u_autoClickers updates))
         (JS.merge (totalMoneySpent a) (u_totalMoneySpent updates)))
      current) w.

Definition updateAchievements (updates : AchievementUpdate) (w : World)
  : World :=
  update (fun current =>
    let a := achievements current in
    setAchievements
      (mkAchState
         (JS.merge (unlocked a) (u_unlocked updates))
         (JS.merge (totalUnlocked a) (u_totalUnlocked updates)))
      current) w.

(** Newest first, at most 100 kept. *)
Definition emitEvent (event : GameEvent) (w : World) : World :=
  setGameEvents (firstn 100 (event :: gameEvents w)) w.

(** [gameActions.sellMatchsticks]: the store's own sale, at the current
    price. *)
Definition sellMatchsticks (amount : Z) (now : Z) (w : World)
  : bool * World :=
  let current := gameState w in
  if SafeBigInt.compare (matchsticks (resources current)) amount <? 0
  then (false, w)
  else
    let revenue := (JS.Number amount * currentPrice (market current))%Q in
    let '(ok, w1) :=
      subtractResources (mkDelta (Some amount) None None None) w in
    if ok then
      let w2 := addResources (mkDelta None (Some revenue) None None) w1 in
      let w3 := updateMarket
        (mkMarketUpd None None None
           (Some (SafeBigInt.add (totalSold (market current)) amount))
           (Some (totalRevenue (market current) + revenue)%Q)) w2 in
      let w4 := emitEvent (mkEvent "matchsticks_sold" now "market_system") w3 in
      (true, w4)
    else (false, w1).

(** [gameActions.reset]. *)
Definition reset (now : Z) (w : World) : World :=
  setGameEvents [] (setGameState (createInitialGameState now) w).

(** [validateAndSanitizeState]: an unsafe matchstick count becomes [0n],
    negative numeric resources are clamped to [0]. *)
Definition validateAndSanitizeState (state : GameState) : GameState :=
  let r := resources state in
  setResources
    (mkResources
       (if SafeBigInt.isSafe (matchsticks r) then matchsticks r else 0)
       (JS.max 0 (money r))
       (JS.max 0 (wood r))
       (JS.max 0 (reputation r)))
    state.

(** The argument of [load]: a full state, or a partial update of the four
    sub-objects that [load] merges. *)
Inductive LoadData :=
| FullState (data : GameState)
| PartialState (r : option ResourceDelta) (p : option ProductionUpdate)
    (m : option MarketUpdate) (a : option AutomationUpdate).

Definition mergeResources (cur : ResourceState) (u : ResourceDelta)
  : ResourceState :=
  mkResources
    (JS.merge (matchsticks cur) (d_matchsticks u))
    (JS.merge (money cur) (d_money u))
    (JS.merge (wood cur) (d_wood u))
    (JS.merge (reputation cur) (d_reputation u)).

Definition mergeProduction (cur : ProductionState) (u : ProductionUpdate)
  : ProductionState :=
  mkProduction
    (JS.merge (manualRate cur) (u_manualRate u))
    (automatedRate cur)
    (JS.merge (multipliers cur) (u_multipliers u))
    (lastUpdate cur)
    (JS.merge (totalProduced cur) (u_totalProduced u)).

Definition mergeMarket (cur : MarketState) (u : MarketUpdate) : MarketState :=
  mkMarket
    (JS.merge (currentPrice cur) (u_currentPrice u))
    (basePrice cur)
    (JS.merge (priceHistory cur) (u_priceHistory u))
    (JS.merge (condition cur) (u_condition u))
    (JS.merge (totalSold cur) (u_totalSold u))
    (JS.merge (totalRevenue cur) (u_totalRevenue u)).

Definition mergeAutomation (cur : AutomationState) (u : AutomationUpdate)
  : AutomationState :=
  mkAutomation
    (JS.merge (autoClickers cur) (u_autoClickers u))
    (JS.merge (totalMoneySpent cur) (u_totalMoneySpent u)).

Definition load (data : LoadData) (now : Z) (w : World) : World :=
  let w1 :=
    update (fun current =>
      match data with
      | FullState fullState => validateAndSanitizeState fullState
      | PartialState r p m a =>
          validateAndSanitizeState
            (mkGame
               (match r with Some u => mergeResources (resources current) u
                           | None => resources current end)
               (match p with Some u => mergeProduction (production current) u
                           | None => production current end)
               (match m with Some u => mergeMarket (market current) u
                           | None => market current end)
               (match a with Some u => mergeAutomation (automation current) u
                           | None => automation current end)
               (achievements current)
               (currentPhase current))
      end) w in
  emitEvent (mkEvent "state_loaded" now "game_system") w1.

End gameActions.

(** ** services/achievements.ts: [AchievementService] *)

Module AchievementService.

Definition resourceTotal (amount : Z) : Requirements :=
  mkReq "resource_total" (Some "matchsticks") (Some amount) None None None.

Definition statThreshold (stat : string) (value : Q) : Requirements :=
  mkReq "stat_threshold" None None (Some stat) (Some value) None.

Definition phaseReached (phase : string) : Requirements :=
  mkReq "phase_reached" None None None None (Some phase).

Definition moneyReward (amount : Q) : Reward := mkReward "money" (Some amount).

(** [initializeAchievements()] *)
Definition initializeAchievements : list SimpleAchievement :=
  [ mkAch "first_match" "production" 5 (resourceTotal 1) (moneyReward 10) false;
    mkAch "first_hundred" "production" 10 (resourceTotal 100) (moneyReward 50) false;
    mkAch "thousand_matches" "production" 25 (resourceTotal 1000) (moneyReward 200) false;
    mkAch "first_sale" "trading" 5 (statThreshold "totalSold" 1) (moneyReward 25) false;
    mkAch "merchant_apprentice" "trading" 10 (statThreshold "totalRevenue" 100) (moneyReward 50) false;
    mkAch "bulk_trader" "trading" 20 (statThreshold "totalSold" 1000) (moneyReward 100) false;
    mkAch "automation_investor" "automation" 15 (statThreshold "totalAutomationSpent" 500) (moneyReward 75) false;
    mkAch "clicker_collector" "automation" 20 (statThreshold "totalAutoClickers" 10) (moneyReward 100) false;
    mkAch "automation_phase" "progression" 30 (phaseReached "automation") (moneyReward 150) false ].

Definition setUnlocked (b : bool) (a : SimpleAchievement) : SimpleAchievement :=
  mkAch (a_id a) (a_category a) (a_points a) (a_requirements a) (a_reward a) b.

(** [autoClickers.reduce((sum, clicker) => sum + (clicker.level || 0), 0)] *)
Definition sumLevels (l : list AutoClicker) : Z :=
  fold_left (fun sum clicker => sum + ac_level clicker) l 0.

Definition isAchievementMet (achievement : SimpleAchievement)
    (state : GameState) : bool :=
  let req := a_requirements achievement in
  if (req_type req =? "resource_total")%string then
    match req_resource req with
    | Some r =>
        if (r =? "matchsticks")%string
        then totalProduced (production state) >=? JS.orZeroZ (req_amount req)
        else false
    | None => false
    end
  else if (req_type req =? "stat_threshold")%string then
    match req_stat req with
    | Some s =>
        if (s =? "totalSold")%string then
          JS.geQ (inject_Z (totalSold (market state))) (JS.orZero (req_value req))
        else if (s =? "totalRevenue")%string then
          JS.geQ (totalRevenue (market state)) (JS.orZero (req_value req))
        else if (s =? "totalAutomationSpent")%string then
          JS.geQ (totalMoneySpent (automation state)) (JS.orZero (req_value req))
        else if (s =? "totalAutoClickers")%string then
          JS.geQ (inject_Z (sumLevels (autoClickers (automation state))))
                 (JS.orZero (req_value req))
        else false
    | None => false
    end
  else if (req_type req =? "phase_reached")%string then
    match req_phase req with
    | Some p => (currentPhase state =? p)%string
    | None => false
    end
  else false.

Definition applyReward (reward : Reward) (w : World) : World :=
  if (rw_type reward =? "money")%string then
    match rw_amount reward with
    | Some amount =>
        if JS.truthyQ amount
        then gameActions.addResources (mkDelta None (Some amount) None None) w
        else w
    | None => w
    end
  else w.

(** What one unlock writes to the store: the reward, then the unlocked-id
    list and counter rebuilt from the snapshot [state] taken when the check
    began, then the event. *)
Definition recordUnlock (state : GameState) (now : Z)
    (achievement : SimpleAchievement) (w : World) : World :=
  let w1 := applyReward (a_reward achievement) w in
  let w2 := gameActions.updateAchievements
    (mkAchUpd
       (Some (unlocked (achievements state) ++ [a_id achievement]))
       (Some (totalUnlocked (achievements state) + 1))) w1 in
  gameActions.emitEvent
    (mkEvent "achievement_unlocked" now "achievement_service") w2.

(** The [for] loop of [checkAchievements]: the achievement objects are
    mutated in place, so the loop returns the list as it stands afterwards,
    the newly unlocked ones, and the world. *)
Fixpoint checkLoop (state : GameState) (now : Z)
    (todo : list SimpleAchievement) (w : World)
  : list SimpleAchievement * list SimpleAchievement * World :=
  match todo with
  | [] => ([], [], w)
  | achievement :: rest =>
      if a_unlocked achievement then
        let '(all, newlyUnlocked, w') := checkLoop state now rest w in
        (achievement :: all, newlyUnlocked, w')
      else if isAchievementMet achievement state then
        let achievement' := setUnlocked true achievement in
        let w1 := recordUnlock state now achievement w in
        let '(all, newlyUnlocked, w') := checkLoop state now rest w1 in
        (achievement' :: all, achievement' :: newlyUnlocked, w')
      else
        let '(all, newlyUnlocked, w') := checkLoop state now rest w in
        (achievement :: all, newlyUnlocked, w')
  end.

Definition checkAchievements (now : Z) (w : World)
  : list SimpleAchievement * World :=
  let state := gameState w in
  let '(all, newlyUnlocked, w') :=
    checkLoop state now (svcAchievements w) w in
  (newlyUnlocked, setSvcAchievements all w').

(** Modelled from the spec: [syncWithGameState()] is called by the tests
    of the service but is not among its methods in the source at hand.
    The spec has it reconcile the evaluator's internal unlocked flags with
    the persisted unlocked-id list: a rule is flagged exactly when its id
    is in the list of the store. *)
Definition syncWithGameState (w : World) : World :=
  let persisted := unlocked (achievements (gameState w)) in
  setSvcAchievements
    (map (fun a =>
            setUnlocked (existsb (String.eqb (a_id a)) persisted) a)
         (svcAchievements w)) w.

(** Reward money of a list of rules, as [applyReward] pays it. *)
Definition rewardOf (a : SimpleAchievement) : Q :=
  if (rw_type (a_reward a) =? "money")%string
  then JS.orZero (rw_amount (a_reward a)) else 0%Q.

Definition rewardsOf (l : list SimpleAchievement) : Q :=
  fold_right (fun a acc => (rewardOf a + acc)%Q) 0%Q l.

End AchievementService.

(** ** services/production.ts: [ProductionService] *)

Module ProductionService.

Record ProduceResult := mkProduced {
  produced : Z;
  comboMultiplier : Q;
  totalMultiplier : Q;
  comboCount : Z
}.

(** The service as its constructor leaves it. *)
Definition initialCombo : ClickCombo := mkCombo 0 0 1 50.
Definition initialStats : ProductionStats := mkStats 0 0 0 0 0.

Definition comboDecayTime : Z := 2000.

Definition updateClickStats (clickCount currentTime : Z) (w : World)
  : World :=
  let s := productionStats w in
  let w1 := setProductionStats
    (mkStats (st_totalClicks s + clickCount) (st_totalProduced s)
       (st_maxCombo s) (st_sessionProduction s)
       (st_sessionClicks s + clickCount)) w in
  let w2 := setLastClickTime currentTime w1 in
  let tenSecondsAgo := currentTime - 10000 in
  setRecentClicks
    (filter (fun time => time >? tenSecondsAgo)
       (recentClicks w2 ++ [currentTime])) w2.

Definition updateClickCombo (currentTime : Z) (w : World) : Q * World :=
  let timeSinceLastClick := currentTime - lastClickTime w in
  let c := clickCombo w in
  let c' :=
    if timeSinceLastClick >? comboDecayTime then
      mkCombo 1 currentTime 1 (cc_maxCombo c)
    else
      let count := Z.min (cc_count c + 1) (cc_maxCombo c) in
      mkCombo count (cc_startTime c)
        (1 + inject_Z (count - 1) * (1 # 100))%Q (cc_maxCombo c) in
  let s := productionStats w in
  let w1 := setClickCombo c' w in
  let w2 := setProductionStats
    (mkStats (st_totalClicks s) (st_totalProduced s)
       (Z.max (st_maxCombo s) (cc_count c')) (st_sessionProduction s)
       (st_sessionClicks s)) w1 in
  (cc_multiplier c', w2).

Definition calculateTotalMultiplier (comboMultiplier : Q) (w : World) : Q :=
  fold_left
    (fun totalMultiplier entry =>
       if JS.ltQ 0 (snd entry) then (totalMultiplier * snd entry)%Q
       else totalMultiplier)
    (multipliers (production (gameState w))) comboMultiplier.

(** [produceMatchsticks(clickCount)] for an integral click count; nothing
    in the [try] block throws on the values of the model. *)
Definition produceMatchsticks (clickCount : Z) (now : Z) (w : World)
  : ProduceResult * World :=
  let currentTime := now in
  let currentState := gameState w in
  let w1 := updateClickStats clickCount currentTime w in
  let baseProduction :=
    (manualRate (production currentState) * inject_Z clickCount)%Q in
  let '(comboMultiplier, w2) := updateClickCombo currentTime w1 in
  let totalMultiplier := calculateTotalMultiplier comboMultiplier w2 in
  let finalProduction := Qfloor (baseProduction * totalMultiplier) in
  let actualProduction :=
    if finalProduction >? clickCount then finalProduction else clickCount in
  let w3 := gameActions.addResources
    (mkDelta (Some actualProduction) None None None) w2 in
  let w4 := gameActions.updateProduction
    (mkProdUpd None None
       (Some (SafeBigInt.add (totalProduced (production currentState))
                actualProduction))) now w3 in
  let s := productionStats w4 in
  let w5 := setProductionStats
    (mkStats (st_totalClicks s)
       (SafeBigInt.add (st_totalProduced s) actualProduction)
       (st_maxCombo s)
       (SafeBigInt.add (st_sessionProduction s) actualProduction)
       (st_sessionClicks s)) w4 in
  let w6 := gameActions.emitEvent
    (mkEvent "manual_production" currentTime "production_service") w5 in
  let '(_, w7) := AchievementService.checkAchievements now w6 in
  (mkProduced actualProduction comboMultiplier totalMultiplier
     (cc_count (clickCombo w7)), w7).

End ProductionService.

(** ** services/market.ts: [MarketService] *)

Module MarketService.

Record SellResult := mkSell {
  success : bool;
  revenue : Q;
  pricePerUnit : Q;
  remainingMatchsticks : Z;
  marketShare : Q;
  transaction : option TradeTransaction
}.

Definition getCurrentPrice (w : World) : Q :=
  currentPrice (market (gameState w)).

Definition calculateMarketImpact (amount : Z) : Q :=
  let amountNumber := inject_Z amount in
  let impactThreshold := 1000%Q in
  if JS.leQ amountNumber impactThreshold then 1%Q
  else
    let excessAmount := (amountNumber - impactThreshold)%Q in
    let impactFactor := JS.min (2 # 10) (excessAmount / 10000) in
    (1 - impactFactor)%Q.

Definition updatePriceAfterTrade (amount : Z) (price : Q) (w : World)
  : World :=
  let amountNumber := inject_Z amount in
  let priceImpact := JS.min (5 # 100) (amountNumber / 5000) in
  let newPrice := (price * (1 - priceImpact))%Q in
  gameActions.updateMarket
    (mkMarketUpd (Some (JS.max (1 # 10) newPrice)) None None None None) w.

Definition calculateMarketShare (totalSold : Z) : Q :=
  JS.min 100 (inject_Z totalSold / 1000000 * 100).

(** [condition?.description || 'Normal'] *)
Definition conditionLabel (c : option MarketCondition) : string :=
  match c with
  | Some c => if (description c =? "")%string then "Normal" else description c
  | None => "Normal"
  end.

(** The result of the [catch] block; the error handler keeps its own log
    and does not touch the world. *)
Definition failed (w : World) : SellResult :=
  mkSell false 0 (getCurrentPrice w)
    (matchsticks (resources (gameState w))) 0 None.

Definition sellMatchsticks (amount : Z) (now : Z) (w : World)
  : SellResult * World :=
  let currentState := gameState w in
  let availableMatchsticks := matchsticks (resources currentState) in
  if amount <=? 0 then (failed w, w)
  else if amount >? availableMatchsticks then (failed w, w)
  else
    let pricePerUnit := getCurrentPrice w in
    let marketImpactMultiplier := calculateMarketImpact amount in
    let effectivePrice := (pricePerUnit * marketImpactMultiplier)%Q in
    let revenue := (JS.Number amount * effectivePrice)%Q in
    let '(ok, w1) := gameActions.sellMatchsticks amount now w in
    if negb ok then
      (mkSell false 0 pricePerUnit availableMatchsticks 0 None, w1)
    else
      let w2 := gameActions.addResources
        (mkDelta None (Some revenue) None None) w1 in
      let updatedState := gameState w2 in
      let newTotalSold :=
        SafeBigInt.add (totalSold (market updatedState)) amount in
      let newTotalRevenue :=
        (totalRevenue (market updatedState) + revenue)%Q in
      let w3 := gameActions.updateMarket
        (mkMarketUpd None None None (Some newTotalSold)
           (Some newTotalRevenue)) w2 in
      let transaction :=
        mkTrade now amount effectivePrice revenue
          (conditionLabel (condition (market currentState)))
          (money (resources updatedState))
          (calculateMarketShare newTotalSold) in
      let w4 := setRecentTrades
        (firstn 50 (transaction :: recentTrades w3)) w3 in
      let w5 := updatePriceAfterTrade amount effectivePrice w4 in
      let w6 := gameActions.emitEvent
        (mkEvent "trade_executed" now "market_service") w5 in
      let '(_, w7) := AchievementService.checkAchievements now w6 in
      (mkSell true revenue effectivePrice
         (matchsticks (resources updatedState))
         (tr_marketShare transaction) (Some transaction), w7).

End MarketService.

(** ** services/automation.ts: [AutomationService], auto-clicker purchases *)

Module AutomationService.

Record UnlockRequirement := mkUnlock {
  ur_totalProduced : option Z;
  ur_totalRevenue : option Q;
  ur_autoClickersOwned : option Q;
  ur_gamePhase : option string
}.

Record AutoClickerConfig := mkConfig {
  cfg_id : string;
  baseCost : Q;
  costMultiplier : Q;
  baseClicksPerSecond : Q;
  maxLevel : Z;
  unlockRequirement : option UnlockRequirement
}.

Definition autoClickerConfigs : list AutoClickerConfig :=
  [ mkConfig "basic_clicker" 50 (115 # 100) 1 50 None;
    mkConfig "fast_clicker" 250 (12 # 10) 3 25
      (Some (mkUnlock (Some 1000) None None None));
    mkConfig "turbo_clicker" 1000 (125 # 100) 8 10
      (Some (mkUnlock (Some 10000) (Some 1000%Q) None None));
    mkConfig "quantum_clicker" 5000 (13 # 10) 20 5
      (Some (mkUnlock (Some 100000) (Some 10000%Q) None None)) ].

Record PurchaseResult := mkPurchase {
  p_success : bool;
  p_cost : option Z;
  p_newLevel : option Z;
  p_error : option string
}.

Definition failure (error : string) : PurchaseResult :=
  mkPurchase false None None (Some error).

(** [Math.floor(config.baseCost * Math.pow(config.costMultiplier, currentLevel))],
    on the doubles that the literals of the configuration denote. *)
Definition calculateAutoClickerCost (config : AutoClickerConfig)
    (currentLevel : Z) : Z :=
  Qfloor (JS.fmul (JS.double (baseCost config))
            (JS.pow (JS.double (costMultiplier config)) currentLevel)).

Definition checkUnlockRequirement (requirement : option UnlockRequirement)
    (state : GameState) : bool :=
  match requirement with
  | None => true
  | Some requirement =>
      if match ur_totalProduced requirement with
         | Some n => JS.truthyZ n && (totalProduced (production state) <? n)
         | None => false
         end
      then false
      else if match ur_totalRevenue requirement with
              | Some q => JS.truthyQ q && JS.ltQ (totalRevenue (market state)) q
              | None => false
              end
      then false
      else if match ur_autoClickersOwned requirement with
              | Some q =>
                  JS.truthyQ q &&
                  JS.ltQ (inject_Z (AchievementService.sumLevels
                                      (autoClickers (automation state)))) q
              | None => false
              end
      then false
      else if match ur_gamePhase requirement with
              | Some p => negb (p =? "")%string
                          && negb (currentPhase state =? p)%string
              | None => false
              end
      then false
      else true
  end.

(** [updatedClickers[index] = {...existingClicker, level: newLevel}] at the
    first entry with the id. *)
Fixpoint setLevel (clickerId : string) (newLevel : Z)
    (l : list AutoClicker) : list AutoClicker :=
  match l with
  | [] => []
  | c :: rest =>
      if (ac_id c =? clickerId)%string
      then mkClicker (ac_id c) newLevel (ac_isActive c) (ac_totalClicks c)
             (ac_efficiency c) :: rest
      else c :: setLevel clickerId newLevel rest
  end.

Definition findClicker (clickerId : string) (l : list AutoClicker)
  : option AutoClicker :=
  find (fun c => (ac_id c =? clickerId)%string) l.

(** [existingClicker?.level || 0] *)
Definition levelOf (existing : option AutoClicker) : Z :=
  match existing with Some c => ac_level c | None => 0 end.

Definition purchaseAutoClicker (clickerId : string) (now : Z) (w : World)
  : PurchaseResult * World :=
  match find (fun c => (cfg_id c =? clickerId)%string) autoClickerConfigs with
  | None => (failure "Auto-clicker not found", w)
  | Some config =>
      let currentState := gameState w in
      let existingClicker :=
        findClicker clickerId (autoClickers (automation currentState)) in
      let currentLevel := levelOf existingClicker in
      if currentLevel >=? maxLevel config then
        (failure "Maximum level reached", w)
      else if negb (checkUnlockRequirement (unlockRequirement config)
                      currentState) then
        (failure "Unlock requirements not met", w)
      else
        let cost := calculateAutoClickerCost config currentLevel in
        if JS.ltQ (money (resources currentState)) (inject_Z cost) then
          (failure "Insufficient funds", w)
        else
          let w1 := gameActions.addResources
            (mkDelta None (Some (- inject_Z cost)%Q) None None) w in
          let newLevel := currentLevel + 1 in
          let updatedClickers :=
            match existingClicker with
            | Some _ =>
                setLevel clickerId newLevel
                  (autoClickers (automation currentState))
            | None =>
                autoClickers (automation currentState)
                ++ [mkClicker clickerId newLevel true 0 1]
            end in
          let w2 := gameActions.updateAutomation
            (mkAutoUpd (Some updatedClickers) None) w1 in
          let newTotalSpent :=
            (totalMoneySpent (automation currentState) + inject_Z cost)%Q in
          let w3 := gameActions.updateAutomation
            (mkAutoUpd None (Some newTotalSpent)) w2 in
          let w4 := gameActions.emitEvent
            (mkEvent "upgrade_purchased" now "automation_service") w3 in
          let '(_, w5) := AchievementService.checkAchievements now w4 in
          (mkPurchase true (Some cost) (Some newLevel) None, w5)
  end.

End AutomationService.

(** The world at process start: a fresh store and freshly constructed
    services. *)
Definition initialWorld (now : Z) : World :=
  mkWorld (createInitialGameState now) []
    AchievementService.initializeAchievements
    ProductionService.initialCombo ProductionService.initialStats 0 [] [].

(** ** services/storage.ts: [GameStorageService]

    The saved game state is handled as untyped data, as [JSON.stringify],
    [JSON.parse] and the two callbacks see it.  An object is its list of own
    properties in insertion order (keys are distinct).  The text produced by
    [JSON.stringify] is represented by its syntax tree [json]: reading the
    text back yields the tree it was printed from. *)

Module Storage.

#[warnings="-register-all"] Inductive jsval :=
| VUndef
| VNull
| VBool (b : bool)
| VNum (q : Q)
| VStr (s : string)
| VBig (z : Z)
| VArr (items : list jsval)
| VObj (props : list (string * jsval)).

#[warnings="-register-all"] Inductive json :=
| JNull
| JBool (b : bool)
| JNum (q : Q)
| JStr (s : string)
| JArr (items : list json)
| JObj (props : list (string * json)).

(** [value.toString()] of a bigint: decimal digits, with a minus sign for
    negative values. *)
Definition bigintToString (z : Z) : string :=
  NilZero.string_of_int (Z.to_int z).

(** [BigInt(s)] on a string, [None] when it throws.  Decimal literals with
    an optional minus sign are read; the other forms the constructor takes
    (empty or padded strings, a plus sign, radix prefixes) are outside the
    model and count as rejected. *)
Definition parseBigInt (s : string) : option Z :=
  option_map Z.of_int (NilZero.int_of_string s).

(** [bigIntReplacer] followed by the serialisation of what it returns:
    [JSON.stringify(value, this.bigIntReplacer)], [None] for [undefined].
    A property whose value serialises to [undefined] is left out of its
    object; such an array element becomes [null]. *)
Fixpoint stringify (value : jsval) : option json :=
  match value with
  | VUndef => None
  | VNull => Some JNull
  | VBool b => Some (JBool b)
  | VNum q => Some (JNum q)
  | VStr s => Some (JStr s)
  | VBig z =>
      Some (JObj [("__type", JStr "bigint"); ("value", JStr (bigintToString z))])
  | VArr items =>
      Some (JArr (map (fun x => match stringify x with
                                | Some j => j
                                | None => JNull
                                end) items))
  | VObj props =>
      Some (JObj (flat_map (fun p => match stringify (snd p) with
                                     | Some j => [(fst p, j)]
                                     | None => []
                                     end) props))
  end.

Fixpoint getProp {A} (key : string) (props : list (string * A)) : option A :=
  match props with
  | [] => None
  | (k, v) :: rest => if (k =? key)%string then Some v else getProp key rest
  end.

(** [BigInt(x)], [None] when it throws.  The coercion of arrays and
    objects through their string form is not modelled. *)
Definition toBigInt (x : option jsval) : option jsval :=
  match x with
  | Some (VStr s) => option_map VBig (parseBigInt s)
  | Some (VBig z) => Some (VBig z)
  | Some (VBool b) => Some (VBig (if b then 1 else 0))
  | Some (VNum q) =>
      if Qeq_bool q (inject_Z (Qfloor q)) then Some (VBig (Qfloor q)) else None
  | _ => None
  end.

Definition isTagged (props : list (string * jsval)) : bool :=
  match getProp "__type" props with
  | Some (VStr t) => (t =? "bigint")%string
  | _ => false
  end.

(** [value && value.__type === 'bigint' ? BigInt(value.value) : value] *)
Definition bigIntReviver (value : jsval) : option jsval :=
  match value with
  | VObj props =>
      if isTagged props then toBigInt (getProp "value" props) else Some value
  | _ => Some value
  end.

Fixpoint sequence {A} (l : list (option A)) : option (list A) :=
  match l with
  | [] => Some []
  | Some x :: rest => option_map (cons x) (sequence rest)
  | None :: _ => None
  end.

(** [JSON.parse(text, this.bigIntReviver)] on the tree of the text: the
    reviver is applied bottom-up, children before their holder. *)
Fixpoint parse (j : json) : option jsval :=
  match j with
  | JNull => bigIntReviver VNull
  | JBool b => bigIntReviver (VBool b)
  | JNum q => bigIntReviver (VNum q)
  | JStr s => bigIntReviver (VStr s)
  | JArr items =>
      match sequence (map parse items) with
      | Some vs => bigIntReviver (VArr vs)
      | None => None
      end
  | JObj props =>
      match sequence (map (fun p => option_map (pair (fst p)) (parse (snd p)))
                        props) with
      | Some ps => bigIntReviver (VObj ps)
      | None => None
      end
  end.

(** [sanitizeGameState]; [JSON.parse(undefined)] throws. *)
Definition sanitizeGameState (gameState : jsval) : option jsval :=
  match stringify gameState with
  | Some j => parse j
  | None => None
  end.

(** [obj.key] on a value: [None] is the [TypeError] on [undefined] and
    [null]. *)
Definition member (obj : jsval) (key : string) : option jsval :=
  match obj with
  | VUndef | VNull => None
  | VObj props =>
      match getProp key props with Some v => Some v | None => Some VUndef end
  | _ => Some VUndef
  end.

(** Data that JSON carries as it is: no [undefined] anywhere, and no
    object that bears the reserved tag of an encoded bigint. *)
Fixpoint plain (v : jsval) : bool :=
  match v with
  | VUndef => false
  | VArr items => forallb plain items
  | VObj props =>
      negb (isTagged props) && forallb (fun p => plain (snd p)) props
  | _ => true
  end.

Record GameSave := mkSave {
  gs_id : string;
  gs_name : string;
  gs_gameState : jsval;
  gs_timestamp : Z;
  gs_version : jsval;
  gs_checksum : option string;
  gs_isAutoSave : bool
}.

(** The tables of the database that saving and loading touch. *)
Record DB := mkDB {
  saves : list GameSave;
  analytics : list string
}.

(** [db.saves.put]: insert, or replace the record with the same key. *)
Definition put (save : GameSave) (l : list GameSave) : list GameSave :=
  filter (fun s => negb (gs_id s =? gs_id save)%string) l ++ [save].

(** [db.saves.get] *)
Definition get (saveId : string) (l : list GameSave) : option GameSave :=
  find (fun s => (gs_id s =? saveId)%string) l.

(** Position in [orderBy('timestamp').reverse()]: [a] comes before [b]
    when it is newer, ties going to the greater key. *)
Definition before (a b : GameSave) : bool :=
  (gs_timestamp a >? gs_timestamp b)
  || ((gs_timestamp a =? gs_timestamp b) && String.ltb (gs_id b) (gs_id a)).

(** [cleanupAutoSaves]: the auto-saves after the first five of that order
    are deleted. *)
Definition cleanupAutoSaves (l : list GameSave) : list GameSave :=
  let autoSaves := filter gs_isAutoSave l in
  let toDelete :=
    filter (fun s =>
              5 <=? Z.of_nat (List.length (filter (fun t => before t s) autoSaves)))
           autoSaves in
  filter (fun s => negb (existsb (fun d => (gs_id d =? gs_id s)%string) toDelete)) l.

Definition trackEvent (event : string) (db : DB) : DB :=
  mkDB (saves db) (analytics db ++ [event]).

Section Checksum.

(** The SHA-256 digest, in hexadecimal, of the JSON text of a tree (or
    of what the encoder makes of [undefined]). *)
Variable digest : option json -> string.

Definition createChecksum (gameState : jsval) : string :=
  digest (stringify gameState).

(** [saveGame]: [saveId] and [generatedName] stand for the identifiers
    made from the clock and the random source.  The first component is
    [None] when the call throws; the database may have changed by
    then. *)
Definition saveGame (gameState : jsval) (name : option string)
    (isAutoSave : bool) (saveId generatedName : string) (now : Z)
    (db : DB) : option string * DB :=
  let saveName :=
    match name with
    | Some n => if (n =? "")%string then generatedName else n
    | None => generatedName
    end in
  let checksum := createChecksum gameState in
  match sanitizeGameState gameState with
  | None => (None, db)
  | Some sanitized =>
      match member gameState "metadata" with
      | None => (None, db)
      | Some metadata =>
          match member metadata "version" with
          | None => (None, db)
          | Some version =>
              let gameSave :=
                mkSave saveId saveName sanitized now version
                  (Some checksum) isAutoSave in
              let l1 := put gameSave (saves db) in
              let l2 := if isAutoSave then cleanupAutoSaves l1 else l1 in
              let db2 := mkDB l2 (analytics db) in
              match member gameState "progression" with
              | None => (None, db2)
              | Some progression =>
                  match member progression "currentPhase" with
                  | None => (None, db2)
                  | Some _ =>
                      (Some saveId, trackEvent "game_saved" db2)
                  end
              end
          end
      end
  end.

(** [if (gameSave.checksum)]: an absent or empty checksum is falsy. *)
Definition hasChecksum (c : option string) : bool :=
  match c with
  | Some s => negb (s =? "")%string
  | None => false
  end.

(** [loadGame]: [None] is [null]. *)
Definition loadGame (saveId : string) (db : DB) : option jsval * DB :=
  match get saveId (saves db) with
  | None => (None, db)
  | Some gameSave =>
      if hasChecksum (gs_checksum gameSave)
         && negb (createChecksum (gs_gameState gameSave)
                  =? match gs_checksum gameSave with
                     | Some c => c
                     | None => ""
                     end)%string
      then (None, db)
      else (Some (gs_gameState gameSave), trackEvent "game_loaded" db)
  end.

End Checksum.

End Storage.

(** * Vocabulary of the statements *)

(** The safe range [0, MAX] of [isSafe]. *)
Definition inRange (z : Z) : Prop := 0 <= z <= SafeBigInt.MAX_SAFE.


(** A ledger all of whose fields are non-negative. *)
Definition ledgerNonneg (r : ResourceState) : Prop :=
  0 <= matchsticks r /\ (0 <= money r)%Q /\ (0 <= wood r)%Q
  /\ (0 <= reputation r)%Q.

(** The amount a delta names for a field: an absent property names none. *)
Definition wantZ (o : option Z) : Z :=
  match o with Some z => z | None => 0 end.

Definition wantQ (o : option Q) : Q :=
  match o with Some q => q | None => 0%Q end.

Definition nonnegDelta (d : ResourceDelta) : Prop :=
  0 <= wantZ (d_matchsticks d) /\ (0 <= wantQ (d_money d))%Q
  /\ (0 <= wantQ (d_wood d))%Q /\ (0 <= wantQ (d_reputation d))%Q.

(** Calls on the ledger, and a sequence of them run from a world. *)
Inductive LedgerCall :=
| CallAdd (d : ResourceDelta)
| CallSubtract (d : ResourceDelta).

Definition ledgerStep (w : World) (c : LedgerCall) : World :=
  match c with
  | CallAdd d => gameActions.addResources d w
  | CallSubtract d => snd (gameActions.subtractResources d w)
  end.

Definition ledgerRun (calls : list LedgerCall) (w : World) : World :=
  fold_left ledgerStep calls w.

Definition addsNonneg (c : LedgerCall) : Prop :=
  match c with
  | CallAdd d => nonnegDelta d
  | CallSubtract _ => True
  end.

(** A field is short of a request when a non-zero amount is asked of it and
    its balance is below that amount. *)
Definition shortZ (have : Z) (want : option Z) : Prop :=
  wantZ want <> 0 /\ have < wantZ want.

Definition shortQ (have : Q) (want : option Q) : Prop :=
  ~ (wantQ want == 0)%Q /\ (have < wantQ want)%Q.

Definition insufficient (r : ResourceState) (d : ResourceDelta) : Prop :=
  shortZ (matchsticks r) (d_matchsticks d)
  \/ shortQ (money r) (d_money d)
  \/ shortQ (wood r) (d_wood d)
  \/ shortQ (reputation r) (d_reputation d).

(** [r'] is [r] less exactly the amounts of [d]. *)
Definition debited (r r' : ResourceState) (d : ResourceDelta) : Prop :=
  matchsticks r' = matchsticks r - wantZ (d_matchsticks d)
  /\ (money r' == money r - wantQ (d_money d))%Q
  /\ (wood r' == wood r - wantQ (d_wood d))%Q
  /\ (reputation r' == reputation r - wantQ (d_reputation d))%Q.

(** Two worlds that differ at most in the resource ledger. *)
Definition onlyLedgerChanged (w w' : World) : Prop :=
  w' = setGameState (setResources (resources (gameState w')) (gameState w)) w.

(** A world holding 100 matchsticks and 20 of money. *)
Definition ledgerExample : World :=
  gameActions.addResources (mkDelta (Some 100) (Some 20%Q) None None)
    (initialWorld 0).

(** The parts of the game state that achievement requirements read. *)
Definition sameQualifying (g g' : GameState) : Prop :=
  production g = production g' /\ market g = market g'
  /\ automation g = automation g' /\ currentPhase g = currentPhase g'.

(** The rule flags of the evaluator only grow from [l] to [l']. *)
Definition flagsGrow (l l' : list SimpleAchievement) : Prop :=
  Forall2 (fun a a' => a_id a = a_id a'
                       /\ (a_unlocked a = true -> a_unlocked a' = true)) l l'.

(** A rule that a check would unlock: not flagged, requirement met. *)
Definition due (state : GameState) (a : SimpleAchievement) : bool :=
  negb (a_unlocked a) && AchievementService.isAchievementMet a state.

(** A world where 150 matchsticks have been produced and none sold. *)
Definition producedExample : World :=
  gameActions.updateProduction (mkProdUpd None None (Some 150)) 0
    (initialWorld 0).

(** A snapshot whose persisted list already holds [first_match], with 150
    matchsticks produced: both production rules are met. *)
Definition loadedExample : GameState :=
  setAchievements (mkAchState ["first_match"] 1) (gameState producedExample).

(** The world of the market tests: a reset store holding 1000 matchsticks. *)
Definition marketExample : World :=
  gameActions.addResources (mkDelta (Some 1000) None None None)
    (gameActions.reset 0 (initialWorld 0)).

(** The same store with every rule of the evaluator already flagged, so
    that a check pays nothing. *)
Definition marketExampleNoRewards : World :=
  setSvcAchievements
    (map (AchievementService.setUnlocked true)
       AchievementService.initializeAchievements) marketExample.

(** A fresh world with 200 of money. *)
Definition fundedExample : World :=
  gameActions.addResources (mkDelta None (Some 200%Q) None None)
    (initialWorld 0).

Definition basicClicker : AutomationService.AutoClickerConfig :=
  AutomationService.mkConfig "basic_clicker" 50 (115 # 100) 1 50 None.

(** The configuration and the current level that a purchase looks up. *)
Definition configOf (clickerId : string)
  : option AutomationService.AutoClickerConfig :=
  find (fun c => (AutomationService.cfg_id c =? clickerId)%string)
    AutomationService.autoClickerConfigs.

Definition currentLevelOf (clickerId : string) (w : World) : Z :=
  AutomationService.levelOf
    (AutomationService.findClicker clickerId
       (autoClickers (automation (gameState w)))).



(** The two property reads of [saveGame] find their objects. *)
Definition hasSections (g : Storage.jsval) : bool :=
  match Storage.member g "metadata", Storage.member g "progression" with
  | Some m, Some p =>
      match Storage.member m "version", Storage.member p "currentPhase" with
      | Some _, Some _ => true
      | _, _ => false
      end
  | _, _ => false
  end.

(** Every auto-save of the table was made before [now]. *)
Definition autoSavesOlder (now : Z) (l : list Storage.GameSave) : Prop :=
  Forall (fun s => Storage.gs_isAutoSave s = true -> Storage.gs_timestamp s < now) l.

(** A game state as the market service leaves it once a condition has been
    cleared ([updateMarket({ condition: undefined })]), with a matchstick
    count beyond 2^53. *)
Definition clearedConditionState : Storage.jsval :=
  Storage.VObj
    [("resources", Storage.VObj [("matchsticks", Storage.VBig (2 ^ 70));
                                 ("money", Storage.VNum 0)]);
     ("market", Storage.VObj [("currentPrice", Storage.VNum 1);
                              ("condition", Storage.VUndef);
                              ("totalSold", Storage.VBig 0)]);
     ("progression", Storage.VObj [("currentPhase", Storage.VStr "manual")]);
     ("metadata", Storage.VObj [("version", Storage.VStr "1.0.0")])].

(** The same state with the condition present. *)
Definition plainState : Storage.jsval :=
  Storage.VObj
    [("resources", Storage.VObj [("matchsticks", Storage.VBig (2 ^ 70));
                                 ("money", Storage.VNum 0)]);
     ("market", Storage.VObj [("currentPrice", Storage.VNum 1);
                              ("condition",
                               Storage.VObj [("priceMultiplier", Storage.VNum 1)]);
                              ("totalSold", Storage.VBig 0)]);
     ("progression", Storage.VObj [("currentPhase", Storage.VStr "manual")]);
     ("metadata", Storage.VObj [("version", Storage.VStr "1.0.0")])].

(** A digest to compute with: it tells [undefined] from a tree and trees by
    their outermost form only. *)
Definition sampleDigest (j : option Storage.json) : string :=
  match j with
  | None => "e3b0"
  | Some (Storage.JObj _) => "a1f0"
  | Some (Storage.JArr _) => "b2e1"
  | Some _ => "c3d2"
  end.

Definition emptyDB : Storage.DB := Storage.mkDB [] [].

(** Structural induction on values, through the lists of array items and
    of object properties. *)
Section JsvalInduction.

Variable P : Storage.jsval -> Prop.
Hypothesis HUndef : P Storage.VUndef.
Hypothesis HNull : P Storage.VNull.
Hypothesis HBool : forall b, P (Storage.VBool b).
Hypothesis HNum : forall q, P (Storage.VNum q).
Hypothesis HStr : forall s, P (Storage.VStr s).
Hypothesis HBig : forall z, P (Storage.VBig z).
Hypothesis HArr : forall items, Forall P items -> P (Storage.VArr items).
Hypothesis HObj : forall props,
  Forall (fun p => P (snd p)) props -> P (Storage.VObj props).

Fixpoint jsval_nested_ind (v : Storage.jsval) : P v :=
  match v with
  | Storage.VUndef => HUndef
  | Storage.VNull => HNull
  | Storage.VBool b => HBool b
  | Storage.VNum q => HNum q
  | Storage.VStr s => HStr s
  | Storage.VBig z => HBig z
  | Storage.VArr items =>
      HArr items
        ((fix go (l : list Storage.jsval) : Forall P l :=
            match l with
            | [] => Forall_nil P
            | x :: rest => Forall_cons x (jsval_nested_ind x) (go rest)
            end) items)
  | Storage.VObj props =>
      HObj props
        ((fix go (l : list (string * Storage.jsval))
            : Forall (fun p => P (snd p)) l :=
            match l with
            | [] => Forall_nil _
            | p :: rest =>
                Forall_cons (P := fun p => P (snd p)) p
                  (jsval_nested_ind (snd p)) (go rest)
            end) props)
  end.

End JsvalInduction.
(** A stored record whose checksum property is the empty string. *)
Definition emptyChecksumSave : Storage.GameSave :=
  Storage.mkSave "s1" "Save_1" plainState 1 (Storage.VStr "1.0.0")
    (Some "") false.

(** A stored record without a checksum property. *)
Definition noChecksumSave : Storage.GameSave :=
  Storage.mkSave "s1" "Save_1" plainState 1 (Storage.VStr "1.0.0")
    None false.

(** * Further code of the cited files *)

From Stdlib Require Qabs.

(** ** utils/numbers.ts: [SafeBigInt.power] *)

Module Numbers.

(** The [for] loop of [power], with the iterations left to run: each one
    multiplies and leaves early once the bound is reached. *)
Fixpoint powerLoop (iterations : nat) (result base : Z) : Z :=
  match iterations with
  | O => result
  | S rest =>
      let result' := SafeBigInt.multiply result base in
      if result' >=? SafeBigInt.MAX_SAFE then SafeBigInt.MAX_SAFE
      else powerLoop rest result' base
  end.

(** [i] runs from 1 up to [exponent - 1]: no iteration for an exponent
    below 2. *)
Definition power (base exponent : Z) : Z :=
  if exponent =? 0 then 1
  else if exponent =? 1 then base
  else if base =? 0 then 0
  else if base =? 1 then 1
  else powerLoop (Z.to_nat (exponent - 1)) base base.

End Numbers.

(** ** stores/gameState.ts: the other actions of the store *)

Module Store.

(** [updateResources]: the update is spread over the ledger, except that a
    matchstick count is taken only when it is truthy and safe. *)
Definition updateResources (updates : ResourceDelta) (w : World) : World :=
  gameActions.update (fun current =>
    let r := resources current in
    setResources
      (mkResources
         (match d_matchsticks updates with
          | Some m =>
              if JS.truthyZ m
              then (if SafeBigInt.isSafe m then m else matchsticks r)
              else matchsticks r
          | None => matchsticks r
          end)
         (JS.merge (money r) (d_money updates))
         (JS.merge (wood r) (d_wood updates))
         (JS.merge (reputation r) (d_reputation updates)))
      current) w.

(** Events emitted one after the other. *)
Definition emitAll (events : list GameEvent) (w : World) : World :=
  fold_left (fun w e => gameActions.emitEvent e w) events w.

End Store.

(** ** services/production.ts: the other methods of [ProductionService] *)

Module Production.

(** [resetCombo()] *)
Definition resetCombo (w : World) : World :=
  setClickCombo (mkCombo 0 0 1 (cc_maxCombo (clickCombo w))) w.

(** [obj[key] = value] on the property list of an object: the property is
    overwritten where it stands, or added at the end. *)
Fixpoint setKey (key : string) (value : Q) (l : list (string * Q))
  : list (string * Q) :=
  match l with
  | [] => [(key, value)]
  | (k, v) :: rest =>
      if (k =? key)%string then (k, value) :: rest
      else (k, v) :: setKey key value rest
  end.

(** [delete obj[key]] *)
Definition deleteKey (key : string) (l : list (string * Q))
  : list (string * Q) :=
  filter (fun p => negb (fst p =? key)%string) l.

(** [`temp_${Date.now()}`] *)
Definition tempId (now : Z) : string :=
  ("temp_" ++ Storage.bigintToString now)%string.

(** [removeMultiplier(multiplierId)] *)
Definition removeMultiplier (multiplierId : string) (now : Z) (w : World)
  : World :=
  let currentState := gameState w in
  let updatedMultipliers :=
    deleteKey multiplierId (multipliers (production currentState)) in
  gameActions.updateProduction
    (mkProdUpd None (Some updatedMultipliers) None) now w.

(** [applyTemporaryMultiplier(multiplier, duration)]: the world after the
    call, and the id whose removal the timer has been armed for. *)
Definition applyTemporaryMultiplier (multiplier : Q) (duration : Z)
    (now : Z) (w : World) : string * World :=
  let currentState := gameState w in
  let id := tempId now in
  let updatedMultipliers :=
    setKey id multiplier (multipliers (production currentState)) in
  let w1 := gameActions.updateProduction
    (mkProdUpd None (Some updatedMultipliers) None) now w in
  (id, gameActions.emitEvent
         (mkEvent "multiplier_applied" now "production_service") w1).

(** A run of calls of [produceMatchsticks], each with its click count and
    the time it is made at. *)
Definition clicks (calls : list (Z * Z)) (w : World) : World :=
  fold_left
    (fun w c => snd (ProductionService.produceMatchsticks (fst c) (snd c) w))
    calls w.

End Production.

(** The combo a click leaves behind when it continues the one it finds. *)
Definition nextCombo (c : ClickCombo) : ClickCombo :=
  let count := Z.min (cc_count c + 1) (cc_maxCombo c) in
  mkCombo count (cc_startTime c)
    (1 + inject_Z (count - 1) * (1 # 100))%Q (cc_maxCombo c).

(** No property of the table is named [key]. *)
Definition freshKey (key : string) (l : list (string * Q)) : Prop :=
  forall p, In p l -> fst p <> key.

(** A world with one permanent multiplier. *)
Definition boostedExample : World :=
  gameActions.updateProduction
    (mkProdUpd (Some 10%Q) (Some [("upgrade", 2%Q)]) None) 0 (initialWorld 0).

(** ** services/market.ts: price ticks, conditions, analytics *)

Module Market.

Record MarketConditionConfig := mkConditionConfig {
  mc_id : string;
  mc_name : string;
  mc_description : string;
  mc_priceMultiplier : Q;
  mc_demandLevel : string;
  mc_duration : Z;
  mc_probability : Q
}.

Definition marketConditions : list MarketConditionConfig :=
  [ mkConditionConfig "recession" "Economic Recession"
      "Demand for luxury items like matchsticks decreases"
      (7 # 10) "low" 120000 (5 # 100);
    mkConditionConfig "boom" "Economic Boom"
      "High demand for all goods including matchsticks"
      (14 # 10) "high" 90000 (8 # 100);
    mkConditionConfig "winter_season" "Winter Season"
      "Cold weather increases demand for fire-making tools"
      (12 # 10) "high" 180000 (12 # 100);
    mkConditionConfig "fire_ban" "Fire Safety Restrictions"
      "Government restrictions reduce matchstick demand"
      (6 # 10) "low" 150000 (3 # 100);
    mkConditionConfig "festival" "Festival Season"
      "Celebrations and events drive up matchstick demand"
      (13 # 10) "peak" 60000 (1 # 10) ].

Definition baseVolatility : Q := 2 # 100.
Definition maxPriceHistory : Z := 100.

(** The condition that [applyMarketCondition] builds from a configuration. *)
Definition conditionOf (config : MarketConditionConfig) : MarketCondition :=
  mkCondition (mc_priceMultiplier config) (mc_demandLevel config)
    (if JS.ltQ 1 (mc_priceMultiplier config) then "rising" else "falling")
    (mc_duration config) (mc_name config).

Definition applyMarketCondition (config : MarketConditionConfig) (now : Z)
    (w : World) : World :=
  let w1 := gameActions.updateMarket
    (mkMarketUpd None None (Some (Some (conditionOf config))) None None) w in
  gameActions.emitEvent (mkEvent "condition_change" now "market_service") w1.

Definition clearMarketCondition (now : Z) (w : World) : World :=
  let w1 := gameActions.updateMarket
    (mkMarketUpd None None (Some None) None None) w in
  gameActions.emitEvent (mkEvent "condition_change" now "market_service") w1.

(** [triggerMarketCondition(conditionId)] *)
Definition triggerMarketCondition (conditionId : string) (now : Z)
    (w : World) : bool * World :=
  match find (fun c => (mc_id c =? conditionId)%string) marketConditions with
  | None => (false, w)
  | Some condition => (true, applyMarketCondition condition now w)
  end.

(** [condition?.priceMultiplier || 1] *)
Definition conditionMultiplier (c : option MarketCondition) : Q :=
  match c with
  | Some c => if JS.truthyQ (priceMultiplier c) then priceMultiplier c else 1%Q
  | None => 1%Q
  end.

(** [updateMarketPrice()]; [random] is the value [Math.random()] returns. *)
Definition updateMarketPrice (random : Q) (now : Z) (w : World) : World :=
  let currentState := gameState w in
  let currentPrice := currentPrice (market currentState) in
  let basePrice := basePrice (market currentState) in
  let conditionMultiplier := conditionMultiplier (condition (market currentState)) in
  let volatility :=
    match condition (market currentState) with
    | Some _ => (baseVolatility * (1 + Qabs.Qabs (conditionMultiplier - 1)))%Q
    | None => baseVolatility
    end in
  let randomFactor := ((random - (5 # 10)) * 2)%Q in
  let priceChange := (currentPrice * volatility * randomFactor)%Q in
  let targetPrice := (basePrice * conditionMultiplier)%Q in
  let pullToTarget := ((targetPrice - currentPrice) * (1 # 10))%Q in
  let newPrice := JS.max (1 # 10) (currentPrice + priceChange + pullToTarget) in
  let pushed :=
    priceHistory (market currentState)
    ++ [mkPricePoint now newPrice 0
          (MarketService.conditionLabel (condition (market currentState)))] in
  let updatedHistory :=
    if Z.of_nat (List.length pushed) >? maxPriceHistory then tl pushed
    else pushed in
  let w1 := gameActions.updateMarket
    (mkMarketUpd (Some newPrice) (Some updatedHistory) None None None) w in
  gameActions.emitEvent (mkEvent "price_change" now "market_service") w1.

(** The loop over the predefined conditions: the [i]-th value of
    [Math.random()] is compared with the probability of the [i]-th
    configuration, and the first hit is applied. *)
Fixpoint tryConditions (configs : list MarketConditionConfig) (i : nat)
    (random : nat -> Q) (now : Z) (w : World) : World :=
  match configs with
  | [] => w
  | condition :: rest =>
      if JS.ltQ (random i) (mc_probability condition)
      then applyMarketCondition condition now w
      else tryConditions rest (S i) random now w
  end.

(** [checkForMarketConditions()]; [random] gives the successive values of
    [Math.random()] during the call. *)
Definition checkForMarketConditions (random : nat -> Q) (now : Z)
    (w : World) : World :=
  match condition (market (gameState w)) with
  | Some _ =>
      if JS.ltQ (random 0%nat) (1 # 10) then clearMarketCondition now w
      else w
  | None => tryConditions marketConditions 0 random now w
  end.

(** [array.slice(-n)] *)
Definition lastN {A} (n : nat) (l : list A) : list A :=
  skipn (List.length l - n) l.

(** [Math.min(...prices)] and [Math.max(...prices)] on a non-empty list
    (on the empty list they are the infinities, which the callers never
    reach). *)
Definition minOf (prices : list Q) : Q :=
  match prices with
  | [] => 0%Q
  | p :: rest => fold_left JS.min rest p
  end.

Definition maxOf (prices : list Q) : Q :=
  match prices with
  | [] => 0%Q
  | p :: rest => fold_left JS.max rest p
  end.

(** [calculateSupportResistance(priceHistory)]: (support, resistance). *)
Definition calculateSupportResistance (priceHistory : list PriceHistoryEntry)
  : Q * Q :=
  if (List.length priceHistory <? 20)%nat then (0%Q, 0%Q)
  else
    let recent := lastN 50 priceHistory in
    let prices := map ph_price recent in
    (minOf prices, maxOf prices).

End Market.

(** A world whose market is under a boom. *)
Definition boomExample : World :=
  snd (Market.triggerMarketCondition "boom" 0 (initialWorld 0)).

(** The outcome of the loop over the predefined conditions, started at the
    [i]-th random value: no draw is a hit and the world is unchanged, or
    the first hit is applied. *)
Definition tryConditions_result (configs : list Market.MarketConditionConfig)
    (i : nat) (random : nat -> Q) (now : Z) (w : World) : Prop :=
  let w' := Market.tryConditions configs i random now w in
  (w' = w
   /\ forall k c, nth_error configs k = Some c ->
        JS.ltQ (random (i + k)%nat) (Market.mc_probability c) = false)
  \/ exists k c,
       nth_error configs k = Some c
       /\ JS.ltQ (random (i + k)%nat) (Market.mc_probability c) = true
       /\ (forall j cj, (j < k)%nat -> nth_error configs j = Some cj ->
             JS.ltQ (random (i + j)%nat) (Market.mc_probability cj) = false)
       /\ Market.tryConditions configs i random now w
          = Market.applyMarketCondition c now w.

(** A history of [n] points at price [p]. *)
Definition flatHistory (n : nat) (p : Q) : list PriceHistoryEntry :=
  repeat (mkPricePoint 0 p 0 "Normal") n.

(** ** services/automation.ts: listings, facilities, maintenance *)

Module Automation.

(** An entry of [getAvailableAutoClickers()]: the configuration with the
    cost, level and status computed for it. *)
Record AvailableClicker := mkAvailable {
  av_config : AutomationService.AutoClickerConfig;
  av_cost : Z;
  av_currentLevel : Z;
  av_isUnlocked : bool;
  av_isMaxed : bool
}.

Definition getAvailableAutoClickers (w : World) : list AvailableClicker :=
  let currentState := gameState w in
  map (fun config =>
         let existingClicker :=
           AutomationService.findClicker (AutomationService.cfg_id config)
             (autoClickers (automation currentState)) in
         let currentLevel := AutomationService.levelOf existingClicker in
         let cost :=
           AutomationService.calculateAutoClickerCost config currentLevel in
         let isUnlocked :=
           AutomationService.checkUnlockRequirement
             (AutomationService.unlockRequirement config) currentState in
         let isMaxed := currentLevel >=? AutomationService.maxLevel config in
         mkAvailable config cost currentLevel isUnlocked isMaxed)
      AutomationService.autoClickerConfigs.

(** The facility configurations hold the owned count and the efficiency,
    which the service updates in place. *)
Record ProductionFacility := mkFacility {
  f_id : string;
  f_cost : Q;
  f_baseProduction : Z;
  f_owned : Z;
  f_maxOwned : Z;
  f_efficiency : Q;
  f_maintenanceCost : Q;
  f_unlockRequirement : option AutomationService.UnlockRequirement
}.

(** The requirement object of [mega_plant] has none of the properties that
    [checkUnlockRequirement] reads. *)
Definition facilityConfigs0 : list ProductionFacility :=
  [ mkFacility "basic_factory" 500 5 0 10 1 2
      (Some (AutomationService.mkUnlock (Some 5000) None None None));
    mkFacility "advanced_factory" 2500 25 0 5 1 8
      (Some (AutomationService.mkUnlock (Some 50000) None (Some 5%Q) None));
    mkFacility "mega_plant" 15000 100 0 2 1 30
      (Some (AutomationService.mkUnlock None None None None)) ].

(** The world together with the private facility table of the service. *)
Record Plant := mkPlant {
  plantWorld : World;
  facilityConfigs : list ProductionFacility
}.

Record FacilityResult := mkFacilityResult {
  fr_success : bool;
  fr_cost : option Z;
  fr_newCount : option Z;
  fr_error : option string
}.

Definition facilityFailure (error : string) : FacilityResult :=
  mkFacilityResult false None None (Some error).

(** [this.facilityConfigs[facilityIndex].owned = count] at the first entry
    with the id. *)
Fixpoint setOwned (facilityId : string) (count : Z)
    (l : list ProductionFacility) : list ProductionFacility :=
  match l with
  | [] => []
  | f :: rest =>
      if (f_id f =? facilityId)%string
      then mkFacility (f_id f) (f_cost f) (f_baseProduction f) count
             (f_maxOwned f) (f_efficiency f) (f_maintenanceCost f)
             (f_unlockRequirement f) :: rest
      else f :: setOwned facilityId count rest
  end.

Definition facilityCost (config : ProductionFacility) : Z :=
  Qfloor (f_cost config * (15 # 10) ^ f_owned config)%Q.

Definition purchaseFacility (facilityId : string) (now : Z) (s : Plant)
  : FacilityResult * Plant :=
  match find (fun f => (f_id f =? facilityId)%string) (facilityConfigs s) with
  | None => (facilityFailure "Facility not found", s)
  | Some config =>
      let w := plantWorld s in
      let currentState := gameState w in
      let currentCount := f_owned config in
      if currentCount >=? f_maxOwned config then
        (facilityFailure "Maximum facilities owned", s)
      else if negb (AutomationService.checkUnlockRequirement
                      (f_unlockRequirement config) currentState) then
        (facilityFailure "Unlock requirements not met", s)
      else
        let cost := facilityCost config in
        if JS.ltQ (money (resources currentState)) (inject_Z cost) then
          (facilityFailure "Insufficient funds", s)
        else
          let w1 := gameActions.addResources
            (mkDelta None (Some (- inject_Z cost)%Q) None None) w in
          let configs' :=
            setOwned facilityId (currentCount + 1) (facilityConfigs s) in
          let newTotalSpent :=
            (totalMoneySpent (automation currentState) + inject_Z cost)%Q in
          let w2 := gameActions.updateAutomation
            (mkAutoUpd None (Some newTotalSpent)) w1 in
          let w3 := gameActions.emitEvent
            (mkEvent "upgrade_purchased" now "automation_service") w2 in
          let '(_, w4) := AchievementService.checkAchievements now w3 in
          (mkFacilityResult true (Some cost) (Some (currentCount + 1)) None,
           mkPlant w4 configs')
  end.

Definition maintenanceFrequency : Q := 5000.

(** [reduceFacilityEfficiency()] *)
Definition reduceFacilityEfficiency (now : Z) (s : Plant) : Plant :=
  mkPlant
    (gameActions.emitEvent
       (mkEvent "maintenance_required" now "automation_service")
       (plantWorld s))
    (map (fun f =>
            mkFacility (f_id f) (f_cost f) (f_baseProduction f) (f_owned f)
              (f_maxOwned f)
              (JS.max (1 # 10) (f_efficiency f - (5 # 100)))
              (f_maintenanceCost f) (f_unlockRequirement f))
         (facilityConfigs s)).

Definition totalMaintenanceCost (l : list ProductionFacility) : Q :=
  fold_left (fun sum f => (sum + f_maintenanceCost f * inject_Z (f_owned f))%Q)
    l 0%Q.

(** [processMaintenance()] *)
Definition processMaintenance (now : Z) (s : Plant) : Plant :=
  let total := totalMaintenanceCost (facilityConfigs s) in
  if JS.ltQ 0 total then
    let maintenancePerInterval := (total * (maintenanceFrequency / 1000))%Q in
    let currentState := gameState (plantWorld s) in
    if JS.geQ (money (resources currentState)) maintenancePerInterval then
      mkPlant
        (gameActions.addResources
           (mkDelta None (Some (- maintenancePerInterval)%Q) None None)
           (plantWorld s))
        (facilityConfigs s)
    else reduceFacilityEfficiency now s
  else s.

End Automation.

(** Owned counts within their caps, efficiencies within [0.1, 1]. *)
Definition facilitiesWithinCaps (l : list Automation.ProductionFacility)
  : Prop :=
  Forall (fun f => Automation.f_owned f <= Automation.f_maxOwned f) l.

Definition efficienciesInRange (l : list Automation.ProductionFacility)
  : Prop :=
  Forall (fun f => (1 # 10 <= Automation.f_efficiency f <= 1)%Q) l.

(** A fresh plant with 20000 of money, and one that owns a factory. *)
Definition plantExample : Automation.Plant :=
  Automation.mkPlant
    (gameActions.addResources (mkDelta None (Some 20000%Q) None None)
       (initialWorld 0))
    Automation.facilityConfigs0.

Definition ownedPlantExample : Automation.Plant :=
  snd (Automation.purchaseFacility "mega_plant" 1 plantExample).

(** ** services/achievements.ts: the rest of [AchievementService] *)

Module Achievements.







(** [getStats().unlockedAchievements] *)
Definition unlockedAchievements (w : World) : nat :=
  List.length (filter a_unlocked (svcAchievements w)).

End Achievements.





(** ** services/storage.ts: deleting saves *)

From Stdlib Require OrderedTypeEx.

Module SaveStore.

(** [deleteSave]: [false] when no record has the key. *)
Definition deleteSave (saveId : string) (db : Storage.DB)
  : bool * Storage.DB :=
  let count :=
    List.length
      (filter (fun s => (Storage.gs_id s =? saveId)%string) (Storage.saves db)) in
  if (count =? 0)%nat then (false, db)
  else
    (true,
     Storage.trackEvent "game_deleted"
       (Storage.mkDB
          (filter (fun s => negb (Storage.gs_id s =? saveId)%string)
             (Storage.saves db))
          (Storage.analytics db))).

(** [listSaves]: the records in [orderBy('timestamp').reverse()], that is
    by the number of records that come before each. *)
Definition rank (l : list Storage.GameSave) (s : Storage.GameSave) : nat :=
  List.length (filter (fun t => Storage.before t s) l).

End SaveStore.

(** The key of the table: no two records share an id. *)
Definition distinctKeys (l : list Storage.GameSave) : Prop :=
  NoDup (map Storage.gs_id l).

Definition autoSaveCount (l : list Storage.GameSave) : nat :=
  List.length (filter Storage.gs_isAutoSave l).

(** Seven auto-saves and a manual save, all older than the auto-saves. *)
Definition autoSave (n : Z) : Storage.GameSave :=
  Storage.mkSave ("auto_" ++ Storage.bigintToString n) "Auto" Storage.VNull n
    Storage.VNull None true.

Definition crowdedSaves : list Storage.GameSave :=
  Storage.mkSave "manual" "Mine" Storage.VNull 0 Storage.VNull None false
  :: map autoSave [1; 2; 3; 4; 5; 6; 7].

(** ** services/automation.ts: the periodic processing *)

Module Ticks.

Definition autoClickFrequency : Q := 1000.
Definition autoProductionFrequency : Z := 1000.

(** [{ ...c, totalClicks: SafeBigInt.add(c.totalClicks, BigInt(actualClicks)) }]
    on the clickers with the id, over the list given. *)
Definition bumpClicks (id : string) (actualClicks : Z) (l : list AutoClicker)
  : list AutoClicker :=
  map (fun c =>
         if (ac_id c =? id)%string
         then mkClicker (ac_id c) (ac_level c) (ac_isActive c)
                (SafeBigInt.add (ac_totalClicks c) actualClicks)
                (ac_efficiency c)
         else c) l.

(** The [for] loop of [processAutoClickers].  [currentState] is the state
    read before the loop; [clock i] is the time at which the production
    call of iteration [i] reads the clock. *)
Fixpoint clickerLoop (currentState : GameState) (clock : nat -> Z) (i : nat)
    (todo : list AutoClicker) (w : World) : World :=
  match todo with
  | [] => w
  | clicker :: rest =>
      if negb (ac_isActive clicker) then
        clickerLoop currentState clock (S i) rest w
      else
        match find (fun c => (AutomationService.cfg_id c =? ac_id clicker)%string)
                AutomationService.autoClickerConfigs with
        | None => clickerLoop currentState clock (S i) rest w
        | Some config =>
            let clicksPerInterval :=
              (AutomationService.baseClicksPerSecond config
               * (autoClickFrequency / 1000))%Q in
            let actualClicks :=
              Qfloor (clicksPerInterval * inject_Z (ac_level clicker)
                      * ac_efficiency clicker) in
            if actualClicks >? 0 then
              let '(_, w1) :=
                ProductionService.produceMatchsticks actualClicks (clock i) w in
              let updatedClickers :=
                bumpClicks (ac_id clicker) actualClicks
                  (autoClickers (automation currentState)) in
              let w2 := gameActions.updateAutomation
                (mkAutoUpd (Some updatedClickers) None) w1 in
              clickerLoop currentState clock (S i) rest w2
            else clickerLoop currentState clock (S i) rest w
        end
  end.

(** [processAutoClickers()] *)
Definition processAutoClickers (clock : nat -> Z) (w : World) : World :=
  let currentState := gameState w in
  clickerLoop currentState clock 0 (autoClickers (automation currentState)) w.

(** The [reduce] of [processAutoProduction]. *)
Definition totalProduction (l : list Automation.ProductionFacility) : Z :=
  fold_left
    (fun sum facility =>
       let productionPerSecond :=
         SafeBigInt.multiply (Automation.f_baseProduction facility)
           (Automation.f_owned facility) in
       let productionPerInterval :=
         SafeBigInt.divide
           (SafeBigInt.multiply productionPerSecond autoProductionFrequency)
           1000 in
       SafeBigInt.add sum productionPerInterval)
    l 0.

(** [processAutoProduction()]; [now] is the time the store stamps on the
    production record. *)
Definition processAutoProduction (now : Z) (s : Automation.Plant)
  : Automation.Plant :=
  let total := totalProduction (Automation.facilityConfigs s) in
  if total >? 0 then
    let w1 := gameActions.addResources
      (mkDelta (Some total) None None None) (Automation.plantWorld s) in
    let currentState := gameState w1 in
    let w2 := gameActions.updateProduction
      (mkProdUpd None None
         (Some (SafeBigInt.add (totalProduced (production currentState))
                  total))) now w1 in
    Automation.mkPlant w2 (Automation.facilityConfigs s)
  else s.

End Ticks.

(** The clicks a clicker makes in one tick: zero when it is switched off
    or has no configuration. *)
Definition clicksOf (clicker : AutoClicker) : Z :=
  if ac_isActive clicker then
    match find (fun c => (AutomationService.cfg_id c =? ac_id clicker)%string)
            AutomationService.autoClickerConfigs with
    | Some config =>
        Qfloor (AutomationService.baseClicksPerSecond config
                * (Ticks.autoClickFrequency / 1000)
                * inject_Z (ac_level clicker) * ac_efficiency clicker)
    | None => 0
    end
  else 0.

Definition clicking (clicker : AutoClicker) : bool := clicksOf clicker >? 0.

(** Facilities whose output per tick is within the safe range. *)
Definition modestOutput (l : list Automation.ProductionFacility) : Prop :=
  Forall (fun f => 0 <= Automation.f_baseProduction f
                   /\ 0 <= Automation.f_owned f
                   /\ Automation.f_baseProduction f * Automation.f_owned f * 1000
                      <= SafeBigInt.MAX_SAFE) l.

Definition outputPerSecond (l : list Automation.ProductionFacility) : Z :=
  fold_right
    (fun f acc => Automation.f_baseProduction f * Automation.f_owned f + acc)
    0 l.

(** ** What the JSON round trip of [sanitizeGameState] does to a state *)

(** The tree with each property whose value is [undefined] left out and
    each [undefined] array element turned into [null], at every depth. *)
Fixpoint prune (v : Storage.jsval) : Storage.jsval :=
  match v with
  | Storage.VArr items =>
      Storage.VArr
        (map (fun x => match x with
                       | Storage.VUndef => Storage.VNull
                       | _ => prune x
                       end) items)
  | Storage.VObj props =>
      Storage.VObj
        (flat_map (fun p => match snd p with
                            | Storage.VUndef => []
                            | _ => [(fst p, prune (snd p))]
                            end) props)
  | _ => v
  end.

(** The data of a state: the tree without the properties that hold
    [undefined].  A read of a property gives [undefined] whether the
    property is absent or holds [undefined], and the comparisons of the
    repository's tests ([toEqual], field by field) pass over such
    properties, so two states with the same data are the same state to
    every reader. *)
Fixpoint dataOf (v : Storage.jsval) : Storage.jsval :=
  match v with
  | Storage.VArr items => Storage.VArr (map dataOf items)
  | Storage.VObj props =>
      Storage.VObj
        (flat_map (fun p => match snd p with
                            | Storage.VUndef => []
                            | _ => [(fst p, dataOf (snd p))]
                            end) props)
  | _ => v
  end.

Definition sameData (a b : Storage.jsval) : Prop := dataOf a = dataOf b.

(** No array of the tree holds [undefined], at any depth. *)
Fixpoint definedElements (v : Storage.jsval) : bool :=
  match v with
  | Storage.VArr items =>
      forallb (fun x => match x with
                        | Storage.VUndef => false
                        | _ => definedElements x
                        end) items
  | Storage.VObj props => forallb (fun p => definedElements (snd p)) props
  | _ => true
  end.
(** * Properties *)

(** ** Reading the boolean tests *)

(** Case analysis on the integer comparisons that occur in the goal. *)
Ltac split_tests :=
  repeat match goal with
         | |- context [?a >? ?b] => destruct (Z.gtb_spec a b)
         | |- context [?a <? ?b] => destruct (Z.ltb_spec a b)
         | |- context [?a =? ?b] => destruct (Z.eqb_spec a b)
         end.

Lemma ltQ_true a b : JS.ltQ a b = true <-> (a < b)%Q.
Proof.
  unfold JS.ltQ. destruct (Qlt_le_dec a b) as [H | H]; split; intros; auto.
  - discriminate.
  - exfalso. apply (Qlt_not_le _ _ H0 H).
Qed.

Lemma ltQ_false a b : JS.ltQ a b = false <-> (b <= a)%Q.
Proof.
  unfold JS.ltQ. destruct (Qlt_le_dec a b) as [H | H]; split; intros; auto.
  - discriminate.
  - exfalso. apply (Qlt_not_le _ _ H H0).
Qed.

Lemma truthyQ_true q : JS.truthyQ q = true <-> ~ (q == 0)%Q.
Proof.
  unfold JS.truthyQ. rewrite negb_true_iff, <- Qeq_bool_iff.
  destruct (Qeq_bool q 0); split; intros; congruence.
Qed.

Lemma truthyQ_false q : JS.truthyQ q = false <-> (q == 0)%Q.
Proof.
  unfold JS.truthyQ. rewrite negb_false_iff. apply Qeq_bool_iff.
Qed.

Lemma truthyZ_true z : JS.truthyZ z = true <-> z <> 0.
Proof. unfold JS.truthyZ. rewrite negb_true_iff. apply Z.eqb_neq. Qed.

Lemma truthyZ_false z : JS.truthyZ z = false <-> z = 0.
Proof. unfold JS.truthyZ. rewrite negb_false_iff. apply Z.eqb_eq. Qed.

Lemma orZero_eq o : (JS.orZero o == wantQ o)%Q.
Proof.
  destruct o as [q |]; simpl; [| reflexivity].
  destruct (JS.truthyQ q) eqn:E; [reflexivity |].
  apply truthyQ_false in E. symmetry. exact E.
Qed.

Lemma orZeroZ_eq o : JS.orZeroZ o = wantZ o.
Proof.
  destruct o as [z |]; simpl; [| reflexivity].
  destruct (JS.truthyZ z) eqn:E; [reflexivity |].
  apply truthyZ_false in E. congruence.
Qed.

Lemma MAX_SAFE_pos : 0 < SafeBigInt.MAX_SAFE.
Proof.
  unfold SafeBigInt.MAX_SAFE.
  assert (2 ^ 1 <= 2 ^ 1000) by (apply Z.pow_le_mono_r; lia).
  change (2 ^ 1) with 2 in H. lia.
Qed.

(** ** NumericSafety *)

Lemma isSafe_inRange z : SafeBigInt.isSafe z = true <-> inRange z.
Proof.
  unfold SafeBigInt.isSafe, inRange.
  rewrite andb_true_iff, Z.leb_le, Z.geb_le. tauto.
Qed.

(** C3, as stated, fails: the clamps are one-sided, so a negative operand
    passes through [add] unchanged and the result leaves [0, MAX]. *)
Lemma safeBigInt_range_counterexample :
  SafeBigInt.add (-5) 0 = -5 /\ ~ inRange (SafeBigInt.add (-5) 0).
Proof.
  assert (E : SafeBigInt.add (-5) 0 = -5).
  { vm_compute. reflexivity. }
  split; [exact E |]. rewrite E. unfold inRange. lia.
Qed.

(** C3 (amended): for all bigints, [add] and [multiply] never exceed MAX,
    [subtract] is never negative and [divide] by zero is 0; and when both
    operands are safe, i.e. in [0, MAX], all four results are in [0, MAX]. *)
Theorem safeBigInt_bounds (a b : Z) :
  SafeBigInt.add a b <= SafeBigInt.MAX_SAFE
  /\ SafeBigInt.multiply a b <= SafeBigInt.MAX_SAFE
  /\ 0 <= SafeBigInt.subtract a b
  /\ SafeBigInt.divide a 0 = 0
  /\ (SafeBigInt.isSafe a = true -> SafeBigInt.isSafe b = true ->
      inRange (SafeBigInt.add a b) /\ inRange (SafeBigInt.subtract a b)
      /\ inRange (SafeBigInt.multiply a b) /\ inRange (SafeBigInt.divide a b)).
Proof.
  pose proof MAX_SAFE_pos as HM.
  unfold SafeBigInt.add, SafeBigInt.multiply, SafeBigInt.subtract,
    SafeBigInt.divide, inRange.
  rewrite !isSafe_inRange. unfold inRange.
  generalize dependent SafeBigInt.MAX_SAFE. intros M HM.
  repeat split; intros; split_tests; try lia; try nia.
  all: try (apply Z.quot_pos; lia).
  all: rewrite Z.quot_div_nonneg by lia;
    assert (a / b <= a) by (apply Z.div_le_upper_bound; nia); lia.
Qed.

Lemma safeBigInt_bounds_witness :
  SafeBigInt.isSafe 7 = true /\ SafeBigInt.isSafe 2 = true
  /\ inRange (SafeBigInt.divide 7 2).
Proof.
  split; [vm_compute; reflexivity |]. split; [vm_compute; reflexivity |].
  apply (safeBigInt_bounds 7 2); vm_compute; reflexivity.
Defined.

(** ** StateStore: the resource ledger *)

Lemma lacksZ_iff have want :
  gameActions.lacksZ have want = true <-> shortZ have want.
Proof.
  unfold gameActions.lacksZ, shortZ, SafeBigInt.compare.
  destruct want as [m |]; simpl.
  - rewrite andb_true_iff, truthyZ_true.
    destruct (Z.ltb_spec have m); [| destruct (Z.gtb_spec have m)];
      simpl; intuition (try lia; try discriminate).
  - split; [discriminate | intros [H _]; congruence].
Qed.

Lemma lacksQ_iff have want :
  gameActions.lacksQ have want = true <-> shortQ have want.
Proof.
  unfold gameActions.lacksQ, shortQ.
  destruct want as [q |]; simpl.
  - rewrite andb_true_iff, truthyQ_true, ltQ_true. tauto.
  - split; [discriminate | intros [H _]; exfalso; apply H; reflexivity].
Qed.

Lemma lacksZ_false have want :
  gameActions.lacksZ have want = false <-> ~ shortZ have want.
Proof. rewrite <- lacksZ_iff. destruct (gameActions.lacksZ have want); intuition congruence. Qed.

Lemma lacksQ_false have want :
  gameActions.lacksQ have want = false <-> ~ shortQ have want.
Proof. rewrite <- lacksQ_iff. destruct (gameActions.lacksQ have want); intuition congruence. Qed.

(** What [subtractResources] returns, by cases on its four guards. *)
Lemma subtractResources_cases d w :
  let r := resources (gameState w) in
  (insufficient r d /\ gameActions.subtractResources d w = (false, w))
  \/ (~ insufficient r d
      /\ exists w', gameActions.subtractResources d w = (true, w')
         /\ debited r (resources (gameState w')) d
         /\ onlyLedgerChanged w w').
Proof.
  intros r. unfold gameActions.subtractResources. fold r.
  destruct (gameActions.lacksZ (matchsticks r) (d_matchsticks d)) eqn:E1.
  { left. split; [left; apply lacksZ_iff; exact E1 | reflexivity]. }
  destruct (gameActions.lacksQ (money r) (d_money d)) eqn:E2.
  { left. split; [right; left; apply lacksQ_iff; exact E2 | reflexivity]. }
  destruct (gameActions.lacksQ (wood r) (d_wood d)) eqn:E3.
  { left. split; [right; right; left; apply lacksQ_iff; exact E3 | reflexivity]. }
  destruct (gameActions.lacksQ (reputation r) (d_reputation d)) eqn:E4.
  { left. split; [right; right; right; apply lacksQ_iff; exact E4 | reflexivity]. }
  right. apply lacksZ_false in E1. apply lacksQ_false in E2, E3, E4.
  split; [unfold insufficient; tauto |].
  eexists. split; [reflexivity |]. split; [| reflexivity].
  unfold debited, gameActions.update; simpl. fold r.
  repeat split.
  - unfold shortZ in E1. destruct (d_matchsticks d) as [m |]; simpl in *; [| lia].
    destruct (JS.truthyZ m) eqn:T.
    + apply truthyZ_true in T. unfold SafeBigInt.subtract.
      destruct (Z.ltb_spec (matchsticks r - m) 0); lia.
    + apply truthyZ_false in T. lia.
  - rewrite orZero_eq. reflexivity.
  - rewrite orZero_eq. reflexivity.
  - rewrite orZero_eq. reflexivity.
Qed.

(** C5: [subtractResources] validates every requested field before it
    changes any.  If some field is short of its (non-zero) requested amount
    the call returns false and the world is the one it was given; otherwise
    it returns true, every field is less exactly the requested amount, and
    nothing but the ledger has changed. *)
Theorem subtractResources_all_or_nothing (d : ResourceDelta) (w : World) :
  (insufficient (resources (gameState w)) d ->
   gameActions.subtractResources d w = (false, w))
  /\ (~ insufficient (resources (gameState w)) d ->
      exists w', gameActions.subtractResources d w = (true, w')
        /\ debited (resources (gameState w)) (resources (gameState w')) d
        /\ onlyLedgerChanged w w').
Proof.
  destruct (subtractResources_cases d w) as [[H E] | [H E]]; split; intros;
    try assumption; contradiction.
Qed.

Lemma subtractResources_all_or_nothing_witness :
  (* asking for more money than held: refused, nothing changes *)
  gameActions.subtractResources (mkDelta (Some 40) (Some 50%Q) None None)
    ledgerExample = (false, ledgerExample)
  (* asking for what is held: granted, exactly debited *)
  /\ exists w', gameActions.subtractResources
                  (mkDelta (Some 40) (Some 5%Q) None None) ledgerExample
                = (true, w')
        /\ matchsticks (resources (gameState w')) = 60
        /\ (money (resources (gameState w')) == 15)%Q.
Proof.
  split.
  - apply (subtractResources_all_or_nothing
             (mkDelta (Some 40) (Some 50%Q) None None) ledgerExample).
    right; left. split; vm_compute; [discriminate | reflexivity].
  - destruct (subtractResources_all_or_nothing
                (mkDelta (Some 40) (Some 5%Q) None None) ledgerExample)
      as [_ H].
    destruct H as (w' & E & D & _).
    + intros [[_ H] | [[_ H] | [[H _] | [H _]]]]; vm_compute in H;
        try discriminate; apply H; reflexivity.
    + exists w'. split; [exact E |].
      destruct D as (Dm & Dq & _). split.
      * rewrite Dm. vm_compute. reflexivity.
      * rewrite Dq. vm_compute. reflexivity.
Defined.

Lemma addResources_nonneg d w :
  nonnegDelta d -> ledgerNonneg (resources (gameState w)) ->
  ledgerNonneg (resources (gameState (gameActions.addResources d w))).
Proof.
  unfold nonnegDelta, ledgerNonneg, gameActions.addResources,
    gameActions.update; simpl.
  intros (Dm & Dq & Dw & Dr) (Hm & Hq & Hw & Hr).
  pose proof (orZero_eq (d_money d)) as E1.
  pose proof (orZero_eq (d_wood d)) as E2.
  pose proof (orZero_eq (d_reputation d)) as E3.
  repeat split; try lra.
  destruct (d_matchsticks d) as [m |]; simpl in *; [| assumption].
  destruct (JS.truthyZ m); [| assumption].
  unfold SafeBigInt.add. pose proof MAX_SAFE_pos.
  destruct (Z.gtb_spec (matchsticks (resources (gameState w)) + m)
              SafeBigInt.MAX_SAFE); lia.
Qed.

Lemma subtractResources_nonneg d w :
  ledgerNonneg (resources (gameState w)) ->
  ledgerNonneg (resources (gameState (snd (gameActions.subtractResources d w)))).
Proof.
  intros H.
  destruct (subtractResources_cases d w) as [[_ E] | [N (w' & E & D & _)]];
    rewrite E; simpl; [exact H |].
  destruct D as (Dm & Dq & Dw & Dr).
  destruct H as (Hm & Hq & Hw & Hr).
  unfold insufficient, shortZ, shortQ in N.
  unfold ledgerNonneg. rewrite Dm, Dq, Dw, Dr.
  repeat split.
  - destruct (Z.eq_dec (wantZ (d_matchsticks d)) 0); lia.
  - destruct (Qeq_dec (wantQ (d_money d)) 0) as [Z0 | NZ]; [lra |].
    destruct (Qlt_le_dec (money (resources (gameState w))) (wantQ (d_money d)));
      [exfalso; tauto | lra].
  - destruct (Qeq_dec (wantQ (d_wood d)) 0) as [Z0 | NZ]; [lra |].
    destruct (Qlt_le_dec (wood (resources (gameState w))) (wantQ (d_wood d)));
      [exfalso; tauto | lra].
  - destruct (Qeq_dec (wantQ (d_reputation d)) 0) as [Z0 | NZ]; [lra |].
    destruct (Qlt_le_dec (reputation (resources (gameState w)))
                (wantQ (d_reputation d)));
      [exfalso; tauto | lra].
Qed.

Lemma ledgerRun_nonneg calls : forall w,
  Forall addsNonneg calls -> ledgerNonneg (resources (gameState w)) ->
  ledgerNonneg (resources (gameState (ledgerRun calls w))).
Proof.
  induction calls as [| c calls IH]; intros w F H; simpl; [exact H |].
  inversion F as [| ? ? Hc Hrest]; subst.
  apply IH; [exact Hrest |].
  destruct c as [d | d]; simpl.
  - apply addResources_nonneg; assumption.
  - apply subtractResources_nonneg; assumption.
Qed.

(** C4, as stated, fails: [addResources] adds whatever it is given, and
    the purchase and maintenance paths call it with negative amounts. *)
Lemma ledger_nonneg_counterexample :
  ~ ledgerNonneg
      (resources (gameState
         (ledgerRun [CallAdd (mkDelta None (Some (-5)%Q) None None)]
            (initialWorld 0)))).
Proof.
  intros (_ & H & _). vm_compute in H. apply H. reflexivity.
Qed.

(** C4 (amended): starting from the initial state, after every call of a
    sequence of [addResources] and [subtractResources] calls in which every
    amount added is non-negative, all four ledger fields are >= 0. *)
Theorem ledger_nonneg (calls : list LedgerCall) (n : nat) (now : Z) :
  Forall addsNonneg calls ->
  ledgerNonneg (resources (gameState (ledgerRun (firstn n calls)
                                        (initialWorld now)))).
Proof.
  intros F. apply ledgerRun_nonneg.
  - apply Forall_forall. intros c Hc. rewrite Forall_forall in F.
    apply F. rewrite <- (firstn_skipn n calls). apply in_or_app. left. exact Hc.
  - unfold ledgerNonneg; simpl. repeat split; try lia; lra.
Qed.

Lemma ledger_nonneg_witness :
  ledgerNonneg
    (resources (gameState
       (ledgerRun
          (firstn 2 [CallAdd (mkDelta (Some 3) (Some 2%Q) None None);
                     CallSubtract (mkDelta (Some 1) (Some (-4)%Q) None None);
                     CallSubtract (mkDelta (Some 9) None None None)])
          (initialWorld 0)))).
Proof.
  apply (ledger_nonneg
           [CallAdd (mkDelta (Some 3) (Some 2%Q) None None);
            CallSubtract (mkDelta (Some 1) (Some (-4)%Q) None None);
            CallSubtract (mkDelta (Some 9) None None None)] 2 0).
  repeat constructor; simpl; try lia; vm_compute; discriminate.
Defined.

(** ** AchievementEvaluator *)

Lemma isAchievementMet_qualifying a g g' :
  sameQualifying g g' ->
  AchievementService.isAchievementMet a g
  = AchievementService.isAchievementMet a g'.
Proof.
  intros (Hp & Hm & Ha & Hc). unfold AchievementService.isAchievementMet.
  rewrite Hp, Hm, Ha, Hc. reflexivity.
Qed.

Lemma sameQualifying_refl g : sameQualifying g g.
Proof. repeat split. Qed.

Lemma sameQualifying_trans g1 g2 g3 :
  sameQualifying g1 g2 -> sameQualifying g2 g3 -> sameQualifying g1 g3.
Proof.
  intros (A1 & A2 & A3 & A4) (B1 & B2 & B3 & B4).
  repeat split; congruence.
Qed.

(** One unlock: what it pays, what it writes, what it leaves alone. *)
Lemma recordUnlock_effect state now a w :
  let w' := AchievementService.recordUnlock state now a w in
  sameQualifying (gameState w) (gameState w')
  /\ (money (resources (gameState w'))
      == money (resources (gameState w)) + AchievementService.rewardOf a)%Q
  /\ unlocked (achievements (gameState w'))
     = unlocked (achievements state) ++ [a_id a]
  /\ svcAchievements w' = svcAchievements w.
Proof.
  unfold AchievementService.recordUnlock, AchievementService.applyReward,
    AchievementService.rewardOf.
  destruct (rw_type (a_reward a) =? "money")%string; simpl;
    [destruct (rw_amount (a_reward a)) as [q |]; simpl;
     [destruct (JS.truthyQ q) eqn:T; simpl |] |];
    repeat split; simpl; rewrite ?T; try reflexivity; try lra.
Qed.

(** The loop of [checkAchievements], in closed form. *)
Lemma checkLoop_spec state now todo : forall w,
  let r := AchievementService.checkLoop state now todo w in
  fst (fst r)
  = map (fun a => if due state a
                  then AchievementService.setUnlocked true a else a) todo
  /\ snd (fst r)
     = map (AchievementService.setUnlocked true) (filter (due state) todo)
  /\ sameQualifying (gameState w) (gameState (snd r))
  /\ (money (resources (gameState (snd r)))
      == money (resources (gameState w))
         + AchievementService.rewardsOf (snd (fst r)))%Q
  /\ svcAchievements (snd r) = svcAchievements w
  /\ (unlocked (achievements (gameState (snd r)))
      = unlocked (achievements (gameState w))
      \/ exists a, In a (filter (due state) todo)
           /\ unlocked (achievements (gameState (snd r)))
              = unlocked (achievements state) ++ [a_id a])
  /\ (filter (due state) todo = [] -> snd r = w).
Proof.
  induction todo as [| a rest IH]; intros w;
    cbn [AchievementService.checkLoop map filter].
  - cbn. repeat split; try reflexivity; [lra | left; reflexivity].
  - destruct (a_unlocked a) eqn:U.
    + assert (D : due state a = false) by (unfold due; rewrite U; reflexivity).
      rewrite D. specialize (IH w).
      destruct (AchievementService.checkLoop state now rest w)
        as [[all newly] w'] eqn:E.
      cbn [fst snd] in *. destruct IH as (I1 & I2 & I3 & I4 & I5 & I6 & I7).
      repeat split; try assumption; try congruence; apply I3.
    + destruct (AchievementService.isAchievementMet a state) eqn:M.
      * assert (D : due state a = true)
          by (unfold due; rewrite U, M; reflexivity).
        rewrite D.
        pose proof (recordUnlock_effect state now a w) as (R1 & R2 & R3 & R4).
        specialize (IH (AchievementService.recordUnlock state now a w)).
        destruct (AchievementService.checkLoop state now rest
                    (AchievementService.recordUnlock state now a w))
          as [[all newly] w'] eqn:E.
        cbn [fst snd map] in *.
        destruct IH as (I1 & I2 & I3 & I4 & I5 & I6 & I7).
        split; [congruence |]. split; [congruence |].
        split; [| split; [| split; [congruence | split]]].
        -- eapply sameQualifying_trans; eassumption.
        -- rewrite I4, R2. cbn [AchievementService.rewardsOf fold_right].
           fold (AchievementService.rewardsOf newly).
           assert (AchievementService.rewardOf
                     (AchievementService.setUnlocked true a)
                   = AchievementService.rewardOf a) as -> by reflexivity.
           lra.
        -- right. destruct I6 as [I6 | (b & Hb & I6)].
           ++ exists a. split; [left; reflexivity | congruence].
           ++ exists b. split; [right; exact Hb | exact I6].
        -- intros H; discriminate.
      * assert (D : due state a = false)
          by (unfold due; rewrite U, M; reflexivity).
        rewrite D. specialize (IH w).
        destruct (AchievementService.checkLoop state now rest w)
          as [[all newly] w'] eqn:E.
        cbn [fst snd] in *. destruct IH as (I1 & I2 & I3 & I4 & I5 & I6 & I7).
        repeat split; try assumption; try congruence; apply I3.
Qed.

Lemma setSvcAchievements_same w :
  setSvcAchievements (svcAchievements w) w = w.
Proof. destruct w; reflexivity. Qed.

Lemma due_after_check s s' a :
  sameQualifying s s' ->
  due s' (if due s a then AchievementService.setUnlocked true a else a) = false.
Proof.
  intros Q. destruct (due s a) eqn:D.
  - reflexivity.
  - unfold due in *. destruct (a_unlocked a); [reflexivity |].
    rewrite <- (isAchievementMet_qualifying a s s' Q). exact D.
Qed.

Lemma filter_none {A} (p : A -> bool) l :
  (forall x, In x l -> p x = false) -> filter p l = [].
Proof.
  induction l as [| x l IH]; intros H; simpl; [reflexivity |].
  rewrite (H x (or_introl eq_refl)). apply IH. intros y Hy. apply H. right. exact Hy.
Qed.

Lemma NoDup_map_filter {A B} (f : A -> B) (p : A -> bool) l :
  NoDup (map f l) -> NoDup (map f (filter p l)).
Proof.
  induction l as [| x l IH]; intros H; simpl; [constructor |].
  inversion H as [| ? ? Hx Hl]; subst.
  destruct (p x); simpl; [| apply IH; exact Hl].
  constructor; [| apply IH; exact Hl].
  intros Hin. apply Hx. apply in_map_iff in Hin. destruct Hin as (y & Ey & Hy).
  apply filter_In in Hy. apply in_map_iff. exists y. tauto.
Qed.

Lemma map_id_unlocked l :
  map a_id (map (AchievementService.setUnlocked true) l) = map a_id l.
Proof. rewrite map_map. reflexivity. Qed.

Lemma flagsGrow_check s l :
  flagsGrow l
    (map (fun a => if due s a
                   then AchievementService.setUnlocked true a else a) l).
Proof.
  induction l as [| a l IH]; simpl; constructor; [| exact IH].
  destruct (due s a); simpl; auto.
Qed.

(** A second check right after a check finds nothing due. *)
Lemma nothing_due_after_check s s' l :
  sameQualifying s s' ->
  filter (due s')
    (map (fun a => if due s a
                   then AchievementService.setUnlocked true a else a) l) = [].
Proof.
  intros Q. apply filter_none. intros x Hx. apply in_map_iff in Hx.
  destruct Hx as (a & <- & _). apply due_after_check. exact Q.
Qed.

Lemma map_not_due s l :
  filter (due s) l = [] ->
  map (fun a => if due s a
                then AchievementService.setUnlocked true a else a) l = l.
Proof.
  induction l as [| a l IH]; simpl; intros H; [reflexivity |].
  destruct (due s a); [discriminate |]. rewrite IH by exact H. reflexivity.
Qed.

(** C6: within one process, checking twice in succession unlocks each rule
    id at most once and pays each reward once.  The first call returns
    exactly the rules that were not flagged and whose requirement the state
    meets, flags exactly these, and pays exactly their rewards; the second
    call returns no newly unlocked rule and leaves the world as the first
    call left it; no flag is cleared and no id leaves the persisted
    unlocked list. *)
Theorem checkAchievements_idempotent (w : World) (now1 now2 : Z) :
  let first := AchievementService.checkAchievements now1 w in
  let second := AchievementService.checkAchievements now2 (snd first) in
  fst second = []
  /\ snd second = snd first
  /\ (money (resources (gameState (snd first)))
      == money (resources (gameState w))
         + AchievementService.rewardsOf (fst first))%Q
  /\ (NoDup (map a_id (svcAchievements w)) ->
      NoDup (map a_id (fst first ++ fst second)))
  /\ Forall (fun a => exists a0, In a0 (svcAchievements w)
                        /\ a_id a0 = a_id a /\ a_unlocked a0 = false)
       (fst first)
  /\ flagsGrow (svcAchievements w) (svcAchievements (snd first))
  /\ incl (unlocked (achievements (gameState w)))
          (unlocked (achievements (gameState (snd first))))
  /\ fst first
     = map (AchievementService.setUnlocked true)
         (filter (fun a =>
                    negb (a_unlocked a)
                    && AchievementService.isAchievementMet a (gameState w))
            (svcAchievements w))
  /\ svcAchievements (snd first)
     = map (fun a =>
              if negb (a_unlocked a)
                 && AchievementService.isAchievementMet a (gameState w)
              then AchievementService.setUnlocked true a else a)
         (svcAchievements w).
Proof.
  intros first second.
  unfold AchievementService.checkAchievements in first.
  pose proof (checkLoop_spec (gameState w) now1 (svcAchievements w) w)
    as (S1 & S2 & S3 & S4 & S5 & S6 & S7).
  destruct (AchievementService.checkLoop (gameState w) now1
              (svcAchievements w) w) as [[all1 newly1] w1] eqn:E1.
  cbn [fst snd] in *.
  assert (N : filter (due (gameState w1)) all1 = []).
  { rewrite S1. apply nothing_due_after_check. exact S3. }
  assert (F2 : second = ([], snd first)).
  { unfold second, AchievementService.checkAchievements.
    unfold first. cbn [fst snd gameState svcAchievements setSvcAchievements].
    pose proof (checkLoop_spec (gameState w1) now2 all1
                  (setSvcAchievements all1 w1))
      as (T1 & T2 & _ & _ & _ & _ & T7).
    cbn [gameState setSvcAchievements] in T1, T2, T7.
    destruct (AchievementService.checkLoop (gameState w1) now2 all1
                (setSvcAchievements all1 w1)) as [[all2 newly2] w2] eqn:E2.
    cbn [fst snd] in *.
    rewrite N in T2. rewrite (map_not_due _ _ N) in T1.
    rewrite (T7 N), T1, T2. reflexivity. }
  rewrite F2. unfold first. cbn [fst snd gameState svcAchievements setSvcAchievements].
  split; [reflexivity |]. split; [reflexivity |]. split; [exact S4 |].
  split; [| split; [| split; [| split; [| split; [exact S2 | exact S1]]]]].
  - intros ND. rewrite app_nil_r, S2, map_id_unlocked.
    apply NoDup_map_filter. exact ND.
  - rewrite S2. apply Forall_forall. intros a Ha. apply in_map_iff in Ha.
    destruct Ha as (a0 & <- & H0). apply filter_In in H0.
    destruct H0 as (H0 & D). exists a0. split; [exact H0 |]. split; [reflexivity |].
    unfold due in D. destruct (a_unlocked a0); [discriminate | reflexivity].
  - rewrite S1. apply flagsGrow_check.
  - destruct S6 as [-> | (a & _ & ->)]; [apply incl_refl |].
    apply incl_appl, incl_refl.
Qed.

Lemma checkAchievements_idempotent_witness :
  NoDup (map a_id (svcAchievements producedExample))
  /\ map a_id (fst (AchievementService.checkAchievements 1 producedExample))
     = ["first_match"; "first_hundred"]
  /\ NoDup (map a_id
       (fst (AchievementService.checkAchievements 1 producedExample)
        ++ fst (AchievementService.checkAchievements 2
                  (snd (AchievementService.checkAchievements 1
                          producedExample))))).
Proof.
  assert (ND : NoDup (map a_id (svcAchievements producedExample))).
  { cbn. repeat constructor; cbn; intuition discriminate. }
  split; [exact ND |]. split; [vm_compute; reflexivity |].
  destruct (checkAchievements_idempotent producedExample 1 2)
    as (_ & _ & _ & H & _).
  exact (H ND).
Defined.

Lemma existsb_eqb_In (x : string) l :
  In x l -> existsb (String.eqb x) l = true.
Proof.
  intros H. apply existsb_exists. exists x. split; [exact H |].
  apply String.eqb_refl.
Qed.

Lemma count_occ_snoc_other (l : list string) (x y : string) :
  x <> y -> count_occ string_dec (l ++ [y]) x = count_occ string_dec l x.
Proof.
  intros H. rewrite count_occ_app. simpl.
  destruct (string_dec y x); [congruence | lia].
Qed.

(** After a sync, a check leaves alone every rule whose id is in the
    persisted list. *)
Lemma check_after_sync (w : World) (X : string) (now : Z) :
  In X (unlocked (achievements (gameState w))) ->
  let synced := AchievementService.syncWithGameState w in
  let checked := AchievementService.checkAchievements now synced in
  ~ In X (map a_id (fst checked))
  /\ (money (resources (gameState (snd checked)))
      == money (resources (gameState synced))
         + AchievementService.rewardsOf (fst checked))%Q
  /\ count_occ string_dec
       (unlocked (achievements (gameState (snd checked)))) X
     = count_occ string_dec (unlocked (achievements (gameState w))) X.
Proof.
  intros HX synced checked.
  assert (G : gameState synced = gameState w) by reflexivity.
  assert (NX : forall a, In a (filter (due (gameState synced))
                                 (svcAchievements synced)) -> a_id a <> X).
  { intros a Ha. apply filter_In in Ha. destruct Ha as (Ha & D).
    unfold synced, AchievementService.syncWithGameState in Ha.
    cbn [svcAchievements setSvcAchievements] in Ha.
    apply in_map_iff in Ha. destruct Ha as (a0 & <- & _).
    unfold due in D. cbn [a_unlocked a_id AchievementService.setUnlocked] in *.
    intros EX. rewrite EX in D. rewrite (existsb_eqb_In X _ HX) in D.
    discriminate. }
  unfold checked, AchievementService.checkAchievements.
  pose proof (checkLoop_spec (gameState synced) now (svcAchievements synced)
                synced) as (S1 & S2 & S3 & S4 & S5 & S6 & S7).
  destruct (AchievementService.checkLoop (gameState synced) now
              (svcAchievements synced) synced) as [[all newly] w'] eqn:E.
  cbn [fst snd gameState setSvcAchievements] in *.
  split; [| split; [exact S4 |]].
  - rewrite S2, map_id_unlocked. intros Hin. apply in_map_iff in Hin.
    destruct Hin as (a & Ea & Ha). exact (NX a Ha Ea).
  - rewrite <- G. destruct S6 as [-> | (a & Ha & ->)]; [reflexivity |].
    apply count_occ_snoc_other. intros EX. exact (NX a Ha (eq_sym EX)).
Qed.

(** C7: after a [load] of a full snapshot whose unlocked-id list contains
    [X], [syncWithGameState()] followed by a check does not return [X]
    among the newly unlocked rules, pays only the rewards of the rules it
    does return, and leaves the number of occurrences of [X] in the
    persisted list as the snapshot had it. *)
Theorem syncWithGameState_prevents_retrigger
    (w : World) (snapshot : GameState) (X : string) (t1 t2 : Z) :
  In X (unlocked (achievements snapshot)) ->
  let loaded := gameActions.load (gameActions.FullState snapshot) t1 w in
  let synced := AchievementService.syncWithGameState loaded in
  let checked := AchievementService.checkAchievements t2 synced in
  ~ In X (map a_id (fst checked))
  /\ (money (resources (gameState (snd checked)))
      == money (resources (gameState synced))
         + AchievementService.rewardsOf (fst checked))%Q
  /\ count_occ string_dec
       (unlocked (achievements (gameState (snd checked)))) X
     = count_occ string_dec (unlocked (achievements snapshot)) X.
Proof.
  intros HX loaded.
  assert (A : achievements (gameState loaded) = achievements snapshot)
    by reflexivity.
  rewrite <- A in HX |- *. apply check_after_sync. exact HX.
Qed.

Lemma syncWithGameState_prevents_retrigger_witness :
  In "first_match" (unlocked (achievements loadedExample))
  /\ ~ In "first_match"
       (map a_id
          (fst (AchievementService.checkAchievements 2
                  (AchievementService.syncWithGameState
                     (gameActions.load (gameActions.FullState loadedExample)
                        1 (initialWorld 0)))))).
Proof.
  assert (H : In "first_match" (unlocked (achievements loadedExample)))
    by (left; reflexivity).
  split; [exact H |].
  apply (syncWithGameState_prevents_retrigger (initialWorld 0) loadedExample
           "first_match" 1 2 H).
Defined.

(** Without the sync the evaluator, whose flags are still clear, unlocks
    [first_match] again after the same load. *)
Example check_without_sync_retriggers :
  map a_id
    (fst (AchievementService.checkAchievements 2
            (gameActions.load (gameActions.FullState loadedExample)
               1 (initialWorld 0))))
  = ["first_match"; "first_hundred"].
Proof. vm_compute. reflexivity. Qed.

(** ** ProductionEngine: the click combo *)

Lemma checkAchievements_frame now w :
  let w' := snd (AchievementService.checkAchievements now w) in
  clickCombo w' = clickCombo w /\ productionStats w' = productionStats w
  /\ lastClickTime w' = lastClickTime w /\ recentTrades w' = recentTrades w.
Proof.
  unfold AchievementService.checkAchievements.
  assert (F : forall state todo w0,
             let w1 := snd (AchievementService.checkLoop state now todo w0) in
             clickCombo w1 = clickCombo w0
             /\ productionStats w1 = productionStats w0
             /\ lastClickTime w1 = lastClickTime w0
             /\ recentTrades w1 = recentTrades w0).
  { intros state todo. induction todo as [| a rest IH]; intros w0;
      cbn [AchievementService.checkLoop]; [cbn; auto |].
    destruct (a_unlocked a);
      [| destruct (AchievementService.isAchievementMet a state)].
    - specialize (IH w0).
      destruct (AchievementService.checkLoop state now rest w0) as [[? ?] ?].
      exact IH.
    - specialize (IH (AchievementService.recordUnlock state now a w0)).
      destruct (AchievementService.checkLoop state now rest
                  (AchievementService.recordUnlock state now a w0))
        as [[? ?] ?].
      cbn [snd] in *. destruct IH as (I1 & I2 & I3 & I4).
      rewrite I1, I2, I3, I4.
      unfold AchievementService.recordUnlock, AchievementService.applyReward.
      destruct (rw_type (a_reward a) =? "money")%string;
        [destruct (rw_amount (a_reward a)) as [q |];
         [destruct (JS.truthyQ q) |] |]; cbn; auto.
    - specialize (IH w0).
      destruct (AchievementService.checkLoop state now rest w0) as [[? ?] ?].
      exact IH. }
  specialize (F (gameState w) (svcAchievements w) w).
  destruct (AchievementService.checkLoop (gameState w) now
              (svcAchievements w) w) as [[all newly] w1].
  cbn in *. exact F.
Qed.

(** Whatever the time between two calls, [produceMatchsticks] continues the
    combo: [updateClickStats] has already stored the current time as the
    time of the last click when [updateClickCombo] measures the gap, so the
    gap is always 0 and the reset branch is never taken. *)
Lemma produceMatchsticks_combo_never_resets clickCount now w :
  ProductionService.comboCount
    (fst (ProductionService.produceMatchsticks clickCount now w))
  = Z.min (cc_count (clickCombo w) + 1) (cc_maxCombo (clickCombo w)).
Proof.
  unfold ProductionService.produceMatchsticks.
  unfold ProductionService.updateClickCombo at 1.
  cbn [lastClickTime ProductionService.updateClickStats setRecentClicks
       setLastClickTime setProductionStats clickCombo].
  rewrite Z.sub_diag. cbn [Z.gtb Z.compare ProductionService.comboDecayTime].
  match goal with
  | |- context [AchievementService.checkAchievements now ?x] =>
      pose proof (checkAchievements_frame now x) as (F & _);
      destruct (AchievementService.checkAchievements now x) as [n w7]
  end.
  cbn [fst snd ProductionService.comboCount] in *. rewrite F. reflexivity.
Qed.

(** C2 (the code departs from it): two clicks 10 seconds apart.  The claim
    has the second click reset the combo to count 1 and multiplier 1; the
    code returns count 2 and multiplier 1.01. *)
Theorem combo_survives_long_gap :
  ProductionService.comboCount
    (fst (ProductionService.produceMatchsticks 1 20000
            (snd (ProductionService.produceMatchsticks 1 10000
                    (initialWorld 0))))) = 2
  /\ (ProductionService.comboMultiplier
        (fst (ProductionService.produceMatchsticks 1 20000
                (snd (ProductionService.produceMatchsticks 1 10000
                        (initialWorld 0))))) == 101 # 100)%Q.
Proof. split; vm_compute; reflexivity. Qed.

(** Within the window the combo does grow as the claim says. *)
Example combo_three_clicks :
  let w1 := snd (ProductionService.produceMatchsticks 1 1000 (initialWorld 0)) in
  let w2 := snd (ProductionService.produceMatchsticks 1 1100 w1) in
  let r3 := fst (ProductionService.produceMatchsticks 1 1200 w2) in
  ProductionService.comboCount r3 = 3
  /\ (ProductionService.comboMultiplier r3 == 102 # 100)%Q.
Proof. split; vm_compute; reflexivity. Qed.

(** ** MarketEngine: selling *)

(** A sale of a non-positive amount or of more than is held is refused and
    changes nothing. *)
Lemma sellMatchsticks_refused amount now w :
  amount <= 0 \/ matchsticks (resources (gameState w)) < amount ->
  MarketService.sellMatchsticks amount now w = (MarketService.failed w, w)
  /\ MarketService.success (MarketService.failed w) = false.
Proof.
  intros H. unfold MarketService.sellMatchsticks.
  destruct (Z.leb_spec amount 0); [split; reflexivity |].
  destruct (Z.gtb_spec amount (matchsticks (resources (gameState w))));
    [split; reflexivity | lia].
Qed.

(** Every accepted sale is credited twice.  With every rule of the
    evaluator already flagged (so that the closing check pays nothing), a
    sale of [amount] at price [p] takes exactly [amount] matchsticks and
    reports the revenue [amount * p * impact], but raises the money by
    [amount * p] more than that revenue and [totalSold] by [amount] twice. *)
Lemma sellMatchsticks_accepted amount now w :
  0 < amount <= matchsticks (resources (gameState w)) ->
  Forall (fun a => a_unlocked a = true) (svcAchievements w) ->
  let r := MarketService.sellMatchsticks amount now w in
  let p := currentPrice (market (gameState w)) in
  let rev :=
    (JS.Number amount * (p * MarketService.calculateMarketImpact amount))%Q in
  MarketService.success (fst r) = true
  /\ MarketService.revenue (fst r) = rev
  /\ matchsticks (resources (gameState (snd r)))
     = matchsticks (resources (gameState w)) - amount
  /\ (money (resources (gameState (snd r)))
      == money (resources (gameState w)) + JS.Number amount * p + rev)%Q
  /\ totalSold (market (gameState (snd r)))
     = SafeBigInt.add
         (SafeBigInt.add (totalSold (market (gameState w))) amount) amount.
Proof.
  intros [Hpos Hle] Flagged r p rev. unfold r, MarketService.sellMatchsticks.
  destruct (Z.leb_spec amount 0); [lia |].
  destruct (Z.gtb_spec amount (matchsticks (resources (gameState w)))); [lia |].
  unfold gameActions.sellMatchsticks.
  assert (C : (SafeBigInt.compare (matchsticks (resources (gameState w)))
                 amount <? 0) = false).
  { unfold SafeBigInt.compare.
    destruct (Z.ltb_spec (matchsticks (resources (gameState w))) amount); [lia |].
    destruct (matchsticks (resources (gameState w)) >? amount); reflexivity. }
  rewrite C. unfold gameActions.subtractResources.
  cbn [d_matchsticks d_money d_wood d_reputation gameActions.lacksZ
       gameActions.lacksQ].
  rewrite C, andb_false_r. cbn [negb].
  assert (T : JS.truthyZ amount = true) by (apply truthyZ_true; lia).
  match goal with
  | |- context [AchievementService.checkAchievements now ?x] =>
      set (w6 := x)
  end.
  assert (N : filter (due (gameState w6)) (svcAchievements w6) = []).
  { apply filter_none. intros a Ha.
    change (svcAchievements w6) with (svcAchievements w) in Ha.
    rewrite Forall_forall in Flagged.
    unfold due. rewrite (Flagged a Ha). reflexivity. }
  unfold AchievementService.checkAchievements.
  pose proof (checkLoop_spec (gameState w6) now (svcAchievements w6) w6)
    as (_ & _ & _ & _ & _ & _ & S7).
  destruct (AchievementService.checkLoop (gameState w6) now
              (svcAchievements w6) w6) as [[all newly] w7].
  cbn [fst snd] in S7. rewrite (S7 N).
  cbn [fst snd MarketService.success MarketService.revenue].
  split; [reflexivity |]. split; [reflexivity |].
  unfold w6, gameActions.update; cbn. rewrite T.
  split; [| split; [| reflexivity]].
  - unfold SafeBigInt.subtract.
    destruct (Z.ltb_spec (matchsticks (resources (gameState w)) - amount) 0); lia.
  - change (MarketService.getCurrentPrice w) with p. fold rev.
    change (currentPrice (market (gameState w))) with p.
    generalize (JS.Number amount * p)%Q rev (money (resources (gameState w))).
    intros x y m.
    destruct (JS.truthyQ x) eqn:T1; destruct (JS.truthyQ y) eqn:T2;
      try apply truthyQ_false in T1; try apply truthyQ_false in T2; lra.
Qed.

(** C1 (the code departs from it): the sale of the spec's scenario, 10 of
    1000 matchsticks at price 1.  The sale succeeds at unit price 1 with
    revenue 10 and leaves 990 matchsticks, but the money is credited twice,
    once by the store's own [sellMatchsticks] and once more by the market
    service: with no achievement reward in play the balance rises by 20, and
    in the fresh world of the tests by 45 (the reward of [first_sale], 25,
    is paid too); [totalSold] rises by 20. *)
Theorem sellMatchsticks_credits_twice :
  MarketService.success
    (fst (MarketService.sellMatchsticks 10 1 marketExampleNoRewards)) = true
  /\ (MarketService.pricePerUnit
        (fst (MarketService.sellMatchsticks 10 1 marketExampleNoRewards))
      == 1)%Q
  /\ (MarketService.revenue
        (fst (MarketService.sellMatchsticks 10 1 marketExampleNoRewards))
      == 10)%Q
  /\ matchsticks (resources (gameState
       (snd (MarketService.sellMatchsticks 10 1 marketExampleNoRewards))))
     = 990
  /\ (money (resources (gameState marketExampleNoRewards)) == 0)%Q
  /\ (money (resources (gameState
        (snd (MarketService.sellMatchsticks 10 1 marketExampleNoRewards))))
      == 20)%Q
  /\ totalSold (market (gameState
       (snd (MarketService.sellMatchsticks 10 1 marketExampleNoRewards))))
     = 20
  /\ (money (resources (gameState
        (snd (MarketService.sellMatchsticks 10 1 marketExample)))) == 45)%Q.
Proof. repeat split; vm_compute; reflexivity. Qed.

(** ** AutomationScheduler: buying an auto-clicker *)

Lemma purchaseAutoClicker_cases clickerId now w :
  let r := AutomationService.purchaseAutoClicker clickerId now w in
  let L := currentLevelOf clickerId w in
  match configOf clickerId with
  | None => r = (AutomationService.failure "Auto-clicker not found", w)
  | Some config =>
      (AutomationService.maxLevel config <= L ->
       r = (AutomationService.failure "Maximum level reached", w))
      /\ (L < AutomationService.maxLevel config ->
          AutomationService.checkUnlockRequirement
            (AutomationService.unlockRequirement config) (gameState w) = false ->
          r = (AutomationService.failure "Unlock requirements not met", w))
      /\ (L < AutomationService.maxLevel config ->
          AutomationService.checkUnlockRequirement
            (AutomationService.unlockRequirement config) (gameState w) = true ->
          (money (resources (gameState w))
           < inject_Z (AutomationService.calculateAutoClickerCost config L))%Q ->
          r = (AutomationService.failure "Insufficient funds", w))
      /\ (L < AutomationService.maxLevel config ->
          AutomationService.checkUnlockRequirement
            (AutomationService.unlockRequirement config) (gameState w) = true ->
          (inject_Z (AutomationService.calculateAutoClickerCost config L)
           <= money (resources (gameState w)))%Q ->
          fst r = AutomationService.mkPurchase true
                    (Some (AutomationService.calculateAutoClickerCost config L))
                    (Some (L + 1)) None)
  end.
Proof.
  unfold AutomationService.purchaseAutoClicker, configOf, currentLevelOf.
  destruct (find _ AutomationService.autoClickerConfigs) as [config |];
    [| reflexivity].
  cbv zeta.
  set (L := AutomationService.levelOf _).
  destruct (Z.geb_spec L (AutomationService.maxLevel config)) as [G | G].
  { repeat split; intros; try lia. }
  destruct (AutomationService.checkUnlockRequirement _ (gameState w)) eqn:U;
    cbn [negb].
  2: { repeat split; intros; try lia; try discriminate. }
  destruct (JS.ltQ (money (resources (gameState w)))
              (inject_Z (AutomationService.calculateAutoClickerCost config L)))
    eqn:F.
  { apply ltQ_true in F. repeat split; intros; try lia; try discriminate.
    exfalso. lra. }
  apply ltQ_false in F. repeat split; intros; try lia; try discriminate;
    try (exfalso; lra).
  destruct (AchievementService.checkAchievements now _) as [n w5].
  reflexivity.
Qed.

(** ** PersistenceLayer *)

Lemma to_uint_nonnil p : Pos.to_uint p <> Decimal.Nil.
Proof.
  intros E. pose proof (DecimalPos.Unsigned.of_to p) as H.
  rewrite E in H. discriminate.
Qed.

(** [BigInt(b.toString())] is [b]. *)
Lemma parseBigInt_toString z :
  Storage.parseBigInt (Storage.bigintToString z) = Some z.
Proof.
  unfold Storage.parseBigInt, Storage.bigintToString.
  rewrite NilZero.isi.
  - simpl. rewrite DecimalZ.of_to. reflexivity.
  - destruct z; simpl; intros E; inversion E.
    eapply to_uint_nonnil; eassumption.
  - destruct z; simpl; intros E; inversion E.
    eapply to_uint_nonnil; eassumption.
Qed.

(** Reviving the replacer's encoding of a bigint gives the bigint back. *)
Lemma bigint_roundtrip z :
  Storage.stringify (Storage.VBig z)
  = Some (Storage.JObj [("__type", Storage.JStr "bigint");
                        ("value", Storage.JStr (Storage.bigintToString z))])
  /\ Storage.sanitizeGameState (Storage.VBig z) = Some (Storage.VBig z).
Proof.
  split; [reflexivity |].
  unfold Storage.sanitizeGameState. cbn.
  rewrite parseBigInt_toString. reflexivity.
Qed.

Lemma stringify_arr items :
  Storage.stringify (Storage.VArr items)
  = Some (Storage.JArr
            (map (fun x => match Storage.stringify x with
                           | Some j => j
                           | None => Storage.JNull
                           end) items)).
Proof. reflexivity. Qed.

Lemma stringify_obj props :
  Storage.stringify (Storage.VObj props)
  = Some (Storage.JObj
            (flat_map (fun p => match Storage.stringify (snd p) with
                                | Some j => [(fst p, j)]
                                | None => []
                                end) props)).
Proof. reflexivity. Qed.

Lemma parse_arr items :
  Storage.parse (Storage.JArr items)
  = match Storage.sequence (map Storage.parse items) with
    | Some vs => Storage.bigIntReviver (Storage.VArr vs)
    | None => None
    end.
Proof. reflexivity. Qed.

Lemma parse_obj props :
  Storage.parse (Storage.JObj props)
  = match Storage.sequence
            (map (fun p => option_map (pair (fst p)) (Storage.parse (snd p)))
               props) with
    | Some ps => Storage.bigIntReviver (Storage.VObj ps)
    | None => None
    end.
Proof. reflexivity. Qed.

Lemma plain_roundtrip v :
  Storage.plain v = true ->
  exists j, Storage.stringify v = Some j /\ Storage.parse j = Some v.
Proof.
  induction v as [| | b | q | s | z | items IH | props IH]
    using jsval_nested_ind; intros Hp.
  - discriminate.
  - exists Storage.JNull. split; reflexivity.
  - eexists. split; reflexivity.
  - eexists. split; reflexivity.
  - eexists. split; reflexivity.
  - eexists. split; [reflexivity |]. cbn.
    rewrite parseBigInt_toString. reflexivity.
  - cbn [Storage.plain] in Hp. rewrite stringify_arr.
    eexists. split; [reflexivity |]. rewrite parse_arr.
    assert (S : Storage.sequence
                  (map Storage.parse
                     (map (fun x => match Storage.stringify x with
                                    | Some j => j
                                    | None => Storage.JNull
                                    end) items)) = Some items).
    { induction items as [| x rest IHr]; [reflexivity |].
      inversion IH as [| ? ? Hx Hrest]; subst.
      cbn [forallb] in Hp. apply andb_true_iff in Hp. destruct Hp as (Px & Pr).
      destruct (Hx Px) as (j & Ej & Pj).
      cbn [map Storage.sequence]. rewrite Ej, Pj, (IHr Hrest Pr). reflexivity. }
    rewrite S. reflexivity.
  - cbn [Storage.plain] in Hp. apply andb_true_iff in Hp.
    destruct Hp as (Ht & Hp). apply negb_true_iff in Ht.
    rewrite stringify_obj. eexists. split; [reflexivity |]. rewrite parse_obj.
    assert (S : Storage.sequence
                  (map (fun p => option_map (pair (fst p))
                                   (Storage.parse (snd p)))
                     (flat_map (fun p => match Storage.stringify (snd p) with
                                         | Some j => [(fst p, j)]
                                         | None => []
                                         end) props)) = Some props).
    { clear Ht. induction props as [| [k x] rest IHr]; [reflexivity |].
      inversion IH as [| ? ? Hx Hrest]; subst.
      cbn [forallb snd] in Hp. apply andb_true_iff in Hp.
      destruct Hp as (Px & Pr).
      destruct (Hx Px) as (j & Ej & Pj). cbn [snd fst] in *.
      cbn [flat_map snd fst]. rewrite Ej. cbn [app map fst snd Storage.sequence].
      rewrite Pj. cbn [option_map]. rewrite (IHr Hrest Pr). reflexivity. }
    rewrite S. cbn [Storage.bigIntReviver]. rewrite Ht. reflexivity.
Qed.

(** [sanitizeGameState] returns plain data as it is. *)
Lemma sanitize_plain v :
  Storage.plain v = true -> Storage.sanitizeGameState v = Some v.
Proof.
  intros Hp. destruct (plain_roundtrip v Hp) as (j & Ej & Pj).
  unfold Storage.sanitizeGameState. rewrite Ej. exact Pj.
Qed.

Lemma ltb_irrefl s : String.ltb s s = false.
Proof.
  unfold String.ltb. pose proof (String.compare_antisym s s) as H.
  destruct (String.compare s s); try reflexivity; discriminate.
Qed.

Lemma find_none_app {A} (p : A -> bool) l x :
  (forall y, In y l -> p y = false) -> p x = true ->
  find p (l ++ [x]) = Some x.
Proof.
  intros Hl Hx. induction l as [| y l IH]; simpl.
  - rewrite Hx. reflexivity.
  - rewrite (Hl y (or_introl eq_refl)). apply IH.
    intros z Hz. apply Hl. right. exact Hz.
Qed.

(** [get] after [put] finds the record put. *)
Lemma get_put save l :
  Storage.get (Storage.gs_id save) (Storage.put save l) = Some save.
Proof.
  unfold Storage.get, Storage.put. apply find_none_app.
  - intros y Hy. apply filter_In in Hy. destruct Hy as (_ & Hy).
    apply negb_true_iff in Hy. exact Hy.
  - apply String.eqb_refl.
Qed.

(** An auto-save newer than all the others survives the clean-up. *)
Lemma get_cleanup_put save l :
  autoSavesOlder (Storage.gs_timestamp save) l ->
  Storage.get (Storage.gs_id save)
    (Storage.cleanupAutoSaves (Storage.put save l)) = Some save.
Proof.
  intros Old. unfold Storage.cleanupAutoSaves.
  set (l1 := Storage.put save l).
  set (autoSaves := filter Storage.gs_isAutoSave l1).
  set (toDelete := filter _ autoSaves).
  assert (In1 : forall y, In y l1 ->
            y = save \/ (In y l /\ (Storage.gs_id y =? Storage.gs_id save)%string = false)).
  { intros y Hy. unfold l1, Storage.put in Hy. apply in_app_or in Hy.
    destruct Hy as [Hy | [Hy | []]]; [right | left; congruence].
    apply filter_In in Hy. destruct Hy as (Hy & E).
    apply negb_true_iff in E. tauto. }
  assert (Rank : filter (fun t => Storage.before t save) autoSaves = []).
  { apply filter_none. intros t Ht. unfold autoSaves in Ht.
    apply filter_In in Ht. destruct Ht as (Ht & At).
    destruct (In1 t Ht) as [-> | (Hl & _)]; unfold Storage.before.
    - rewrite ltb_irrefl, andb_false_r, orb_false_r.
      destruct (Z.gtb_spec (Storage.gs_timestamp save) (Storage.gs_timestamp save));
        [lia | reflexivity].
    - unfold autoSavesOlder in Old. rewrite Forall_forall in Old.
      pose proof (Old t Hl At) as Lt.
      destruct (Z.gtb_spec (Storage.gs_timestamp t) (Storage.gs_timestamp save));
        [lia |].
      destruct (Z.eqb_spec (Storage.gs_timestamp t) (Storage.gs_timestamp save));
        [lia | reflexivity]. }
  assert (Keep : existsb (fun d => (Storage.gs_id d =? Storage.gs_id save)%string)
                   toDelete = false).
  { destruct (existsb _ toDelete) eqn:E; [| reflexivity].
    apply existsb_exists in E. destruct E as (d & Hd & Ed).
    unfold toDelete in Hd. apply filter_In in Hd. destruct Hd as (Hd & Rd).
    unfold autoSaves in Hd. apply filter_In in Hd. destruct Hd as (Hd & _).
    destruct (In1 d Hd) as [-> | (_ & Ne)]; [| congruence].
    fold autoSaves in Rd. rewrite Rank in Rd. discriminate. }
  unfold Storage.get, l1, Storage.put. rewrite filter_app.
  cbn [filter]. rewrite Keep. cbn [negb].
  apply find_none_app; [| apply String.eqb_refl].
  intros y Hy. apply filter_In in Hy. destruct Hy as (Hy & _).
  apply filter_In in Hy. destruct Hy as (_ & Hy).
  apply negb_true_iff in Hy. exact Hy.
Qed.

(** What [loadGame] returns for a stored record. *)
Lemma loadGame_cases digest saveId db save :
  Storage.get saveId (Storage.saves db) = Some save ->
  (fst (Storage.loadGame digest saveId db) = None
   /\ exists c, Storage.gs_checksum save = Some c /\ c <> ""
        /\ Storage.createChecksum digest (Storage.gs_gameState save) <> c)
  \/ (fst (Storage.loadGame digest saveId db) = Some (Storage.gs_gameState save)
      /\ (Storage.gs_checksum save = None
          \/ Storage.gs_checksum save = Some ""
          \/ Storage.gs_checksum save
             = Some (Storage.createChecksum digest (Storage.gs_gameState save)))).
Proof.
  intros G. unfold Storage.loadGame. rewrite G.
  destruct (Storage.gs_checksum save) as [c |]; cbn [Storage.hasChecksum].
  - destruct (String.eqb_spec c ""); cbn [negb andb].
    + right. subst c. split; [reflexivity | right; left; reflexivity].
    + destruct (String.eqb_spec
                  (Storage.createChecksum digest (Storage.gs_gameState save)) c);
        cbn [negb fst].
      * right. split; [reflexivity | right; right; congruence].
      * left. split; [reflexivity |]. exists c. auto.
  - right. split; [reflexivity | left; reflexivity].
Qed.

(** C10, as stated, fails: a record whose checksum is the empty string
    carries a checksum that differs from the recomputed one, yet the test
    [if (gameSave.checksum)] takes it for absent and the state is
    returned. *)
Lemma loadGame_empty_checksum_counterexample :
  Storage.gs_checksum emptyChecksumSave = Some ""
  /\ Storage.createChecksum sampleDigest
       (Storage.gs_gameState emptyChecksumSave) <> ""
  /\ fst (Storage.loadGame sampleDigest "s1"
            (Storage.mkDB [emptyChecksumSave] []))
     = Some plainState.
Proof.
  split; [reflexivity |]. split; [vm_compute; discriminate |].
  vm_compute. reflexivity.
Qed.

(** C10 (amended): for every stored save, a record whose checksum is absent
    is returned without verification, and [loadGame] returns null exactly
    when the record carries a non-empty checksum from which the recomputed
    checksum differs; in every other case the stored state is returned. *)
Theorem loadGame_verifies_present_checksum
    (digest : option Storage.json -> string) (saveId : string)
    (db : Storage.DB) (save : Storage.GameSave) :
  Storage.get saveId (Storage.saves db) = Some save ->
  (Storage.gs_checksum save = None ->
   fst (Storage.loadGame digest saveId db) = Some (Storage.gs_gameState save))
  /\ (fst (Storage.loadGame digest saveId db) = None
      <-> exists c, Storage.gs_checksum save = Some c /\ c <> ""
            /\ Storage.createChecksum digest (Storage.gs_gameState save) <> c)
  /\ (fst (Storage.loadGame digest saveId db) <> None ->
      fst (Storage.loadGame digest saveId db)
      = Some (Storage.gs_gameState save)).
Proof.
  intros G.
  destruct (loadGame_cases digest saveId db save G)
    as [(E & c & Hc & Ne & Hd) | (E & H)]; rewrite E.
  - split; [intros N; congruence |]. split.
    + split; [intros _; exists c; auto | intros _; reflexivity].
    + intros N. congruence.
  - split; [intros _; reflexivity |]. split.
    + split; [discriminate |].
      intros (c & Hc & Ne & Hd).
      destruct H as [H | [H | H]]; rewrite H in Hc; inversion Hc; subst;
        congruence.
    + intros _. reflexivity.
Qed.

Lemma loadGame_verifies_present_checksum_witness :
  Storage.get "s1" [noChecksumSave] = Some noChecksumSave
  /\ fst (Storage.loadGame sampleDigest "s1" (Storage.mkDB [noChecksumSave] []))
     = Some plainState.
Proof.
  split; [reflexivity |].
  destruct (loadGame_verifies_present_checksum sampleDigest "s1"
              (Storage.mkDB [noChecksumSave] []) noChecksumSave eq_refl)
    as (H & _).
  apply H. reflexivity.
Defined.

(** * Further properties *)

(** ** NumericSafety: [power] *)

Lemma multiply_nonneg r b :
  0 <= r -> 0 <= b ->
  SafeBigInt.multiply r b = Z.min (r * b) SafeBigInt.MAX_SAFE.
Proof.
  intros Hr Hb. unfold SafeBigInt.multiply.
  destruct (Z.gtb_spec (r * b) SafeBigInt.MAX_SAFE); lia.
Qed.

Lemma powerLoop_spec n : forall i r base,
  2 <= base -> 0 <= i -> r = base ^ i -> r <= SafeBigInt.MAX_SAFE ->
  Numbers.powerLoop n r base
  = Z.min (base ^ (i + Z.of_nat n)) SafeBigInt.MAX_SAFE.
Proof.
  induction n as [| n IH]; intros i r base Hb Hi Hr Hle.
  - cbn [Numbers.powerLoop]. rewrite Z.add_0_r, <- Hr. lia.
  - cbn [Numbers.powerLoop].
    assert (Pi : 0 < base ^ i) by (apply Z.pow_pos_nonneg; lia).
    rewrite multiply_nonneg by lia.
    assert (E : r * base = base ^ (i + 1))
      by (rewrite Z.pow_add_r, Z.pow_1_r by lia; congruence).
    assert (Mono : base ^ (i + 1) <= base ^ (i + Z.of_nat (S n)))
      by (apply Z.pow_le_mono_r; lia).
    destruct (Z.geb_spec (Z.min (r * base) SafeBigInt.MAX_SAFE)
                SafeBigInt.MAX_SAFE) as [G | G].
    + lia.
    + rewrite (IH (i + 1) (Z.min (r * base) SafeBigInt.MAX_SAFE) base);
        try lia.
      replace (i + 1 + Z.of_nat n) with (i + Z.of_nat (S n)) by lia.
      reflexivity.
Qed.

(** X1: on a safe non-negative base and a non-negative exponent, [power]
    is the mathematical power clamped to MAX. *)
Theorem power_is_clamped_power (base exponent : Z) :
  0 <= base <= SafeBigInt.MAX_SAFE -> 0 <= exponent ->
  Numbers.power base exponent = Z.min (base ^ exponent) SafeBigInt.MAX_SAFE.
Proof.
  intros [Hb Hm] He. pose proof MAX_SAFE_pos as HM. unfold Numbers.power.
  destruct (Z.eqb_spec exponent 0) as [-> | N0]; [rewrite Z.pow_0_r; lia |].
  destruct (Z.eqb_spec exponent 1) as [-> | N1]; [rewrite Z.pow_1_r; lia |].
  destruct (Z.eqb_spec base 0) as [-> | B0];
    [rewrite Z.pow_0_l by lia; lia |].
  destruct (Z.eqb_spec base 1) as [-> | B1]; [rewrite Z.pow_1_l by lia; lia |].
  rewrite (powerLoop_spec _ 1 base base);
    try lia; try (rewrite Z.pow_1_r; reflexivity).
  replace (1 + Z.of_nat (Z.to_nat (exponent - 1))) with exponent by lia.
  reflexivity.
Qed.

Lemma power_is_clamped_power_witness :
  Numbers.power 2 10 = Z.min (2 ^ 10) SafeBigInt.MAX_SAFE.
Proof.
  apply (power_is_clamped_power 2 10); [| lia].
  split; [lia |]. pose proof MAX_SAFE_pos. unfold SafeBigInt.MAX_SAFE in *.
  assert (2 ^ 2 <= 2 ^ 1000) by (apply Z.pow_le_mono_r; lia).
  change (2 ^ 2) with 4 in H0. lia.
Defined.

(** ** StateStore: events, updates, load, the store's own sale *)

Lemma firstn_app_firstn {A} (l1 : list A) : forall m k l2,
  (m <= k)%nat -> firstn m (l1 ++ firstn k l2) = firstn m (l1 ++ l2).
Proof.
  induction l1 as [| x l1 IH]; intros m k l2 H; cbn [app].
  - rewrite firstn_firstn. f_equal. lia.
  - destruct m as [| m]; [reflexivity |]. cbn [firstn]. f_equal.
    apply IH. lia.
Qed.

(** X2: the event log is a bounded buffer: from a log of at most 100
    entries, after any number of emissions the log holds the 100 most
    recent events, newest first, and the game state is untouched. *)
Theorem emitEvent_keeps_latest_hundred (events : list GameEvent) (w : World) :
  (List.length (gameEvents w) <= 100)%nat ->
  gameEvents (Store.emitAll events w)
  = firstn 100 (rev events ++ gameEvents w)
  /\ (List.length (gameEvents (Store.emitAll events w)) <= 100)%nat
  /\ gameState (Store.emitAll events w) = gameState w.
Proof.
  revert w. induction events as [| e evs IH]; intros w H;
    cbn [Store.emitAll fold_left].
  - cbn [rev app]. rewrite firstn_all2 by exact H. auto.
  - fold (Store.emitAll evs (gameActions.emitEvent e w)).
    destruct (IH (gameActions.emitEvent e w)) as (I1 & I2 & I3).
    { cbn [gameActions.emitEvent gameEvents setGameEvents].
      apply firstn_le_length. }
    split; [| split; [exact I2 | rewrite I3; reflexivity]].
    rewrite I1. cbn [gameActions.emitEvent gameEvents setGameEvents rev].
    rewrite firstn_app_firstn by lia.
    rewrite <- app_assoc. reflexivity.
Qed.

Lemma emitEvent_keeps_latest_hundred_witness :
  gameEvents
    (Store.emitAll [mkEvent "a" 1 "s"; mkEvent "b" 2 "s"] (initialWorld 0))
  = [mkEvent "b" 2 "s"; mkEvent "a" 1 "s"].
Proof.
  destruct (emitEvent_keeps_latest_hundred
              [mkEvent "a" 1 "s"; mkEvent "b" 2 "s"] (initialWorld 0))
    as (H & _).
  - cbn. lia.
  - rewrite H. reflexivity.
Defined.

Lemma max0_nonneg q : (0 <= JS.max 0 q)%Q.
Proof.
  unfold JS.max. destruct (JS.ltQ 0 q) eqn:E; [| lra].
  apply ltQ_true in E. lra.
Qed.

(** X3: whatever is loaded, a full state or a partial update, the ledger
    of the store afterwards has a safe matchstick count and non-negative
    money, wood and reputation; a full state supplies every other section
    as it is. *)
Theorem load_sanitizes_ledger
    (data : gameActions.LoadData) (now : Z) (w : World) :
  ledgerNonneg (resources (gameState (gameActions.load data now w)))
  /\ inRange (matchsticks (resources (gameState (gameActions.load data now w))))
  /\ (forall g, data = gameActions.FullState g ->
      production (gameState (gameActions.load data now w)) = production g
      /\ market (gameState (gameActions.load data now w)) = market g
      /\ automation (gameState (gameActions.load data now w)) = automation g
      /\ achievements (gameState (gameActions.load data now w))
         = achievements g).
Proof.
  assert (V : forall g,
            ledgerNonneg (resources (gameActions.validateAndSanitizeState g))
            /\ inRange (matchsticks
                          (resources (gameActions.validateAndSanitizeState g)))).
  { intros g. unfold gameActions.validateAndSanitizeState, ledgerNonneg.
    cbn [resources setResources matchsticks money wood reputation].
    pose proof MAX_SAFE_pos.
    destruct (SafeBigInt.isSafe (matchsticks (resources g))) eqn:S.
    - apply isSafe_inRange in S. unfold inRange in *.
      repeat split; try apply max0_nonneg; lia.
    - unfold inRange. repeat split; try apply max0_nonneg; lia. }
  destruct data as [g | r p m a];
    cbn [gameActions.load gameActions.emitEvent gameActions.update gameState
         setGameState setGameEvents].
  - destruct (V g) as (V1 & V2). split; [exact V1 |]. split; [exact V2 |].
    intros g' E. inversion E; subst. repeat split.
  - match goal with
    | |- context [gameActions.validateAndSanitizeState ?x] =>
        destruct (V x) as (V1 & V2)
    end.
    split; [exact V1 |]. split; [exact V2 |]. intros g' E. discriminate.
Qed.

Lemma load_sanitizes_ledger_witness :
  production
    (gameState (gameActions.load (gameActions.FullState loadedExample) 1
                  (initialWorld 0)))
  = production loadedExample.
Proof.
  destruct (load_sanitizes_ledger (gameActions.FullState loadedExample) 1
              (initialWorld 0)) as (_ & _ & H).
  destruct (H loadedExample eq_refl) as (H1 & _). exact H1.
Defined.







(** X5: [updateResources] never stores an unsafe matchstick count: a count
    that is safe stays or is replaced by a safe one; a non-zero safe count
    in the update is taken as it is, and a zero or unsafe one is ignored. *)
Theorem updateResources_keeps_matchsticks_safe
    (updates : ResourceDelta) (w : World) :
  (inRange (matchsticks (resources (gameState w))) ->
   inRange (matchsticks (resources (gameState (Store.updateResources updates w)))))
  /\ (forall m, d_matchsticks updates = Some m ->
      matchsticks (resources (gameState (Store.updateResources updates w)))
      = if (negb (m =? 0) && SafeBigInt.isSafe m)%bool then m
        else matchsticks (resources (gameState w))).
Proof.
  unfold Store.updateResources, gameActions.update.
  cbn [gameState setGameState setResources resources matchsticks].
  split.
  - intros H. destruct (d_matchsticks updates) as [m |]; [| exact H].
    destruct (JS.truthyZ m); [| exact H].
    destruct (SafeBigInt.isSafe m) eqn:S; [| exact H].
    apply isSafe_inRange. exact S.
  - intros m E. rewrite E. unfold JS.truthyZ.
    destruct (m =? 0); reflexivity.
Qed.

Lemma updateResources_keeps_matchsticks_safe_witness :
  inRange
    (matchsticks
       (resources (gameState
          (Store.updateResources (mkDelta (Some (-7)) (Some 3%Q) None None)
             ledgerExample)))).
Proof.
  apply (updateResources_keeps_matchsticks_safe
           (mkDelta (Some (-7)) (Some 3%Q) None None) ledgerExample).
  apply isSafe_inRange. vm_compute. reflexivity.
Defined.

(** ** ProductionEngine: amounts, combo, temporary multipliers *)

(** A check pays money only: the matchstick count is as before. *)
Lemma checkAchievements_matchsticks now w :
  matchsticks (resources (gameState
     (snd (AchievementService.checkAchievements now w))))
  = matchsticks (resources (gameState w)).
Proof.
  unfold AchievementService.checkAchievements.
  assert (F : forall state todo w0,
             matchsticks (resources (gameState
                (snd (AchievementService.checkLoop state now todo w0))))
             = matchsticks (resources (gameState w0))).
  { intros state todo. induction todo as [| a rest IH]; intros w0;
      cbn [AchievementService.checkLoop]; [reflexivity |].
    destruct (a_unlocked a);
      [| destruct (AchievementService.isAchievementMet a state)].
    - specialize (IH w0).
      destruct (AchievementService.checkLoop state now rest w0) as [[? ?] ?].
      exact IH.
    - specialize (IH (AchievementService.recordUnlock state now a w0)).
      destruct (AchievementService.checkLoop state now rest
                  (AchievementService.recordUnlock state now a w0))
        as [[? ?] ?].
      cbn [snd] in *. rewrite IH.
      unfold AchievementService.recordUnlock, AchievementService.applyReward.
      destruct (rw_type (a_reward a) =? "money")%string;
        [destruct (rw_amount (a_reward a)) as [q |];
         [destruct (JS.truthyQ q) |] |]; reflexivity.
    - specialize (IH w0).
      destruct (AchievementService.checkLoop state now rest w0) as [[? ?] ?].
      exact IH. }
  specialize (F (gameState w) (svcAchievements w) w).
  destruct (AchievementService.checkLoop (gameState w) now
              (svcAchievements w) w) as [[all newly] w1].
  exact F.
Qed.

Lemma checkAchievements_qualifying now w :
  sameQualifying (gameState w)
    (gameState (snd (AchievementService.checkAchievements now w))).
Proof.
  unfold AchievementService.checkAchievements.
  pose proof (checkLoop_spec (gameState w) now (svcAchievements w) w)
    as (_ & _ & S3 & _).
  destruct (AchievementService.checkLoop (gameState w) now
              (svcAchievements w) w) as [[all newly] w1].
  exact S3.
Qed.

(** X6: every call of [produceMatchsticks] yields at least one matchstick
    per click, however low the manual rate, and exactly what it reports is
    added (through the clamped addition) to the ledger and to the total
    produced; a report of zero leaves the ledger as it is. *)
Theorem produceMatchsticks_at_least_clicks (clickCount now : Z) (w : World) :
  let r := ProductionService.produceMatchsticks clickCount now w in
  clickCount <= ProductionService.produced (fst r)
  /\ matchsticks (resources (gameState (snd r)))
     = (if ProductionService.produced (fst r) =? 0
        then matchsticks (resources (gameState w))
        else SafeBigInt.add (matchsticks (resources (gameState w)))
               (ProductionService.produced (fst r)))
  /\ totalProduced (production (gameState (snd r)))
     = SafeBigInt.add (totalProduced (production (gameState w)))
         (ProductionService.produced (fst r)).
Proof.
  unfold ProductionService.produceMatchsticks.
  destruct (ProductionService.updateClickCombo now
              (ProductionService.updateClickStats clickCount now w))
    as [combo w2] eqn:E2.
  assert (G2 : gameState w2 = gameState w).
  { unfold ProductionService.updateClickCombo in E2. inversion E2. reflexivity. }
  cbv zeta.
  set (final := Qfloor _).
  set (actual := if final >? clickCount then final else clickCount).
  match goal with
  | |- context [AchievementService.checkAchievements now ?x] =>
      pose proof (checkAchievements_matchsticks now x) as M;
      pose proof (checkAchievements_qualifying now x) as (Q & _);
      destruct (AchievementService.checkAchievements now x) as [n w7]
  end.
  cbn [fst snd ProductionService.produced] in *.
  split; [unfold actual; destruct (Z.gtb_spec final clickCount); lia |].
  split.
  - rewrite M. cbn. rewrite G2. unfold JS.truthyZ.
    destruct (actual =? 0); reflexivity.
  - rewrite <- Q. cbn. reflexivity.
Qed.

Lemma produceMatchsticks_combo clickCount now w :
  clickCombo (snd (ProductionService.produceMatchsticks clickCount now w))
  = nextCombo (clickCombo w).
Proof.
  unfold ProductionService.produceMatchsticks.
  unfold ProductionService.updateClickCombo at 1.
  cbn [lastClickTime ProductionService.updateClickStats setRecentClicks
       setLastClickTime setProductionStats clickCombo].
  rewrite Z.sub_diag. cbn [Z.gtb Z.compare ProductionService.comboDecayTime].
  match goal with
  | |- context [AchievementService.checkAchievements now ?x] =>
      pose proof (checkAchievements_frame now x) as (F & _);
      destruct (AchievementService.checkAchievements now x) as [n w7]
  end.
  cbn [fst snd] in *. rewrite F. reflexivity.
Qed.

Lemma clicks_combo calls : forall w,
  cc_count (clickCombo w) <= cc_maxCombo (clickCombo w) ->
  cc_count (clickCombo (Production.clicks calls w))
  = Z.min (cc_count (clickCombo w) + Z.of_nat (List.length calls))
      (cc_maxCombo (clickCombo w))
  /\ cc_maxCombo (clickCombo (Production.clicks calls w))
     = cc_maxCombo (clickCombo w)
  /\ (calls <> [] ->
      cc_multiplier (clickCombo (Production.clicks calls w))
      = (1 + inject_Z (cc_count (clickCombo (Production.clicks calls w)) - 1)
             * (1 # 100))%Q).
Proof.
  induction calls as [| c calls IH] using rev_ind; intros w H.
  - cbn. split; [lia |]. split; [reflexivity | congruence].
  - unfold Production.clicks in *. rewrite fold_left_app. cbn [fold_left].
    rewrite produceMatchsticks_combo.
    destruct (IH w H) as (I1 & I2 & _).
    set (w' := fold_left _ calls w) in *.
    cbn [nextCombo cc_count cc_maxCombo cc_multiplier].
    rewrite I1, I2, length_app. cbn [List.length].
    split; [lia |]. split; [reflexivity |]. intros _. reflexivity.
Qed.

(** X7: the combo over a run of clicks.  Whatever the click counts and
    whatever the times of the calls, after n calls the combo count is
    min(count + n, maxCombo), so it never exceeds the cap, and the combo
    multiplier is 1 + 0.01 * (count - 1). *)
Theorem combo_after_clicks (calls : list (Z * Z)) (w : World) :
  cc_count (clickCombo w) <= cc_maxCombo (clickCombo w) ->
  cc_count (clickCombo (Production.clicks calls w))
  = Z.min (cc_count (clickCombo w) + Z.of_nat (List.length calls))
      (cc_maxCombo (clickCombo w))
  /\ cc_count (clickCombo (Production.clicks calls w))
     <= cc_maxCombo (clickCombo (Production.clicks calls w))
  /\ (calls <> [] ->
      cc_multiplier (clickCombo (Production.clicks calls w))
      = (1 + inject_Z (cc_count (clickCombo (Production.clicks calls w)) - 1)
             * (1 # 100))%Q).
Proof.
  intros H. destruct (clicks_combo calls w H) as (I1 & I2 & I3).
  split; [exact I1 |]. split; [rewrite I1, I2; lia | exact I3].
Qed.

Lemma combo_after_clicks_witness :
  cc_count (clickCombo
     (Production.clicks [(1, 100); (1, 9000); (2, 9100)] (initialWorld 0)))
  = 3.
Proof.
  destruct (combo_after_clicks [(1, 100); (1, 9000); (2, 9100)]
              (initialWorld 0)) as (H & _).
  - cbn. lia.
  - rewrite H. reflexivity.
Defined.

(** X8: the first click after [resetCombo()] starts a combo anew: count 1
    and multiplier 1, for a cap of at least 1. *)
Theorem resetCombo_restarts (clickCount now : Z) (w : World) :
  1 <= cc_maxCombo (clickCombo w) ->
  let r := ProductionService.produceMatchsticks clickCount now
             (Production.resetCombo w) in
  ProductionService.comboCount (fst r) = 1
  /\ cc_count (clickCombo (snd r)) = 1
  /\ (cc_multiplier (clickCombo (snd r)) == 1)%Q.
Proof.
  intros H r. unfold r.
  rewrite produceMatchsticks_combo_never_resets, produceMatchsticks_combo.
  cbn [Production.resetCombo clickCombo setClickCombo nextCombo cc_count
       cc_maxCombo cc_multiplier].
  replace (Z.min (0 + 1) (cc_maxCombo (clickCombo w))) with 1 by lia.
  split; [reflexivity |]. split; reflexivity.
Qed.

Lemma resetCombo_restarts_witness :
  ProductionService.comboCount
    (fst (ProductionService.produceMatchsticks 1 300
            (Production.resetCombo
               (Production.clicks [(1, 100); (1, 200)] (initialWorld 0)))))
  = 1.
Proof.
  destruct (resetCombo_restarts 1 300
              (Production.clicks [(1, 100); (1, 200)] (initialWorld 0)))
    as (H & _).
  - vm_compute. discriminate.
  - exact H.
Defined.

Lemma setKey_fresh key value l :
  freshKey key l -> Production.setKey key value l = l ++ [(key, value)].
Proof.
  induction l as [| [k v] l IH]; intros F; cbn [Production.setKey app];
    [reflexivity |].
  destruct (String.eqb_spec k key) as [E | N].
  - exfalso. apply (F (k, v)); [left; reflexivity | exact E].
  - rewrite IH; [reflexivity |]. intros p Hp. apply F. right. exact Hp.
Qed.

Lemma deleteKey_fresh key l :
  freshKey key l -> Production.deleteKey key l = l.
Proof.
  induction l as [| [k v] l IH]; intros F; cbn [Production.deleteKey filter];
    [reflexivity |].
  cbn [fst]. destruct (String.eqb_spec k key) as [E | N].
  - exfalso. apply (F (k, v)); [left; reflexivity | exact E].
  - cbn [negb]. f_equal. apply IH. intros p Hp. apply F. right. exact Hp.
Qed.

(** X9: a temporary multiplier comes and goes without a trace.  After
    [removeMultiplier] no property of the table bears the id; when the id
    was not in use, the total multiplier is multiplied by a positive
    temporary multiplier while it is applied, and the removal the timer
    performs restores the table of multipliers exactly. *)
Theorem temporary_multiplier_roundtrip
    (multiplier : Q) (duration now later : Z) (comboMultiplier : Q)
    (w : World) :
  let applied := Production.applyTemporaryMultiplier multiplier duration now w in
  let removed := Production.removeMultiplier (fst applied) later (snd applied) in
  freshKey (fst applied) (multipliers (production (gameState removed)))
  /\ (freshKey (Production.tempId now) (multipliers (production (gameState w))) ->
      multipliers (production (gameState removed))
      = multipliers (production (gameState w))
      /\ ProductionService.calculateTotalMultiplier comboMultiplier (snd applied)
         = (if JS.ltQ 0 multiplier
            then (ProductionService.calculateTotalMultiplier comboMultiplier w
                  * multiplier)%Q
            else ProductionService.calculateTotalMultiplier comboMultiplier w)).
Proof.
  cbv zeta.
  cbn [Production.applyTemporaryMultiplier Production.removeMultiplier fst snd
       gameActions.updateProduction gameActions.emitEvent gameActions.update
       gameState setGameState setGameEvents production setProduction
       multipliers JS.merge u_multipliers].
  split.
  - intros p Hp. unfold Production.deleteKey in Hp. apply filter_In in Hp.
    destruct Hp as (_ & Hp). apply negb_true_iff in Hp.
    apply String.eqb_neq. exact Hp.
  - intros F. rewrite (setKey_fresh _ _ _ F). split.
    + unfold Production.deleteKey. rewrite filter_app. cbn [filter fst].
      rewrite String.eqb_refl. cbn [negb]. rewrite app_nil_r.
      apply deleteKey_fresh. exact F.
    + unfold ProductionService.calculateTotalMultiplier.
      cbn [gameActions.updateProduction gameActions.emitEvent
           gameActions.update gameState setGameState setGameEvents production
           setProduction multipliers JS.merge u_multipliers].
      rewrite fold_left_app. reflexivity.
Qed.

Lemma temporary_multiplier_roundtrip_witness :
  multipliers
    (production (gameState
       (Production.removeMultiplier
          (fst (Production.applyTemporaryMultiplier 3 5000 42 boostedExample))
          5042
          (snd (Production.applyTemporaryMultiplier 3 5000 42 boostedExample)))))
  = multipliers (production (gameState boostedExample)).
Proof.
  destruct (temporary_multiplier_roundtrip 3 5000 42 5042 1 boostedExample)
    as (_ & H).
  destruct H as (H & _); [| exact H].
  intros p [<- | []]. cbn. discriminate.
Defined.

(** ** MarketEngine: impact, price floor, history, conditions, analytics *)

Lemma min_le_l a b : (JS.min a b <= a)%Q.
Proof.
  unfold JS.min. destruct (JS.ltQ b a) eqn:E; [| lra].
  apply ltQ_true in E. lra.
Qed.

Lemma min_le_r a b : (JS.min a b <= b)%Q.
Proof.
  unfold JS.min. destruct (JS.ltQ b a) eqn:E; [lra |].
  apply ltQ_false in E. exact E.
Qed.

Lemma max_ge_l a b : (a <= JS.max a b)%Q.
Proof.
  unfold JS.max. destruct (JS.ltQ a b) eqn:E; [| lra].
  apply ltQ_true in E. lra.
Qed.

Lemma max_ge_r a b : (b <= JS.max a b)%Q.
Proof.
  unfold JS.max. destruct (JS.ltQ a b) eqn:E; [lra |].
  apply ltQ_false in E. exact E.
Qed.

(** X10: the market impact of a sale is a factor between 0.8 and 1, equal
    to 1 up to 1000 units: the unit price a sale is paid at is never above
    the market price and never below 80% of it. *)
Theorem marketImpact_bounds (amount : Z) (price : Q) :
  (8 # 10 <= MarketService.calculateMarketImpact amount <= 1)%Q
  /\ (amount <= 1000 -> MarketService.calculateMarketImpact amount = 1%Q)
  /\ ((0 <= price)%Q ->
      ((8 # 10) * price <= price * MarketService.calculateMarketImpact amount
       <= price)%Q).
Proof.
  assert (B : (8 # 10 <= MarketService.calculateMarketImpact amount <= 1)%Q).
  { unfold MarketService.calculateMarketImpact.
    destruct (JS.leQ (inject_Z amount) 1000) eqn:E; [lra |].
    unfold JS.leQ in E. apply negb_false_iff, ltQ_true in E.
    pose proof (min_le_l (2 # 10) ((inject_Z amount - 1000) / 10000)) as U.
    assert (L : (0 <= JS.min (2 # 10) ((inject_Z amount - 1000) / 10000))%Q).
    { unfold JS.min. destruct (JS.ltQ _ (2 # 10)); [| lra].
      apply Qle_shift_div_l; lra. }
    lra. }
  split; [exact B |]. split.
  - intros H. unfold MarketService.calculateMarketImpact.
    destruct (JS.leQ (inject_Z amount) 1000) eqn:E; [reflexivity |].
    unfold JS.leQ in E. apply negb_false_iff, ltQ_true in E.
    exfalso. assert ((inject_Z amount <= inject_Z 1000)%Q) as X
      by (rewrite <- Zle_Qle; exact H).
    change (inject_Z 1000) with 1000%Q in X. lra.
  - intros P. destruct B as (B1 & B2).
    generalize dependent (MarketService.calculateMarketImpact amount).
    intros i B1 B2. split; nra.
Qed.

Lemma marketImpact_bounds_witness :
  MarketService.calculateMarketImpact 10 = 1%Q
  /\ ((8 # 10) * 2 <= 2 * MarketService.calculateMarketImpact 5000 <= 2)%Q.
Proof.
  destruct (marketImpact_bounds 10 2) as (_ & H1 & _).
  destruct (marketImpact_bounds 5000 2) as (_ & _ & H2).
  split; [apply H1; lia | apply H2; lra].
Defined.

(** X11: a price tick, whatever the random value, keeps the price at or
    above the floor 0.1 and the history within its cap: from a history of
    at most 100 points the new history has at most 100 points, ends with
    the point of the new price, and is the old history plus that point
    less at most one point at the old end. *)
Theorem updateMarketPrice_floor_and_cap (random : Q) (now : Z) (w : World) :
  let w' := Market.updateMarketPrice random now w in
  (1 # 10 <= currentPrice (market (gameState w')))%Q
  /\ ((List.length (priceHistory (market (gameState w))) <= 100)%nat ->
      (List.length (priceHistory (market (gameState w'))) <= 100)%nat
      /\ exists dropped point,
           (List.length dropped <= 1)%nat
           /\ ph_price point = currentPrice (market (gameState w'))
           /\ ph_timestamp point = now
           /\ dropped ++ priceHistory (market (gameState w'))
              = priceHistory (market (gameState w)) ++ [point]).
Proof.
  unfold Market.updateMarketPrice. cbv zeta.
  cbn [gameActions.updateMarket gameActions.emitEvent gameActions.update
       gameState setGameState setGameEvents market setMarket currentPrice
       priceHistory JS.merge u_currentPrice u_priceHistory].
  split; [apply max_ge_l |].
  intros H.
  set (point := mkPricePoint now _ 0 _).
  set (old := priceHistory (market (gameState w))) in *.
  unfold Market.maxPriceHistory.
  destruct (Z.gtb_spec (Z.of_nat (List.length (old ++ [point]))) 100) as [G | G].
  - rewrite length_app in G. cbn [List.length] in G.
    destruct old as [| x old']; [cbn in G; lia |].
    cbn [app tl]. split.
    + rewrite length_app. cbn [List.length] in *. lia.
    + exists [x], point. repeat split. cbn. lia.
  - split.
    + lia.
    + exists [], point. repeat split. cbn. lia.
Qed.

Lemma updateMarketPrice_floor_and_cap_witness :
  (List.length
     (priceHistory (market (gameState
        (Market.updateMarketPrice (3 # 10) 5 (initialWorld 0))))) <= 100)%nat.
Proof.
  destruct (updateMarketPrice_floor_and_cap (3 # 10) 5 (initialWorld 0))
    as (_ & H).
  destruct H as (H & _); [cbn; lia | exact H].
Defined.

(** X12: what a successful sale leaves in the market service: the price,
    after the post-trade haircut, is still at or above the floor 0.1, and
    the trade history is the transaction returned followed by the earlier
    trades, cut to the 50 most recent.  A refused sale leaves both as they
    were. *)
Theorem sell_price_floor_and_trade_cap (amount now : Z) (w : World) :
  let r := MarketService.sellMatchsticks amount now w in
  (MarketService.success (fst r) = true ->
   (1 # 10 <= currentPrice (market (gameState (snd r))))%Q
   /\ exists t, MarketService.transaction (fst r) = Some t
        /\ tr_matchsticksSold t = amount
        /\ recentTrades (snd r) = firstn 50 (t :: recentTrades w)
        /\ (List.length (recentTrades (snd r)) <= 50)%nat)
  /\ (MarketService.success (fst r) = false -> snd r = w).
Proof.
  unfold MarketService.sellMatchsticks.
  destruct (amount <=? 0); [split; [discriminate | reflexivity] |].
  destruct (amount >? matchsticks (resources (gameState w)));
    [split; [discriminate | reflexivity] |].
  cbv zeta.
  destruct (gameActions.sellMatchsticks amount now w) as [ok w1] eqn:E.
  destruct ok; cbn [negb].
  - match goal with
    | |- context [AchievementService.checkAchievements now ?x] =>
        pose proof (checkAchievements_frame now x) as (_ & _ & _ & F);
        pose proof (checkAchievements_qualifying now x) as (_ & Q & _);
        destruct (AchievementService.checkAchievements now x) as [n w7]
    end.
    cbn [fst snd MarketService.success MarketService.transaction] in *.
    split; [| discriminate]. intros _. split.
    + rewrite <- Q. cbn. apply max_ge_l.
    + eexists. split; [reflexivity |]. split; [reflexivity |].
      rewrite F. cbn [recentTrades gameActions.emitEvent setGameEvents
                      MarketService.updatePriceAfterTrade
                      gameActions.updateMarket gameActions.update setGameState
                      setRecentTrades gameActions.addResources].
      assert (R1 : recentTrades w1 = recentTrades w).
      { unfold gameActions.sellMatchsticks in E.
        destruct (SafeBigInt.compare _ amount <? 0); [discriminate |].
        destruct (gameActions.subtractResources _ w) as [ok2 w0] eqn:E2.
        pose proof (subtractResources_cases
                      (mkDelta (Some amount) None None None) w) as C.
        rewrite E2 in C.
        destruct C as [(_ & C) | (_ & w' & C & _ & Only)];
          inversion C; subst; [discriminate |].
        inversion E; subst. rewrite Only. reflexivity. }
      rewrite R1. split; [reflexivity | apply firstn_le_length].
  - cbn [fst snd MarketService.success]. split; [discriminate |].
    intros _. unfold gameActions.sellMatchsticks in E.
    destruct (SafeBigInt.compare _ amount <? 0); [inversion E; reflexivity |].
    destruct (gameActions.subtractResources _ w) as [ok2 w0] eqn:E2.
    pose proof (subtractResources_cases
                  (mkDelta (Some amount) None None None) w) as C.
    rewrite E2 in C.
    destruct C as [(_ & C) | (_ & w' & C & _)]; inversion C; subst.
    + inversion E; reflexivity.
    + discriminate.
Qed.

Lemma sell_price_floor_and_trade_cap_witness :
  MarketService.success
    (fst (MarketService.sellMatchsticks 10 1 marketExample)) = true
  /\ (1 # 10 <= currentPrice (market (gameState
        (snd (MarketService.sellMatchsticks 10 1 marketExample)))))%Q.
Proof.
  assert (S : MarketService.success
                (fst (MarketService.sellMatchsticks 10 1 marketExample))
              = true) by (vm_compute; reflexivity).
  split; [exact S |].
  destruct (sell_price_floor_and_trade_cap 10 1 marketExample) as (H & _).
  destruct (H S) as (H1 & _). exact H1.
Defined.

Lemma tryConditions_spec configs : forall i random now w,
  tryConditions_result configs i random now w.
Proof.
  induction configs as [| c rest IH]; intros i random now w;
    unfold tryConditions_result; cbn [Market.tryConditions].
  - left. split; [reflexivity | intros k c Hc; destruct k; discriminate].
  - destruct (JS.ltQ (random i) (Market.mc_probability c)) eqn:E.
    + right. exists 0%nat, c. split; [reflexivity |].
      split; [rewrite Nat.add_0_r; exact E |].
      split; [intros k c' Hk; lia | reflexivity].
    + destruct (IH (S i) random now w) as [(U & N) | (k & c' & Hk & Hit & Miss & A)].
      * left. split; [exact U |].
        intros k c' Hc. destruct k as [| k]; cbn [nth_error] in Hc.
        -- inversion Hc; subst. rewrite Nat.add_0_r. exact E.
        -- rewrite <- Nat.add_succ_comm. apply (N k c' Hc).
      * right. exists (S k), c'. split; [exact Hk |].
        split; [rewrite <- Nat.add_succ_comm; exact Hit |].
        split; [| exact A].
        intros j cj Hj Hlt. destruct j as [| j]; cbn [nth_error] in Hlt.
        -- inversion Hlt; subst. rewrite Nat.add_0_r. exact E.
        -- rewrite <- Nat.add_succ_comm. apply (Miss j cj); [lia | exact Hlt].
Qed.

(** X13: at most one market condition at a time.  A check never replaces
    an active condition by another: it leaves it or clears it.  With no
    condition active, the check applies the first predefined condition
    whose random draw is below its probability, and nothing when none is;
    the price is never touched. *)
Theorem checkForMarketConditions_one_at_a_time
    (random : nat -> Q) (now : Z) (w : World) :
  let w' := Market.checkForMarketConditions random now w in
  currentPrice (market (gameState w')) = currentPrice (market (gameState w))
  /\ (forall c, condition (market (gameState w)) = Some c ->
      (JS.ltQ (random 0%nat) (1 # 10) = true
       /\ condition (market (gameState w')) = None)
      \/ (JS.ltQ (random 0%nat) (1 # 10) = false /\ w' = w))
  /\ (condition (market (gameState w)) = None ->
      (w' = w
       /\ forall k c, nth_error Market.marketConditions k = Some c ->
            JS.ltQ (random k) (Market.mc_probability c) = false)
      \/ exists k c,
           nth_error Market.marketConditions k = Some c
           /\ JS.ltQ (random k) (Market.mc_probability c) = true
           /\ (forall j cj, (j < k)%nat ->
                 nth_error Market.marketConditions j = Some cj ->
                 JS.ltQ (random j) (Market.mc_probability cj) = false)
           /\ condition (market (gameState w')) = Some (Market.conditionOf c)).
Proof.
  unfold Market.checkForMarketConditions.
  pose proof (tryConditions_spec Market.marketConditions 0 random now w) as T.
  unfold tryConditions_result in T. cbn [Nat.add] in T.
  destruct (condition (market (gameState w))) as [c0 |] eqn:C.
  - destruct (JS.ltQ (random 0%nat) (1 # 10)) eqn:E.
    + split; [reflexivity |]. split; [| discriminate].
      intros c _. left. split; reflexivity.
    + split; [reflexivity |]. split; [| discriminate].
      intros c _. right. split; reflexivity.
  - split.
    + destruct T as [(U & _) | (k & c & _ & _ & _ & A)]; rewrite ?U, ?A;
        reflexivity.
    + split; [discriminate |]. intros _.
      destruct T as [(U & N) | (k & c & Hk & Hit & Miss & A)].
      * left. split; [exact U | exact N].
      * right. exists k, c. rewrite A. repeat split; try assumption.
Qed.

Lemma checkForMarketConditions_one_at_a_time_witness :
  condition (market (gameState boomExample))
  = Some (Market.conditionOf
            (Market.mkConditionConfig "boom" "Economic Boom"
               "High demand for all goods including matchsticks"
               (14 # 10) "high" 90000 (8 # 100)))
  /\ Market.checkForMarketConditions (fun _ => 5 # 10) 1 boomExample
     = boomExample.
Proof.
  split; [reflexivity |].
  destruct (checkForMarketConditions_one_at_a_time (fun _ => 5 # 10) 1
              boomExample) as (_ & H & _).
  destruct (H _ eq_refl) as [(E & _) | (_ & E)]; [discriminate | exact E].
Defined.

Lemma fold_min_spec l : forall a,
  (fold_left JS.min l a <= a)%Q
  /\ (forall x, In x l -> (fold_left JS.min l a <= x)%Q)
  /\ (fold_left JS.min l a = a \/ In (fold_left JS.min l a) l).
Proof.
  induction l as [| y l IH]; intros a; cbn [fold_left].
  - split; [lra |]. split; [intros x [] | left; reflexivity].
  - destruct (IH (JS.min a y)) as (I1 & I2 & I3).
    pose proof (min_le_l a y). pose proof (min_le_r a y).
    split; [lra |]. split.
    + intros x [<- | Hx]; [lra | apply I2; exact Hx].
    + destruct I3 as [E | Hin]; [| right; right; exact Hin].
      rewrite E. unfold JS.min. destruct (JS.ltQ y a); auto.
      right. left. reflexivity.
Qed.

Lemma fold_max_spec l : forall a,
  (a <= fold_left JS.max l a)%Q
  /\ (forall x, In x l -> (x <= fold_left JS.max l a)%Q)
  /\ (fold_left JS.max l a = a \/ In (fold_left JS.max l a) l).
Proof.
  induction l as [| y l IH]; intros a; cbn [fold_left].
  - split; [lra |]. split; [intros x [] | left; reflexivity].
  - destruct (IH (JS.max a y)) as (I1 & I2 & I3).
    pose proof (max_ge_l a y). pose proof (max_ge_r a y).
    split; [lra |]. split.
    + intros x [<- | Hx]; [lra | apply I2; exact Hx].
    + destruct I3 as [E | Hin]; [| right; right; exact Hin].
      rewrite E. unfold JS.max. destruct (JS.ltQ a y); auto.
      right. left. reflexivity.
Qed.

(** X14: support and resistance bracket the recent prices.  With fewer
    than 20 points both are 0; otherwise they are computed over the last
    min(50, n) points, each is the price of one of those points, and every
    one of those prices lies between them. *)
Theorem supportResistance_brackets (history : list PriceHistoryEntry) :
  ((List.length history < 20)%nat ->
   Market.calculateSupportResistance history = (0%Q, 0%Q))
  /\ ((20 <= List.length history)%nat ->
      let recent := Market.lastN 50 history in
      let support := fst (Market.calculateSupportResistance history) in
      let resistance := snd (Market.calculateSupportResistance history) in
      List.length recent = Nat.min 50 (List.length history)
      /\ (forall e, In e recent ->
            (support <= ph_price e <= resistance)%Q)
      /\ In support (map ph_price recent)
      /\ In resistance (map ph_price recent)).
Proof.
  unfold Market.calculateSupportResistance. split; intros H.
  - destruct (Nat.ltb_spec (List.length history) 20); [reflexivity | lia].
  - destruct (Nat.ltb_spec (List.length history) 20); [lia |].
    cbv zeta. cbn [fst snd].
    assert (L : List.length (Market.lastN 50 history)
                = Nat.min 50 (List.length history))
      by (unfold Market.lastN; rewrite length_skipn; lia).
    split; [exact L |].
    destruct (map ph_price (Market.lastN 50 history)) as [| p rest] eqn:E.
    { apply (f_equal (@List.length Q)) in E. rewrite length_map, L in E.
      cbn [List.length] in E. lia. }
    cbn [Market.minOf Market.maxOf].
    destruct (fold_min_spec rest p) as (m1 & m2 & m3).
    destruct (fold_max_spec rest p) as (x1 & x2 & x3).
    split; [| split].
    + intros e He.
      assert (Hp : In (ph_price e) (p :: rest))
        by (rewrite <- E; apply in_map; exact He).
      destruct Hp as [<- | Hp]; [lra |].
      split; [apply m2 | apply x2]; exact Hp.
    + destruct m3 as [-> | Hin]; [left; reflexivity | right; exact Hin].
    + destruct x3 as [-> | Hin]; [left; reflexivity | right; exact Hin].
Qed.

Lemma supportResistance_brackets_witness :
  Market.calculateSupportResistance (flatHistory 3 2) = (0%Q, 0%Q)
  /\ In (fst (Market.calculateSupportResistance (flatHistory 25 2)))
        (map ph_price (Market.lastN 50 (flatHistory 25 2))).
Proof.
  destruct (supportResistance_brackets (flatHistory 3 2)) as (H1 & _).
  destruct (supportResistance_brackets (flatHistory 25 2)) as (_ & H2).
  split; [apply H1; cbn; lia |].
  destruct H2 as (_ & _ & H & _); [cbn; lia | exact H].
Defined.

(** ** AutomationScheduler: purchases, listings, facilities, maintenance *)

Lemma findClicker_setLevel clickerId n l c :
  AutomationService.findClicker clickerId l = Some c ->
  AutomationService.findClicker clickerId
    (AutomationService.setLevel clickerId n l)
  = Some (mkClicker (ac_id c) n (ac_isActive c) (ac_totalClicks c)
            (ac_efficiency c)).
Proof.
  unfold AutomationService.findClicker.
  induction l as [| x l IH]; cbn [find AutomationService.setLevel];
    [discriminate |].
  destruct (ac_id x =? clickerId)%string eqn:E; intros H.
  - inversion H; subst. cbn [find ac_id]. rewrite E. reflexivity.
  - cbn [find]. rewrite E. apply IH. exact H.
Qed.

Lemma findClicker_setLevel_other clickerId other n l :
  other <> clickerId ->
  AutomationService.findClicker other
    (AutomationService.setLevel clickerId n l)
  = AutomationService.findClicker other l.
Proof.
  intros N. unfold AutomationService.findClicker.
  induction l as [| x l IH]; cbn [find AutomationService.setLevel];
    [reflexivity |].
  destruct (String.eqb_spec (ac_id x) clickerId) as [E | E].
  - cbn [find ac_id]. destruct (String.eqb_spec (ac_id x) other);
      [congruence | reflexivity].
  - cbn [find]. rewrite IH. reflexivity.
Qed.

Lemma findClicker_app clickerId other l c :
  ac_id c = clickerId ->
  AutomationService.findClicker other (l ++ [c])
  = match AutomationService.findClicker other l with
    | Some x => Some x
    | None => if (clickerId =? other)%string then Some c else None
    end.
Proof.
  intros <-. unfold AutomationService.findClicker.
  induction l as [| x l IH]; cbn [find app]; [reflexivity |].
  destruct (ac_id x =? other)%string; [reflexivity | exact IH].
Qed.







(** X15: what a successful auto-clicker purchase changes.  The level of
    the clicker bought is one more than before (an entry at level 1 is
    created when there was none), the cost is added to the money spent on
    automation, every other clicker is as it was, and the matchsticks are
    untouched. *)
Theorem purchaseAutoClicker_success_effect
    (clickerId : string) (now : Z) (w : World) :
  let r := AutomationService.purchaseAutoClicker clickerId now w in
  AutomationService.p_success (fst r) = true ->
  exists cost,
    AutomationService.p_cost (fst r) = Some cost
    /\ currentLevelOf clickerId (snd r) = currentLevelOf clickerId w + 1
    /\ totalMoneySpent (automation (gameState (snd r)))
       = (totalMoneySpent (automation (gameState w)) + inject_Z cost)%Q
    /\ (forall other, other <> clickerId ->
        AutomationService.findClicker other
          (autoClickers (automation (gameState (snd r))))
        = AutomationService.findClicker other
            (autoClickers (automation (gameState w))))
    /\ matchsticks (resources (gameState (snd r)))
       = matchsticks (resources (gameState w)).
Proof.
  unfold AutomationService.purchaseAutoClicker, currentLevelOf.
  destruct (find _ AutomationService.autoClickerConfigs) as [config |];
    [| discriminate].
  cbv zeta.
  destruct (AutomationService.findClicker clickerId
              (autoClickers (automation (gameState w)))) as [c |] eqn:E.
  all: destruct (AutomationService.levelOf _ >=? _); [discriminate |].
  all: destruct (negb _); [discriminate |].
  all: destruct (JS.ltQ _ _); [discriminate |].
  all: match goal with
       | |- context [AchievementService.checkAchievements ?t ?x] =>
           pose proof (checkAchievements_matchsticks t x) as M;
           pose proof (checkAchievements_qualifying t x) as (_ & _ & A & _);
           destruct (AchievementService.checkAchievements t x) as [n w5]
       end.
  all: cbn [fst snd AutomationService.p_success AutomationService.p_cost] in *.
  all: intros _; eexists; split; [reflexivity |].
  all: rewrite <- A, M.
  all: cbn [gameActions.emitEvent gameActions.updateAutomation
            gameActions.addResources gameActions.update gameState setGameState
            setGameEvents automation setAutomation setResources resources
            autoClickers totalMoneySpent matchsticks JS.merge u_autoClickers
            u_totalMoneySpent d_matchsticks].
  all: split; [| split; [reflexivity | split; [| reflexivity]]].
  - rewrite (findClicker_setLevel _ _ _ _ E). reflexivity.
  - intros other N. apply findClicker_setLevel_other. exact N.
  - erewrite (findClicker_app clickerId clickerId) by reflexivity.
    rewrite E, String.eqb_refl. reflexivity.
  - intros other N. erewrite (findClicker_app clickerId other) by reflexivity.
    destruct (AutomationService.findClicker other _); [reflexivity |].
    destruct (String.eqb_spec clickerId other); [congruence | reflexivity].
Qed.

Lemma purchaseAutoClicker_success_effect_witness :
  AutomationService.p_success
    (fst (AutomationService.purchaseAutoClicker "basic_clicker" 1
            fundedExample)) = true
  /\ exists cost,
       AutomationService.p_cost
         (fst (AutomationService.purchaseAutoClicker "basic_clicker" 1
                 fundedExample)) = Some cost
       /\ currentLevelOf "basic_clicker"
            (snd (AutomationService.purchaseAutoClicker "basic_clicker" 1
                    fundedExample))
          = currentLevelOf "basic_clicker" fundedExample + 1.
Proof.
  assert (S : AutomationService.p_success
                (fst (AutomationService.purchaseAutoClicker "basic_clicker" 1
                        fundedExample)) = true) by (vm_compute; reflexivity).
  split; [exact S |].
  destruct (purchaseAutoClicker_success_effect "basic_clicker" 1
              fundedExample S) as (cost & H1 & H2 & _).
  exists cost. split; assumption.
Defined.

Lemma configOf_listed config :
  In config AutomationService.autoClickerConfigs ->
  configOf (AutomationService.cfg_id config) = Some config.
Proof.
  intros [<- | [<- | [<- | [<- | []]]]]; reflexivity.
Qed.

(** X16: the listing shows what a purchase will do.  For every entry of
    [getAvailableAutoClickers()], buying the listed auto-clicker succeeds
    exactly when the entry is unlocked, not maxed, and the money covers the
    listed cost; a successful purchase charges the listed cost and brings
    the clicker to the listed level plus one. *)
Theorem listing_agrees_with_purchase
    (entry : Automation.AvailableClicker) (now : Z) (w : World) :
  In entry (Automation.getAvailableAutoClickers w) ->
  let r := AutomationService.purchaseAutoClicker
             (AutomationService.cfg_id (Automation.av_config entry)) now w in
  (AutomationService.p_success (fst r) = true
   <-> Automation.av_isUnlocked entry = true
       /\ Automation.av_isMaxed entry = false
       /\ (inject_Z (Automation.av_cost entry)
           <= money (resources (gameState w)))%Q)
  /\ (AutomationService.p_success (fst r) = true ->
      fst r = AutomationService.mkPurchase true
                (Some (Automation.av_cost entry))
                (Some (Automation.av_currentLevel entry + 1)) None).
Proof.
  intros Hin. unfold Automation.getAvailableAutoClickers in Hin.
  apply in_map_iff in Hin. destruct Hin as (config & <- & Hc).
  cbn [Automation.av_config Automation.av_cost Automation.av_currentLevel
       Automation.av_isUnlocked Automation.av_isMaxed].
  pose proof (purchaseAutoClicker_cases (AutomationService.cfg_id config)
                now w) as C.
  rewrite (configOf_listed config Hc) in C. cbv zeta in C.
  unfold currentLevelOf in C.
  set (L := AutomationService.levelOf _) in *.
  destruct C as (C1 & C2 & C3 & C4).
  destruct (Z.geb_spec L (AutomationService.maxLevel config)) as [G | G].
  { rewrite (C1 G). cbn. split; [| discriminate].
    split; [discriminate | intros (_ & X & _); discriminate]. }
  destruct (AutomationService.checkUnlockRequirement _ (gameState w)) eqn:U.
  2: { rewrite (C2 G eq_refl). cbn. split; [| discriminate].
       split; [discriminate | intros (X & _); discriminate]. }
  destruct (Qlt_le_dec (money (resources (gameState w)))
              (inject_Z (AutomationService.calculateAutoClickerCost config L)))
    as [P | P].
  { rewrite (C3 G eq_refl P). cbn. split; [| discriminate].
    split; [discriminate |].
    intros (_ & _ & X). exfalso. exact (Qlt_not_le _ _ P X). }
  rewrite (C4 G eq_refl P). cbn. split; [| intros _; reflexivity].
  split; auto.
Qed.

Lemma listing_agrees_with_purchase_witness :
  In (Automation.mkAvailable basicClicker 50 0 true false)
     (Automation.getAvailableAutoClickers fundedExample)
  /\ AutomationService.p_success
       (fst (AutomationService.purchaseAutoClicker "basic_clicker" 1
               fundedExample)) = true.
Proof.
  assert (H : In (Automation.mkAvailable basicClicker 50 0 true false)
                (Automation.getAvailableAutoClickers fundedExample))
    by (left; reflexivity).
  split; [exact H |].
  destruct (listing_agrees_with_purchase _ 1 fundedExample H) as (I & _).
  apply I. cbn. split; [reflexivity |]. split; [reflexivity |].
  vm_compute. discriminate.
Defined.

Lemma setOwned_within_caps facilityId n l config :
  find (fun f => (Automation.f_id f =? facilityId)%string) l = Some config ->
  facilitiesWithinCaps l -> n <= Automation.f_maxOwned config ->
  facilitiesWithinCaps (Automation.setOwned facilityId n l).
Proof.
  unfold facilitiesWithinCaps.
  induction l as [| f l IH]; cbn [find Automation.setOwned]; [discriminate |].
  intros Hf Hl Hn. inversion Hl as [| ? ? Hx Hrest]; subst.
  destruct (Automation.f_id f =? facilityId)%string.
  - inversion Hf; subst. constructor; [exact Hn | exact Hrest].
  - constructor; [exact Hx | apply IH; assumption].
Qed.

Lemma setOwned_efficiencies facilityId n l :
  map Automation.f_efficiency (Automation.setOwned facilityId n l)
  = map Automation.f_efficiency l.
Proof.
  induction l as [| f l IH]; cbn [Automation.setOwned map]; [reflexivity |].
  destruct (Automation.f_id f =? facilityId)%string; cbn [map];
    [reflexivity | rewrite IH; reflexivity].
Qed.

(** X17: facility purchases respect the ownership caps.  A purchase that
    fails (unknown id, cap reached, locked, too little money) leaves the
    world and the facility table as they were; one that succeeds charges
    floor(cost * 1.5^owned) for the owned count it found and reports that
    count plus one; and if every owned count was within its cap before a
    purchase, it is so afterwards. *)
Theorem purchaseFacility_respects_caps
    (facilityId : string) (now : Z) (s : Automation.Plant) :
  let r := Automation.purchaseFacility facilityId now s in
  (Automation.fr_success (fst r) = false -> snd r = s)
  /\ (Automation.fr_success (fst r) = true ->
      exists config,
        find (fun f => (Automation.f_id f =? facilityId)%string)
          (Automation.facilityConfigs s) = Some config
        /\ Automation.f_owned config < Automation.f_maxOwned config
        /\ Automation.fr_cost (fst r)
           = Some (Qfloor (Automation.f_cost config
                           * (15 # 10) ^ Automation.f_owned config))
        /\ Automation.fr_newCount (fst r)
           = Some (Automation.f_owned config + 1)
        /\ Automation.facilityConfigs (snd r)
           = Automation.setOwned facilityId (Automation.f_owned config + 1)
               (Automation.facilityConfigs s))
  /\ (facilitiesWithinCaps (Automation.facilityConfigs s) ->
      facilitiesWithinCaps (Automation.facilityConfigs (snd r))).
Proof.
  unfold Automation.purchaseFacility.
  destruct (find _ (Automation.facilityConfigs s)) as [config |] eqn:F.
  2: { cbn. split; [reflexivity |]. split; [discriminate | auto]. }
  cbv zeta.
  destruct (Z.geb_spec (Automation.f_owned config) (Automation.f_maxOwned config))
    as [Hcap | Hcap].
  { cbn. split; [reflexivity |]. split; [discriminate | auto]. }
  destruct (negb _).
  { cbn. split; [reflexivity |]. split; [discriminate | auto]. }
  destruct (JS.ltQ _ _).
  { cbn. split; [reflexivity |]. split; [discriminate | auto]. }
  destruct (AchievementService.checkAchievements now _) as [n w4].
  cbn [fst snd Automation.fr_success Automation.fr_cost
       Automation.fr_newCount Automation.facilityConfigs].
  split; [discriminate |]. split.
  - intros _. exists config. repeat split. lia.
  - intros Hin. apply (setOwned_within_caps _ _ _ config);
      [exact F | exact Hin | lia].
Qed.

Lemma purchaseFacility_respects_caps_witness :
  facilitiesWithinCaps (Automation.facilityConfigs plantExample)
  /\ facilitiesWithinCaps
       (Automation.facilityConfigs
          (snd (Automation.purchaseFacility "mega_plant" 1 plantExample))).
Proof.
  assert (H : facilitiesWithinCaps (Automation.facilityConfigs plantExample))
    by (repeat constructor; cbn; lia).
  split; [exact H |].
  destruct (purchaseFacility_respects_caps "mega_plant" 1 plantExample)
    as (_ & _ & I).
  exact (I H).
Defined.

Lemma reduce_efficiency_range e : (1 # 10 <= e <= 1)%Q ->
  (1 # 10 <= JS.max (1 # 10) (e - (5 # 100)) <= 1)%Q.
Proof.
  intros [L U]. split; [apply max_ge_l |].
  unfold JS.max. destruct (JS.ltQ (1 # 10) (e - (5 # 100))); lra.
Qed.

(** X18: maintenance never overdraws and never drives a facility below
    10% efficiency.  A tick either charges the upkeep of five seconds, when
    the money covers it, and leaves the facilities alone, or charges
    nothing and lowers efficiencies; a non-negative ledger stays
    non-negative, efficiencies within [0.1, 1] stay within it, and owned
    counts are not changed. *)
Theorem processMaintenance_never_overdraws (now : Z) (s : Automation.Plant) :
  let s' := Automation.processMaintenance now s in
  (ledgerNonneg (resources (gameState (Automation.plantWorld s))) ->
   ledgerNonneg (resources (gameState (Automation.plantWorld s'))))
  /\ (efficienciesInRange (Automation.facilityConfigs s) ->
      efficienciesInRange (Automation.facilityConfigs s'))
  /\ map Automation.f_owned (Automation.facilityConfigs s')
     = map Automation.f_owned (Automation.facilityConfigs s)
  /\ (Automation.facilityConfigs s' = Automation.facilityConfigs s
      \/ gameState (Automation.plantWorld s')
         = gameState (Automation.plantWorld s)).
Proof.
  unfold Automation.processMaintenance. cbv zeta.
  destruct (JS.ltQ 0 (Automation.totalMaintenanceCost _)) eqn:T.
  2: { split; [auto |]. split; [auto |]. split; [reflexivity | left; reflexivity]. }
  apply ltQ_true in T.
  destruct (JS.geQ _ _) eqn:G.
  - unfold JS.geQ in G. apply negb_true_iff, ltQ_false in G.
    cbn [Automation.plantWorld Automation.facilityConfigs].
    split; [| split; [auto | split; [reflexivity | left; reflexivity]]].
    intros (Hm & Hq & Hw & Hr).
    unfold ledgerNonneg, gameActions.addResources, gameActions.update.
    cbn [gameState setGameState resources setResources matchsticks money
         wood reputation d_matchsticks d_money d_wood d_reputation JS.orZero].
    repeat split; try lra; try assumption.
    destruct (JS.truthyQ _); lra.
  - cbn [Automation.reduceFacilityEfficiency Automation.plantWorld
         Automation.facilityConfigs gameActions.emitEvent gameState
         setGameEvents].
    split; [auto |]. split; [| split; [| right; reflexivity]].
    + unfold efficienciesInRange. intros H.
      apply Forall_forall. intros f Hf. apply in_map_iff in Hf.
      destruct Hf as (f0 & <- & Hf0). cbn [Automation.f_efficiency].
      rewrite Forall_forall in H. apply reduce_efficiency_range, H, Hf0.
    + rewrite map_map. reflexivity.
Qed.

Lemma processMaintenance_never_overdraws_witness :
  ledgerNonneg (resources (gameState (Automation.plantWorld ownedPlantExample)))
  /\ ledgerNonneg
       (resources (gameState
          (Automation.plantWorld
             (Automation.processMaintenance 9 ownedPlantExample)))).
Proof.
  assert (H : ledgerNonneg
                (resources (gameState (Automation.plantWorld ownedPlantExample)))).
  { unfold ledgerNonneg. vm_compute. repeat split; discriminate. }
  split; [exact H |].
  destruct (processMaintenance_never_overdraws 9 ownedPlantExample) as (I & _).
  exact (I H).
Defined.

Lemma recordUnlock_counter state now a w :
  totalUnlocked (achievements (gameState
     (AchievementService.recordUnlock state now a w)))
  = totalUnlocked (achievements state) + 1.
Proof.
  unfold AchievementService.recordUnlock, AchievementService.applyReward.
  destruct (rw_type (a_reward a) =? "money")%string; simpl;
    [destruct (rw_amount (a_reward a)) as [q |]; simpl;
     [destruct (JS.truthyQ q); simpl |] |]; reflexivity.
Qed.

Lemma last_cons_default {A} (l : list A) : forall x d,
  last (x :: l) d = last l x.
Proof.
  induction l as [| y l IH]; intros x d; [reflexivity |].
  change (last (x :: y :: l) d) with (last (y :: l) d).
  rewrite (IH y d), (IH y x). reflexivity.
Qed.

(** What one check leaves in the store of the unlocked ids: nothing new
    when nothing was unlocked, otherwise the list of the snapshot with the
    id of the last new rule and the counter of the snapshot plus one. *)
Lemma checkLoop_store state now todo : forall w,
  let r := AchievementService.checkLoop state now todo w in
  match snd (fst r) with
  | [] => achievements (gameState (snd r)) = achievements (gameState w)
  | first :: others =>
      unlocked (achievements (gameState (snd r)))
      = unlocked (achievements state) ++ [last (map a_id others) (a_id first)]
      /\ totalUnlocked (achievements (gameState (snd r)))
         = totalUnlocked (achievements state) + 1
  end.
Proof.
  induction todo as [| a rest IH]; intros w;
    cbn [AchievementService.checkLoop]; [reflexivity |].
  destruct (a_unlocked a).
  - specialize (IH w).
    destruct (AchievementService.checkLoop state now rest w) as [[all newly] w'].
    exact IH.
  - destruct (AchievementService.isAchievementMet a state).
    + pose proof (recordUnlock_effect state now a w) as (_ & _ & R3 & _).
      pose proof (recordUnlock_counter state now a w) as R5.
      specialize (IH (AchievementService.recordUnlock state now a w)).
      destruct (AchievementService.checkLoop state now rest
                  (AchievementService.recordUnlock state now a w))
        as [[all newly] w'].
      cbn [fst snd] in *. destruct newly as [| b more].
      * rewrite IH. cbn [map last]. split; [exact R3 | exact R5].
      * destruct IH as (I1 & I2). split; [| exact I2].
        rewrite I1. cbn [map]. rewrite last_cons_default. reflexivity.
    + specialize (IH w).
      destruct (AchievementService.checkLoop state now rest w) as [[all newly] w'].
      exact IH.
Qed.

Lemma checkLoop_flag_count state now todo : forall w,
  let r := AchievementService.checkLoop state now todo w in
  List.length (filter a_unlocked (fst (fst r)))
  = (List.length (filter a_unlocked todo) + List.length (snd (fst r)))%nat.
Proof.
  induction todo as [| a rest IH]; intros w;
    cbn [AchievementService.checkLoop]; [reflexivity |].
  destruct (a_unlocked a) eqn:U.
  - specialize (IH w).
    destruct (AchievementService.checkLoop state now rest w) as [[all newly] w'].
    cbn [fst snd filter] in *. rewrite U. cbn [List.length]. rewrite IH.
    reflexivity.
  - destruct (AchievementService.isAchievementMet a state).
    + specialize (IH (AchievementService.recordUnlock state now a w)).
      destruct (AchievementService.checkLoop state now rest
                  (AchievementService.recordUnlock state now a w))
        as [[all newly] w'].
      cbn [fst snd filter AchievementService.setUnlocked a_unlocked] in *.
      rewrite U. cbn [List.length]. rewrite IH. lia.
    + specialize (IH w).
      destruct (AchievementService.checkLoop state now rest w) as [[all newly] w'].
      cbn [fst snd filter] in *. rewrite U. exact IH.
Qed.

(** X19: one check records at most one unlock in the store.  The service
    flags every rule that a check newly unlocks, so its own count of
    unlocked rules grows by their number; the store's list of unlocked ids
    and its counter are rebuilt from the state read when the check began,
    so after a check that unlocked several rules the list has gained only
    the id of the last of them and the counter has grown by one. *)
Theorem checkAchievements_store_records_last_only (now : Z) (w : World) :
  let r := AchievementService.checkAchievements now w in
  Achievements.unlockedAchievements (snd r)
  = (Achievements.unlockedAchievements w + List.length (fst r))%nat
  /\ match fst r with
     | [] => achievements (gameState (snd r)) = achievements (gameState w)
     | first :: others =>
         unlocked (achievements (gameState (snd r)))
         = unlocked (achievements (gameState w))
           ++ [last (map a_id others) (a_id first)]
         /\ totalUnlocked (achievements (gameState (snd r)))
            = totalUnlocked (achievements (gameState w)) + 1
     end.
Proof.
  unfold AchievementService.checkAchievements,
    Achievements.unlockedAchievements.
  pose proof (checkLoop_store (gameState w) now (svcAchievements w) w) as S.
  pose proof (checkLoop_flag_count (gameState w) now (svcAchievements w) w) as C.
  destruct (AchievementService.checkLoop (gameState w) now (svcAchievements w) w)
    as [[all newly] w'].
  cbn [fst snd] in *. split; [exact C |]. exact S.
Qed.








Lemma find_filter_neg saveId l :
  Storage.get saveId
    (filter (fun s => negb (Storage.gs_id s =? saveId)%string) l) = None.
Proof.
  unfold Storage.get. induction l as [| s l IH]; [reflexivity |].
  cbn [filter]. destruct (Storage.gs_id s =? saveId)%string eqn:E;
    cbn [negb]; [exact IH |]. cbn [find]. rewrite E. exact IH.
Qed.

Lemma find_filter_other saveId other l :
  other <> saveId ->
  Storage.get other
    (filter (fun s => negb (Storage.gs_id s =? saveId)%string) l)
  = Storage.get other l.
Proof.
  intros Ne. unfold Storage.get. induction l as [| s l IH]; [reflexivity |].
  cbn [filter find]. destruct (Storage.gs_id s =? saveId)%string eqn:E;
    cbn [negb].
  - apply String.eqb_eq in E.
    destruct (Storage.gs_id s =? other)%string eqn:E2; [| exact IH].
    apply String.eqb_eq in E2. congruence.
  - cbn [find]. destruct (Storage.gs_id s =? other)%string; [reflexivity | exact IH].
Qed.

Lemma filter_nil_find saveId l :
  filter (fun s => (Storage.gs_id s =? saveId)%string) l = [] <->
  Storage.get saveId l = None.
Proof.
  unfold Storage.get. induction l as [| s l IH]; [split; reflexivity |].
  cbn [filter find]. destruct (Storage.gs_id s =? saveId)%string.
  - split; discriminate.
  - exact IH.
Qed.

(** X22: a deleted save cannot be loaded.  [deleteSave] answers false
    exactly when no save has the id, and then leaves the database alone;
    afterwards, in either case, loading that id gives null, the other
    saves are found as before, and a second deletion answers false. *)
Theorem deleteSave_then_load (digest : option Storage.json -> string)
    (saveId : string) (db : Storage.DB) :
  let r := SaveStore.deleteSave saveId db in
  (fst r = false <-> Storage.get saveId (Storage.saves db) = None)
  /\ (fst r = false -> snd r = db)
  /\ Storage.loadGame digest saveId (snd r) = (None, snd r)
  /\ (forall other, other <> saveId ->
        Storage.get other (Storage.saves (snd r))
        = Storage.get other (Storage.saves db))
  /\ fst (SaveStore.deleteSave saveId (snd r)) = false.
Proof.
  cbv zeta.
  assert (G : forall db', Storage.get saveId (Storage.saves db') = None ->
                SaveStore.deleteSave saveId db' = (false, db')).
  { intros db' H. apply filter_nil_find in H.
    unfold SaveStore.deleteSave. rewrite H. reflexivity. }
  destruct (Storage.get saveId (Storage.saves db)) eqn:E.
  - assert (D : SaveStore.deleteSave saveId db
                = (true,
                   Storage.trackEvent "game_deleted"
                     (Storage.mkDB
                        (filter (fun s => negb (Storage.gs_id s =? saveId)%string)
                           (Storage.saves db))
                        (Storage.analytics db)))).
    { unfold SaveStore.deleteSave.
      destruct (filter _ (Storage.saves db)) eqn:F; [| reflexivity].
      apply filter_nil_find in F. congruence. }
    rewrite D. cbn [fst snd].
    split; [split; discriminate |]. split; [discriminate |].
    split; [| split].
    + unfold Storage.loadGame, Storage.trackEvent. cbn [Storage.saves].
      rewrite find_filter_neg. reflexivity.
    + intros other Ne. unfold Storage.trackEvent. cbn [Storage.saves].
      apply find_filter_other, Ne.
    + rewrite G; [reflexivity |]. unfold Storage.trackEvent.
      cbn [Storage.saves]. apply find_filter_neg.
  - rewrite (G db E). cbn [fst snd].
    split; [split; reflexivity |]. split; [reflexivity |].
    split; [| split].
    + unfold Storage.loadGame. rewrite E. reflexivity.
    + reflexivity.
    + rewrite (G db E). reflexivity.
Qed.

Lemma deleteSave_then_load_witness :
  fst (SaveStore.deleteSave "gone" emptyDB) = false
  /\ snd (SaveStore.deleteSave "gone" emptyDB) = emptyDB.
Proof.
  assert (H : fst (SaveStore.deleteSave "gone" emptyDB) = false) by reflexivity.
  split; [exact H |].
  destruct (deleteSave_then_load sampleDigest "gone" emptyDB) as (_ & I & _).
  exact (I H).
Defined.

Lemma ltb_trans a b c :
  String.ltb a b = true -> String.ltb b c = true -> String.ltb a c = true.
Proof.
  unfold String.ltb. intros H1 H2.
  destruct (String.compare a b) eqn:E1; try discriminate.
  destruct (String.compare b c) eqn:E2; try discriminate.
  apply OrderedTypeEx.String_as_OT.cmp_lt in E1, E2.
  pose proof (OrderedTypeEx.String_as_OT.lt_trans _ _ _ E1 E2) as E3.
  apply OrderedTypeEx.String_as_OT.cmp_lt in E3.
  unfold OrderedTypeEx.String_as_OT.cmp in E3. rewrite E3. reflexivity.
Qed.

Lemma ltb_total a b : a <> b -> String.ltb a b = true \/ String.ltb b a = true.
Proof.
  intros Ne. unfold String.ltb. rewrite (String.compare_antisym b a).
  destruct (String.compare a b) eqn:E; cbn; auto.
  apply String.compare_eq_iff in E. contradiction.
Qed.

Lemma before_irrefl s : Storage.before s s = false.
Proof.
  unfold Storage.before. rewrite ltb_irrefl, andb_false_r, orb_false_r.
  destruct (Z.gtb_spec (Storage.gs_timestamp s) (Storage.gs_timestamp s));
    [lia | reflexivity].
Qed.

Lemma before_trans a b c :
  Storage.before a b = true -> Storage.before b c = true ->
  Storage.before a c = true.
Proof.
  unfold Storage.before. intros H1 H2.
  apply orb_true_iff in H1, H2. apply orb_true_iff.
  destruct (Z.gtb_spec (Storage.gs_timestamp a) (Storage.gs_timestamp c))
    as [G | G]; [left; reflexivity | right].
  destruct H1 as [H1 | H1], H2 as [H2 | H2];
    try (apply andb_true_iff in H1; destruct H1 as (T1 & L1);
         apply Z.eqb_eq in T1);
    try (apply andb_true_iff in H2; destruct H2 as (T2 & L2);
         apply Z.eqb_eq in T2);
    try (apply Z.gtb_lt in H1); try (apply Z.gtb_lt in H2); try lia.
  apply andb_true_iff. split; [apply Z.eqb_eq; lia |].
  exact (ltb_trans _ _ _ L2 L1).
Qed.

Lemma before_total a b :
  Storage.gs_id a <> Storage.gs_id b ->
  Storage.before a b = true \/ Storage.before b a = true.
Proof.
  intros Ne. unfold Storage.before.
  destruct (Z.gtb_spec (Storage.gs_timestamp a) (Storage.gs_timestamp b));
    [left; reflexivity |].
  destruct (Z.gtb_spec (Storage.gs_timestamp b) (Storage.gs_timestamp a));
    [right; reflexivity |].
  assert (E : Storage.gs_timestamp a = Storage.gs_timestamp b) by lia.
  rewrite E, Z.eqb_refl. cbn [orb andb].
  destruct (ltb_total _ _ Ne); auto.
Qed.

Lemma filter_length_lt {A} (p q : A -> bool) l x :
  (forall y, In y l -> p y = true -> q y = true) ->
  In x l -> p x = false -> q x = true ->
  (List.length (filter p l) < List.length (filter q l))%nat.
Proof.
  intros Imp Hin Px Qx.
  assert (Le : forall l', (forall y, In y l' -> p y = true -> q y = true) ->
             (List.length (filter p l') <= List.length (filter q l'))%nat).
  { induction l' as [| y l' IH]; intros I; [cbn; lia |].
    cbn [filter]. specialize (IH (fun z Hz => I z (or_intror Hz))).
    destruct (p y) eqn:Py.
    - rewrite (I y (or_introl eq_refl) Py). cbn [List.length]. lia.
    - destruct (q y); cbn [List.length]; lia. }
  induction l as [| y l IH]; [destruct Hin |].
  cbn [filter]. destruct Hin as [-> | Hin].
  - rewrite Px, Qx. cbn [List.length].
    specialize (Le l (fun z Hz => Imp z (or_intror Hz))). lia.
  - specialize (IH (fun z Hz => Imp z (or_intror Hz)) Hin).
    destruct (p y) eqn:Py.
    + rewrite (Imp y (or_introl eq_refl) Py). cbn [List.length]. lia.
    + destruct (q y); cbn [List.length]; lia.
Qed.

Lemma rank_lt l a b :
  In a l -> Storage.before a b = true ->
  (SaveStore.rank l a < SaveStore.rank l b)%nat.
Proof.
  intros Ha Hab. unfold SaveStore.rank.
  apply (filter_length_lt _ _ l a).
  - intros y _ Hy. exact (before_trans _ _ _ Hy Hab).
  - exact Ha.
  - apply before_irrefl.
  - exact Hab.
Qed.

Lemma distinctKeys_inj l a b :
  distinctKeys l -> In a l -> In b l ->
  Storage.gs_id a = Storage.gs_id b -> a = b.
Proof.
  unfold distinctKeys. induction l as [| x l IH]; [intros _ [] |].
  cbn [map]. intros ND Ha Hb E. inversion ND as [| ? ? Nin ND']; subst.
  destruct Ha as [-> | Ha], Hb as [-> | Hb]; [reflexivity | | |].
  - exfalso. apply Nin. rewrite E. apply in_map, Hb.
  - exfalso. apply Nin. rewrite <- E. apply in_map, Ha.
  - exact (IH ND' Ha Hb E).
Qed.

Lemma few_of_low_rank (l : list Storage.GameSave) (n : nat) :
  distinctKeys l ->
  (List.length (filter (fun s => SaveStore.rank l s <? n)%nat l) <= n)%nat.
Proof.
  intros DK.
  set (K := filter (fun s => (SaveStore.rank l s <? n)%nat) l).
  assert (NDl : NoDup l) by (exact (NoDup_map_inv _ _ DK)).
  assert (NDK : NoDup K) by (apply NoDup_filter, NDl).
  assert (ND : NoDup (map (SaveStore.rank l) K)).
  { apply NoDup_map_NoDup_ForallPairs; [| exact NDK].
    intros a b Ha Hb E. apply filter_In in Ha, Hb.
    destruct Ha as (Ha & _), Hb as (Hb & _).
    destruct (string_dec (Storage.gs_id a) (Storage.gs_id b)) as [Eid | Ne].
    - exact (distinctKeys_inj l a b DK Ha Hb Eid).
    - exfalso. destruct (before_total a b Ne) as [B | B].
      + pose proof (rank_lt l a b Ha B). lia.
      + pose proof (rank_lt l b a Hb B). lia. }
  assert (I : incl (map (SaveStore.rank l) K) (seq 0 n)).
  { intros r Hr. apply in_map_iff in Hr. destruct Hr as (s & <- & Hs).
    apply filter_In in Hs. destruct Hs as (_ & Hs).
    apply Nat.ltb_lt in Hs. apply in_seq. lia. }
  pose proof (NoDup_incl_length ND I) as L.
  rewrite length_map, length_seq in L. exact L.
Qed.

Lemma filter_twice {A} (p q : A -> bool) l :
  filter p (filter q l) = filter (fun x => q x && p x) l.
Proof.
  induction l as [| x l IH]; [reflexivity |].
  cbn [filter]. destruct (q x); cbn [filter andb]; rewrite IH; reflexivity.
Qed.

Lemma existsb_key_in l d s :
  distinctKeys l -> incl d l -> In s l ->
  existsb (fun x => (Storage.gs_id x =? Storage.gs_id s)%string) d = true ->
  In s d.
Proof.
  intros DK Inc Hs Ex. apply existsb_exists in Ex.
  destruct Ex as (x & Hx & E). apply String.eqb_eq in E.
  rewrite <- (distinctKeys_inj l x s DK (Inc x Hx) Hs E). exact Hx.
Qed.

(** X23: the clean-up keeps every manual save and at most five
    auto-saves.  In a table whose ids are distinct, what the clean-up
    leaves is part of what was there, every save that is not an auto-save
    is still there, no more than five auto-saves are, and a table with at
    most five auto-saves is left as it is. *)
Theorem cleanupAutoSaves_keeps_five (l : list Storage.GameSave) :
  distinctKeys l ->
  incl (Storage.cleanupAutoSaves l) l
  /\ (forall s, In s l -> Storage.gs_isAutoSave s = false ->
        In s (Storage.cleanupAutoSaves l))
  /\ (autoSaveCount (Storage.cleanupAutoSaves l) <= 5)%nat
  /\ ((autoSaveCount l <= 5)%nat -> Storage.cleanupAutoSaves l = l).
Proof.
  intros DK. unfold Storage.cleanupAutoSaves, autoSaveCount.
  set (A := filter Storage.gs_isAutoSave l).
  set (toDelete := filter _ A).
  assert (IncA : incl A l) by (intros s Hs; apply filter_In in Hs; tauto).
  assert (IncD : incl toDelete l).
  { intros s Hs. apply filter_In in Hs. apply IncA. tauto. }
  assert (DKA : distinctKeys A).
  { unfold distinctKeys, A. clear -DK. unfold distinctKeys in DK.
    induction l as [| x l IH]; [constructor |].
    cbn [map] in DK. inversion DK as [| ? ? Nin ND]; subst.
    cbn [filter]. destruct (Storage.gs_isAutoSave x); [| exact (IH ND)].
    cbn [map]. constructor; [| exact (IH ND)].
    intros Hin. apply Nin. apply in_map_iff in Hin.
    destruct Hin as (y & Ey & Hy). apply filter_In in Hy.
    rewrite <- Ey. apply in_map. tauto. }
  split; [| split; [| split]].
  - intros s Hs. apply filter_In in Hs. tauto.
  - intros s Hs Man. apply filter_In. split; [exact Hs |].
    apply negb_true_iff.
    destruct (existsb _ toDelete) eqn:Ex; [| reflexivity].
    pose proof (existsb_key_in l toDelete s DK IncD Hs Ex) as Hd.
    apply filter_In in Hd. destruct Hd as (Hd & _).
    apply filter_In in Hd. destruct Hd as (_ & Hd). congruence.
  - assert (E : filter Storage.gs_isAutoSave
                  (filter (fun s => negb (existsb (fun d =>
                       (Storage.gs_id d =? Storage.gs_id s)%string) toDelete)) l)
                = filter (fun s => (SaveStore.rank A s <? 5)%nat) A).
    { unfold A at 2. rewrite !filter_twice.
      apply filter_ext_in. intros s Hs.
      destruct (Storage.gs_isAutoSave s) eqn:Au;
        [| rewrite andb_false_r; reflexivity].
      rewrite andb_true_l, andb_true_r.
      assert (HsA : In s A) by (apply filter_In; tauto).
      destruct (existsb _ toDelete) eqn:Ex.
      + pose proof (existsb_key_in l toDelete s DK IncD Hs Ex) as Hd.
        apply filter_In in Hd. destruct Hd as (_ & Hd).
        apply Z.leb_le in Hd. cbn [negb]. symmetry. apply Nat.ltb_ge.
        unfold SaveStore.rank. lia.
      + cbn [negb]. symmetry. apply Nat.ltb_lt.
        destruct (Nat.lt_ge_cases (SaveStore.rank A s) 5) as [Lt | Ge];
          [exact Lt | exfalso].
        assert (Hd : In s toDelete).
        { apply filter_In. split; [exact HsA |]. apply Z.leb_le.
          unfold SaveStore.rank in Ge. lia. }
        assert (X : existsb (fun d =>
                      (Storage.gs_id d =? Storage.gs_id s)%string) toDelete
                    = true).
        { apply existsb_exists. exists s. split; [exact Hd |].
          apply String.eqb_refl. }
        congruence. }
    rewrite E. apply few_of_low_rank, DKA.
  - intros Few. fold A in Few.
    assert (Dnil : toDelete = []).
    { apply filter_none. intros s Hs. apply Z.leb_gt.
      assert (T : filter (fun _ : Storage.GameSave => true) A = A).
      { clear. induction A as [| x A IH]; [reflexivity |].
        cbn [filter]. rewrite IH. reflexivity. }
      pose proof (filter_length_lt (fun t => Storage.before t s)
                    (fun _ => true) A s (fun _ _ _ => eq_refl) Hs
                    (before_irrefl s) eq_refl) as Lt.
      rewrite T in Lt. lia. }
    rewrite Dnil.
    clear. induction l as [| x l IH]; [reflexivity |].
    cbn [filter existsb negb]. rewrite IH at 1. reflexivity.
Qed.

Lemma cleanupAutoSaves_keeps_five_witness :
  distinctKeys crowdedSaves
  /\ (autoSaveCount (Storage.cleanupAutoSaves crowdedSaves) <= 5)%nat.
Proof.
  assert (H : distinctKeys crowdedSaves).
  { unfold distinctKeys. vm_compute.
    repeat (constructor; [cbn; intuition discriminate |]). constructor. }
  split; [exact H |].
  destruct (cleanupAutoSaves_keeps_five crowdedSaves H) as (_ & _ & I & _).
  exact I.
Defined.

Lemma produceMatchsticks_automation clickCount now w :
  automation (gameState
     (snd (ProductionService.produceMatchsticks clickCount now w)))
  = automation (gameState w).
Proof.
  unfold ProductionService.produceMatchsticks.
  destruct (ProductionService.updateClickCombo now
              (ProductionService.updateClickStats clickCount now w))
    as [combo w2] eqn:E2.
  assert (G2 : gameState w2 = gameState w).
  { unfold ProductionService.updateClickCombo in E2. inversion E2. reflexivity. }
  cbv zeta.
  match goal with
  | |- context [AchievementService.checkAchievements now ?x] =>
      pose proof (checkAchievements_qualifying now x) as (_ & _ & Q & _);
      destruct (AchievementService.checkAchievements now x) as [n w7]
  end.
  cbn [fst snd] in *. rewrite <- Q. cbn. rewrite G2. reflexivity.
Qed.

Lemma clickerLoop_spec state clock todo : forall i w,
  let w' := Ticks.clickerLoop state clock i todo w in
  match filter clicking todo with
  | [] => automation (gameState w') = automation (gameState w)
  | first :: others =>
      autoClickers (automation (gameState w'))
      = Ticks.bumpClicks (ac_id (last others first))
          (clicksOf (last others first)) (autoClickers (automation state))
  end.
Proof.
  induction todo as [| clicker rest IH]; intros i w; [reflexivity |].
  cbn [Ticks.clickerLoop filter]. unfold clicking at 1, clicksOf at 1.
  destruct (ac_isActive clicker) eqn:Act; cbn [negb];
    [| exact (IH (S i) w)].
  destruct (find _ AutomationService.autoClickerConfigs) as [config |] eqn:F;
    [| exact (IH (S i) w)].
  cbv zeta.
  destruct (Qfloor _ >? 0) eqn:Pos; [| exact (IH (S i) w)].
  pose proof (produceMatchsticks_automation
                (Qfloor
                   (AutomationService.baseClicksPerSecond config
                    * (Ticks.autoClickFrequency / 1000)
                    * inject_Z (ac_level clicker) * ac_efficiency clicker))
                (clock i) w) as PA.
  destruct (ProductionService.produceMatchsticks _ (clock i) w) as [res w1].
  cbn [snd] in PA.
  match goal with
  | |- context [Ticks.clickerLoop state clock (S i) rest ?x] =>
      specialize (IH (S i) x)
  end.
  cbv zeta in IH.
  assert (Me : clicksOf clicker
               = Qfloor
                   (AutomationService.baseClicksPerSecond config
                    * (Ticks.autoClickFrequency / 1000)
                    * inject_Z (ac_level clicker) * ac_efficiency clicker)).
  { unfold clicksOf. rewrite Act, F. reflexivity. }
  destruct (filter clicking rest) as [| first others].
  - cbn [last]. rewrite IH, Me. reflexivity.
  - rewrite last_cons_default. exact IH.
Qed.

(** X24: an auto-click tick credits the clicks of one clicker only.  The
    clicker list written back after each producing clicker is rebuilt from
    the state read before the loop, so after a tick in which several
    clickers clicked the stored list is the one from before the tick with
    the click total of the last of them raised; the totals of the others
    are as before.  A tick without a producing clicker leaves the
    automation record alone. *)
Theorem processAutoClickers_credits_last_only (clock : nat -> Z) (w : World) :
  let before := autoClickers (automation (gameState w)) in
  let w' := Ticks.processAutoClickers clock w in
  match filter clicking before with
  | [] => automation (gameState w') = automation (gameState w)
  | first :: others =>
      autoClickers (automation (gameState w'))
      = Ticks.bumpClicks (ac_id (last others first))
          (clicksOf (last others first)) before
  end.
Proof.
  cbv zeta. unfold Ticks.processAutoClickers.
  exact (clickerLoop_spec (gameState w) clock
           (autoClickers (automation (gameState w))) 0%nat w).
Qed.

Lemma outputPerSecond_nonneg l : modestOutput l -> 0 <= outputPerSecond l.
Proof.
  unfold modestOutput. induction 1 as [| f l (B & O & _) _ IH];
    cbn [outputPerSecond fold_right]; [lia |].
  fold (outputPerSecond l). nia.
Qed.

Lemma totalProduction_fold l : modestOutput l -> forall acc,
  0 <= acc <= SafeBigInt.MAX_SAFE ->
  fold_left
    (fun sum facility =>
       SafeBigInt.add sum
         (SafeBigInt.divide
            (SafeBigInt.multiply
               (SafeBigInt.multiply (Automation.f_baseProduction facility)
                  (Automation.f_owned facility))
               Ticks.autoProductionFrequency) 1000)) l acc
  = Z.min (acc + outputPerSecond l) SafeBigInt.MAX_SAFE.
Proof.
  intros M. pose proof MAX_SAFE_pos as MP.
  induction M as [| f l (B & O & Cap) Ml IH]; intros acc Hacc.
  - cbn [fold_left outputPerSecond fold_right]. rewrite Z.add_0_r. lia.
  - cbn [fold_left outputPerSecond fold_right]. fold (outputPerSecond l).
    pose proof (outputPerSecond_nonneg l Ml) as Nn.
    set (bo := Automation.f_baseProduction f * Automation.f_owned f) in *.
    assert (Hbo : 0 <= bo) by (unfold bo; nia).
    assert (E1 : SafeBigInt.multiply (Automation.f_baseProduction f)
                   (Automation.f_owned f) = bo).
    { unfold SafeBigInt.multiply. fold bo.
      destruct (Z.gtb_spec bo SafeBigInt.MAX_SAFE); [lia | reflexivity]. }
    rewrite E1.
    assert (E2 : SafeBigInt.divide
                   (SafeBigInt.multiply bo Ticks.autoProductionFrequency) 1000
                 = bo).
    { unfold SafeBigInt.multiply, SafeBigInt.divide,
        Ticks.autoProductionFrequency.
      destruct (Z.gtb_spec (bo * 1000) SafeBigInt.MAX_SAFE); [lia |].
      cbn [Z.eqb]. apply Z.quot_mul. lia. }
    rewrite E2. rewrite IH.
    + unfold SafeBigInt.add.
      destruct (Z.gtb_spec (acc + bo) SafeBigInt.MAX_SAFE); lia.
    + unfold SafeBigInt.add.
      destruct (Z.gtb_spec (acc + bo) SafeBigInt.MAX_SAFE); lia.
Qed.

Lemma totalProduction_efficiency now s :
  Ticks.totalProduction
    (Automation.facilityConfigs (Automation.reduceFacilityEfficiency now s))
  = Ticks.totalProduction (Automation.facilityConfigs s).
Proof.
  unfold Ticks.totalProduction, Automation.reduceFacilityEfficiency.
  cbn [Automation.facilityConfigs]. generalize 0.
  induction (Automation.facilityConfigs s) as [| f l IH]; intros acc;
    [reflexivity |].
  cbn [map fold_left Automation.f_baseProduction Automation.f_owned].
  apply IH.
Qed.

(** X25: a production tick adds the summed output of the facilities, and
    does not read their efficiency.  While each facility's output for the
    tick is within the safe range, the amount produced is the sum of base
    production times owned count over the facilities, capped at the safe
    maximum; a positive amount is added (through the clamped addition) to
    the matchsticks and to the total produced, a zero amount changes
    nothing.  Lowering the efficiencies, as unpaid maintenance does,
    leaves the amount the same. *)
Theorem processAutoProduction_sums_output (now : Z) (s : Automation.Plant) :
  modestOutput (Automation.facilityConfigs s) ->
  let total :=
    Z.min (outputPerSecond (Automation.facilityConfigs s))
      SafeBigInt.MAX_SAFE in
  let s' := Ticks.processAutoProduction now s in
  Ticks.totalProduction (Automation.facilityConfigs s) = total
  /\ (total = 0 -> s' = s)
  /\ (0 < total ->
      matchsticks (resources (gameState (Automation.plantWorld s')))
      = SafeBigInt.add
          (matchsticks (resources (gameState (Automation.plantWorld s))))
          total
      /\ totalProduced (production (gameState (Automation.plantWorld s')))
         = SafeBigInt.add
             (totalProduced
                (production (gameState (Automation.plantWorld s))))
             total)
  /\ (forall t,
        Ticks.totalProduction
          (Automation.facilityConfigs
             (Automation.reduceFacilityEfficiency t s)) = total).
Proof.
  intros M. cbv zeta.
  assert (T : Ticks.totalProduction (Automation.facilityConfigs s)
              = Z.min (outputPerSecond (Automation.facilityConfigs s))
                  SafeBigInt.MAX_SAFE).
  { unfold Ticks.totalProduction. pose proof MAX_SAFE_pos.
    rewrite (totalProduction_fold _ M 0); [reflexivity | lia]. }
  split; [exact T |].
  unfold Ticks.processAutoProduction. cbv zeta. rewrite T.
  set (total := Z.min _ _). split; [| split].
  - intros ->. reflexivity.
  - intros Pos. destruct (Z.gtb_spec total 0) as [_ | N]; [| lia].
    cbn [Automation.plantWorld]. split.
    + cbn. unfold JS.truthyZ. destruct (Z.eqb_spec total 0); [lia |].
      reflexivity.
    + cbn. reflexivity.
  - intros t. rewrite totalProduction_efficiency. exact T.
Qed.

Lemma processAutoProduction_sums_output_witness :
  modestOutput (Automation.facilityConfigs ownedPlantExample)
  /\ Ticks.totalProduction (Automation.facilityConfigs ownedPlantExample)
     = Z.min (outputPerSecond (Automation.facilityConfigs ownedPlantExample))
         SafeBigInt.MAX_SAFE.
Proof.
  assert (H : modestOutput (Automation.facilityConfigs ownedPlantExample)).
  { unfold modestOutput. apply Forall_forall. intros f Hf.
    vm_compute in Hf.
    destruct Hf as [<- | [<- | [<- | []]]]; (split; [| split]);
      vm_compute; discriminate. }
  split; [exact H |].
  destruct (processAutoProduction_sums_output 2 ownedPlantExample H)
    as (I & _).
  exact I.
Defined.

Lemma prune_arr items :
  prune (Storage.VArr items)
  = Storage.VArr
      (map (fun x => match x with
                     | Storage.VUndef => Storage.VNull
                     | _ => prune x
                     end) items).
Proof. reflexivity. Qed.

Lemma prune_obj props :
  prune (Storage.VObj props)
  = Storage.VObj
      (flat_map (fun p => match snd p with
                          | Storage.VUndef => []
                          | _ => [(fst p, prune (snd p))]
                          end) props).
Proof. reflexivity. Qed.

(** The encoder does not tell a state from its pruned form. *)
Lemma stringify_prune v : Storage.stringify (prune v) = Storage.stringify v.
Proof.
  induction v as [| | b | q | s | z | items IH | props IH]
    using jsval_nested_ind; try reflexivity.
  - rewrite prune_arr, !stringify_arr. f_equal. f_equal.
    induction IH as [| x rest Hx _ IHr]; [reflexivity |].
    cbn [map]. rewrite IHr. f_equal.
    destruct x; try (rewrite Hx; reflexivity). reflexivity.
  - rewrite prune_obj, !stringify_obj. f_equal. f_equal.
    induction IH as [| [k x] rest Hx _ IHr]; [reflexivity |].
    cbn [flat_map fst snd] in *. rewrite <- IHr.
    destruct x; cbn [app flat_map fst snd]; try (rewrite Hx);
      try reflexivity;
      match goal with
      | |- context [match ?t with Some _ => _ | None => _ end] =>
          destruct t; reflexivity
      end.
Qed.

Lemma saveGame_sanitized digest g sanitized name isAutoSave saveId
    generatedName now db :
  Storage.sanitizeGameState g = Some sanitized -> hasSections g = true ->
  exists saveName version l2,
    Storage.saveGame digest g name isAutoSave saveId generatedName now db
    = (Some saveId,
       Storage.trackEvent "game_saved" (Storage.mkDB l2 (Storage.analytics db)))
    /\ l2 = (if isAutoSave
             then Storage.cleanupAutoSaves
                    (Storage.put
                       (Storage.mkSave saveId saveName sanitized now version
                          (Some (Storage.createChecksum digest g)) isAutoSave)
                       (Storage.saves db))
             else Storage.put
                    (Storage.mkSave saveId saveName sanitized now version
                       (Some (Storage.createChecksum digest g)) isAutoSave)
                    (Storage.saves db)).
Proof.
  intros Hp Hs. unfold Storage.saveGame. rewrite Hp.
  unfold hasSections in Hs.
  destruct (Storage.member g "metadata") as [m |]; [| discriminate].
  destruct (Storage.member g "progression") as [p |]; [| discriminate].
  destruct (Storage.member m "version") as [v |]; [| discriminate].
  destruct (Storage.member p "currentPhase") as [c |]; [| discriminate].
  eexists _, v, _. split; reflexivity.
Qed.

Lemma dataOf_arr items :
  dataOf (Storage.VArr items) = Storage.VArr (map dataOf items).
Proof. reflexivity. Qed.

Lemma dataOf_obj props :
  dataOf (Storage.VObj props)
  = Storage.VObj
      (flat_map (fun p => match snd p with
                          | Storage.VUndef => []
                          | _ => [(fst p, dataOf (snd p))]
                          end) props).
Proof. reflexivity. Qed.

Lemma definedElements_arr items :
  definedElements (Storage.VArr items)
  = forallb (fun x => match x with
                      | Storage.VUndef => false
                      | _ => definedElements x
                      end) items.
Proof. reflexivity. Qed.

Lemma definedElements_obj props :
  definedElements (Storage.VObj props)
  = forallb (fun p => definedElements (snd p)) props.
Proof. reflexivity. Qed.

Lemma dataOf_undef x : dataOf x = Storage.VUndef -> x = Storage.VUndef.
Proof. destruct x; try discriminate. reflexivity. Qed.

(** Where no array holds [undefined], pruning only drops properties. *)
Lemma prune_dataOf v : definedElements v = true -> prune v = dataOf v.
Proof.
  induction v as [| | b | q | s | z | items IH | props IH]
    using jsval_nested_ind; intros D; try reflexivity.
  - rewrite definedElements_arr in D. rewrite prune_arr, dataOf_arr. f_equal.
    induction IH as [| x rest Hx _ IHr]; [reflexivity |].
    cbn [forallb] in D. apply andb_true_iff in D. destruct D as (Dx & Dr).
    cbn [map]. rewrite (IHr Dr). f_equal.
    destruct x; try discriminate; try reflexivity; exact (Hx Dx).
  - rewrite definedElements_obj in D. rewrite prune_obj, dataOf_obj. f_equal.
    induction IH as [| [k x] rest Hx _ IHr]; [reflexivity |].
    cbn [forallb snd] in D. apply andb_true_iff in D. destruct D as (Dx & Dr).
    cbn [flat_map fst snd] in *. rewrite (IHr Dr). f_equal.
    destruct x; try reflexivity; rewrite (Hx Dx); reflexivity.
Qed.

Lemma dataOf_idem v : dataOf (dataOf v) = dataOf v.
Proof.
  induction v as [| | b | q | s | z | items IH | props IH]
    using jsval_nested_ind; try reflexivity.
  - rewrite !dataOf_arr. f_equal. rewrite map_map.
    induction IH as [| x rest Hx _ IHr]; [reflexivity |].
    cbn [map]. rewrite Hx, IHr. reflexivity.
  - rewrite !dataOf_obj. f_equal.
    induction IH as [| [k x] rest Hx _ IHr]; [reflexivity |].
    cbn [flat_map fst snd] in *.
    destruct x; cbn [app flat_map fst snd]; try exact IHr;
      rewrite IHr; try reflexivity.
    + rewrite Hx. rewrite dataOf_arr. reflexivity.
    + rewrite Hx. rewrite dataOf_obj. reflexivity.
Qed.

(** A state without [undefined] is its own data. *)
Lemma plain_dataOf v : Storage.plain v = true -> dataOf v = v.
Proof.
  induction v as [| | b | q | s | z | items IH | props IH]
    using jsval_nested_ind; intros Hp; try reflexivity.
  - cbn [Storage.plain] in Hp. rewrite dataOf_arr. f_equal.
    induction IH as [| x rest Hx _ IHr]; [reflexivity |].
    cbn [forallb] in Hp. apply andb_true_iff in Hp. destruct Hp as (Px & Pr).
    cbn [map]. rewrite (Hx Px), (IHr Pr). reflexivity.
  - cbn [Storage.plain] in Hp. apply andb_true_iff in Hp.
    destruct Hp as (_ & Hp). rewrite dataOf_obj. f_equal.
    induction IH as [| [k x] rest Hx _ IHr]; [reflexivity |].
    cbn [forallb snd] in Hp. apply andb_true_iff in Hp.
    destruct Hp as (Px & Pr).
    cbn [flat_map fst snd] in *. rewrite (IHr Pr).
    destruct x; try discriminate; try reflexivity;
      rewrite (Hx Px); reflexivity.
Qed.

(** What a save stores and a load returns, for any state whose pruned form
    is plain. *)
Lemma save_then_load digest g name isAutoSave saveId generatedName now db :
  Storage.plain (prune g) = true ->
  hasSections g = true ->
  (isAutoSave = true -> autoSavesOlder now (Storage.saves db)) ->
  fst (Storage.saveGame digest g name isAutoSave saveId generatedName now db)
  = Some saveId
  /\ fst (Storage.loadGame digest saveId
            (snd (Storage.saveGame digest g name isAutoSave saveId
                    generatedName now db)))
     = Some (prune g).
Proof.
  intros Hp Hs Old.
  pose proof (stringify_prune g) as SP.
  assert (San : Storage.sanitizeGameState g = Some (prune g)).
  { pose proof (sanitize_plain (prune g) Hp) as S.
    unfold Storage.sanitizeGameState in *. rewrite <- SP. exact S. }
  assert (Ck : Storage.createChecksum digest (prune g)
               = Storage.createChecksum digest g).
  { unfold Storage.createChecksum. rewrite SP. reflexivity. }
  destruct (saveGame_sanitized digest g (prune g) name isAutoSave saveId
              generatedName now db San Hs) as (saveName & version & l2 & E & El).
  rewrite E. cbn [fst snd]. split; [reflexivity |].
  set (save := Storage.mkSave saveId saveName (prune g) now version
                 (Some (Storage.createChecksum digest g)) isAutoSave) in *.
  assert (G : Storage.get saveId l2 = Some save).
  { rewrite El. destruct isAutoSave.
    - apply (get_cleanup_put save). apply Old. reflexivity.
    - apply (get_put save). }
  destruct (loadGame_cases digest saveId
              (Storage.trackEvent "game_saved"
                 (Storage.mkDB l2 (Storage.analytics db))) save G)
    as [(_ & c & Hc & _ & Hd) | (L & _)].
  - exfalso. cbn in Hc. inversion Hc. subst c. apply Hd. exact Ck.
  - exact L.
Qed.

(** C8: loading a save of a state returns the data of that state.  For
    every state tree that has the [metadata] and [progression] sections
    the save reads, holds no [undefined] array element and no object with
    the reserved bigint tag, saving succeeds and loading that save returns
    the tree less the properties that hold [undefined], which has the same
    data and the same JSON text as the state; a state without such
    properties comes back identical (for an auto-save, provided the stored
    auto-saves are older, so that the clean-up keeps the new one).  A
    bigint of any magnitude is encoded as a tagged object holding its
    decimal string, and reviving that encoding yields the bigint. *)
Theorem save_load_roundtrip
    (digest : option Storage.json -> string) (g : Storage.jsval)
    (name : option string) (isAutoSave : bool)
    (saveId generatedName : string) (now : Z) (db : Storage.DB) :
  definedElements g = true ->
  Storage.plain (dataOf g) = true ->
  hasSections g = true ->
  (isAutoSave = true -> autoSavesOlder now (Storage.saves db)) ->
  fst (Storage.saveGame digest g name isAutoSave saveId generatedName now db)
  = Some saveId
  /\ (exists loaded,
        fst (Storage.loadGame digest saveId
               (snd (Storage.saveGame digest g name isAutoSave saveId
                       generatedName now db)))
        = Some loaded
        /\ loaded = dataOf g
        /\ sameData loaded g
        /\ Storage.stringify loaded = Storage.stringify g
        /\ (Storage.plain g = true -> loaded = g))
  /\ (forall b : Z,
        Storage.stringify (Storage.VBig b)
        = Some (Storage.JObj
                  [("__type", Storage.JStr "bigint");
                   ("value", Storage.JStr (Storage.bigintToString b))])
        /\ Storage.sanitizeGameState (Storage.VBig b) = Some (Storage.VBig b)).
Proof.
  intros Hd Hp Hs Old.
  pose proof (prune_dataOf g Hd) as PD.
  rewrite <- PD in Hp.
  destruct (save_then_load digest g name isAutoSave saveId generatedName now
              db Hp Hs Old) as (S & L).
  split; [exact S |]. split; [| exact bigint_roundtrip].
  exists (prune g). split; [exact L |]. rewrite PD.
  split; [reflexivity |]. split; [apply dataOf_idem |]. split.
  - rewrite <- PD. apply stringify_prune.
  - apply plain_dataOf.
Qed.

Lemma save_load_roundtrip_witness :
  definedElements clearedConditionState = true
  /\ Storage.plain (dataOf clearedConditionState) = true
  /\ hasSections clearedConditionState = true
  /\ fst (Storage.saveGame sampleDigest clearedConditionState None true
            "auto1" "AutoSave_1" 5 (Storage.mkDB [noChecksumSave] []))
     = Some "auto1"
  /\ exists loaded,
       fst (Storage.loadGame sampleDigest "auto1"
              (snd (Storage.saveGame sampleDigest clearedConditionState None
                      true "auto1" "AutoSave_1" 5
                      (Storage.mkDB [noChecksumSave] []))))
       = Some loaded
       /\ sameData loaded clearedConditionState.
Proof.
  assert (H1 : definedElements clearedConditionState = true)
    by (vm_compute; reflexivity).
  assert (H2 : Storage.plain (dataOf clearedConditionState) = true)
    by (vm_compute; reflexivity).
  assert (H3 : hasSections clearedConditionState = true)
    by (vm_compute; reflexivity).
  split; [exact H1 |]. split; [exact H2 |]. split; [exact H3 |].
  destruct (save_load_roundtrip sampleDigest clearedConditionState None true
              "auto1" "AutoSave_1" 5 (Storage.mkDB [noChecksumSave] [])
              H1 H2 H3) as (S & (loaded & L & _ & D & _) & _).
  - intros _. constructor; [cbn; discriminate | constructor].
  - split; [exact S |]. exists loaded. split; [exact L | exact D].
Defined.

(** X26: what a save gives back is the pruned state, and its checksum
    still matches.  The JSON text of a state is that of its pruned form
    (properties holding [undefined] left out, [undefined] array elements
    as [null]); so, when the pruned form holds no object with the reserved
    bigint tag and the [metadata] and [progression] sections exist, saving
    succeeds, the checksum stored with the save is the checksum of what is
    stored, and loading returns the pruned form (for an auto-save, provided
    the stored auto-saves are older). *)
Theorem save_load_returns_pruned
    (digest : option Storage.json -> string) (g : Storage.jsval)
    (name : option string) (isAutoSave : bool)
    (saveId generatedName : string) (now : Z) (db : Storage.DB) :
  Storage.plain (prune g) = true ->
  hasSections g = true ->
  (isAutoSave = true -> autoSavesOlder now (Storage.saves db)) ->
  Storage.stringify (prune g) = Storage.stringify g
  /\ Storage.sanitizeGameState g = Some (prune g)
  /\ Storage.createChecksum digest (prune g) = Storage.createChecksum digest g
  /\ fst (Storage.saveGame digest g name isAutoSave saveId generatedName now db)
     = Some saveId
  /\ fst (Storage.loadGame digest saveId
            (snd (Storage.saveGame digest g name isAutoSave saveId
                    generatedName now db)))
     = Some (prune g).
Proof.
  intros Hp Hs Old.
  pose proof (stringify_prune g) as SP.
  assert (San : Storage.sanitizeGameState g = Some (prune g)).
  { pose proof (sanitize_plain (prune g) Hp) as S.
    unfold Storage.sanitizeGameState in *. rewrite <- SP. exact S. }
  assert (Ck : Storage.createChecksum digest (prune g)
               = Storage.createChecksum digest g).
  { unfold Storage.createChecksum. rewrite SP. reflexivity. }
  split; [exact SP |]. split; [exact San |]. split; [exact Ck |].
  destruct (saveGame_sanitized digest g (prune g) name isAutoSave saveId
              generatedName now db San Hs) as (saveName & version & l2 & E & El).
  rewrite E. cbn [fst snd]. split; [reflexivity |].
  set (save := Storage.mkSave saveId saveName (prune g) now version
                 (Some (Storage.createChecksum digest g)) isAutoSave) in *.
  assert (G : Storage.get saveId l2 = Some save).
  { rewrite El. destruct isAutoSave.
    - apply (get_cleanup_put save). apply Old. reflexivity.
    - apply (get_put save). }
  destruct (loadGame_cases digest saveId
              (Storage.trackEvent "game_saved"
                 (Storage.mkDB l2 (Storage.analytics db))) save G)
    as [(_ & c & Hc & _ & Hd) | (L & _)].
  - exfalso. cbn in Hc. inversion Hc. subst c. apply Hd. exact Ck.
  - exact L.
Qed.

Lemma save_load_returns_pruned_witness :
  Storage.plain (prune clearedConditionState) = true
  /\ hasSections clearedConditionState = true
  /\ fst (Storage.loadGame sampleDigest "s1"
            (snd (Storage.saveGame sampleDigest clearedConditionState None
                    false "s1" "Save_1" 1 emptyDB)))
     = Some (prune clearedConditionState).
Proof.
  assert (H1 : Storage.plain (prune clearedConditionState) = true)
    by (vm_compute; reflexivity).
  assert (H2 : hasSections clearedConditionState = true)
    by (vm_compute; reflexivity).
  split; [exact H1 |]. split; [exact H2 |].
  destruct (save_load_returns_pruned sampleDigest clearedConditionState None
              false "s1" "Save_1" 1 emptyDB H1 H2)
    as (_ & _ & _ & _ & I); [discriminate | exact I].
Defined.
